(** * Airline reservation service: booking, check-in and availability

    A shallow embedding of [src/app/app.py] (the Flask handlers and the SQL
    they send) and of the schema in [src/data/gerar_populate.py]
    ([SCHEMA_SQL]).

    Conventions of the embedding:
    - text is ASCII text: a [string] holds one character per position,
      each below 128 ([Py.is_ascii]).  The Python methods and the SQL
      functions are embedded as they act on such text; on other characters
      Python and the storage engine consult the Unicode tables, which are
      not embedded, so a statement that depends on how a character is
      classified, cased or counted is made for ASCII text and says so;
    - a timestamp is an instant, a number of microseconds ([Z]); the
      handlers' "assume UTC when the value carries no zone" step is the
      identity on instants;
    - a price is a number of cents;
    - a table is the list of its rows; the primary and foreign keys of
      [SCHEMA_SQL] are checked by the statements that write, and appear as
      hypotheses where a statement about reads needs them;
    - only [bilhete.lugar] and [bilhete.no_serie] are modelled as nullable. *)

From Stdlib Require Import ZArith List Bool String Ascii Lia Sorted Permutation.
From Stdlib Require Import DecimalString.
Import ListNotations.
Open Scope string_scope.
Open Scope list_scope.
Open Scope Z_scope.

Set Default Proof Using "Type".

(** ** Python text operations used by the handlers *)

Module Py.

Definition code (c : ascii) : N := N_of_ascii c.

(** The characters the text operations below are embedded for. *)
Definition ascii_char (c : ascii) : bool := (code c <? 128)%N.

Definition is_AZ (c : ascii) : bool := ((65 <=? code c) && (code c <=? 90))%N.
Definition is_az (c : ascii) : bool := ((97 <=? code c) && (code c <=? 122))%N.
Definition is_09 (c : ascii) : bool := ((48 <=? code c) && (code c <=? 57))%N.

(** [str.isspace] on one ASCII character: TAB, LF, VT, FF, CR, FS, GS, RS,
    US and space.  (Beyond ASCII Python also counts U+0085, U+00A0 and the
    Unicode spaces.) *)
Definition is_space (c : ascii) : bool :=
  (((9 <=? code c) && (code c <=? 13)) || ((28 <=? code c) && (code c <=? 32)))%N.

Fixpoint forallb_str (p : ascii -> bool) (s : string) : bool :=
  match s with
  | EmptyString => true
  | String c s' => p c && forallb_str p s'
  end.

Fixpoint existsb_str (p : ascii -> bool) (s : string) : bool :=
  match s with
  | EmptyString => false
  | String c s' => p c || existsb_str p s'
  end.

(** ASCII text: every character is below 128. *)
Definition is_ascii (s : string) : bool := forallb_str ascii_char s.

(** [s.isupper()] on ASCII text: at least one cased character and no
    lowercase one.  (Beyond ASCII the cased characters are those of the
    Unicode tables.) *)
Definition isupper (s : string) : bool :=
  existsb_str is_AZ s && forallb_str (fun c => negb (is_az c)) s.

(** [s.isdigit()] on ASCII text: non-empty and every character one of 0 to
    9.  (Beyond ASCII Python accepts every Unicode digit.) *)
Definition isdigit (s : string) : bool :=
  negb (String.eqb s "") && forallb_str is_09 s.

Definition upper_char (c : ascii) : ascii :=
  if is_az c then ascii_of_N (code c - 32) else c.

(** [s.upper()] on ASCII text, where it keeps the length.  (Beyond ASCII a
    character may upper-case to several.) *)
Fixpoint upper (s : string) : string :=
  match s with
  | EmptyString => EmptyString
  | String c s' => String (upper_char c) (upper s')
  end.

Fixpoint lstrip (s : string) : string :=
  match s with
  | EmptyString => EmptyString
  | String c s' => if is_space c then lstrip s' else s
  end.

Fixpoint rstrip (s : string) : string :=
  match s with
  | EmptyString => EmptyString
  | String c s' =>
      match rstrip s' with
      | EmptyString => if is_space c then EmptyString else String c EmptyString
      | r => String c r
      end
  end.

(** [s.strip()] on ASCII text *)
Definition strip (s : string) : string := rstrip (lstrip s).

(** [len(s)]: the number of characters, one per position on ASCII text. *)
Definition len (s : string) : Z := Z.of_nat (String.length s).

(** Truth value of a string: non-empty. *)
Definition truthy_str (s : string) : bool := negb (String.eqb s "").

End Py.

(** ** JSON values, as [request.get_json()] hands them to the handler *)

#[local] Set Warnings "-register-all".

Inductive json : Type :=
| JNull
| JBool (b : bool)
| JNum (n : Z)
| JStr (s : string)
| JArr (items : list json)
| JObj (fields : list (string * json)).

(** Python truth value of a decoded JSON value ([not data]). *)
Definition truthy (j : json) : bool :=
  match j with
  | JNull => false
  | JBool b => b
  | JNum n => negb (n =? 0)
  | JStr s => Py.truthy_str s
  | JArr l => match l with [] => false | _ => true end
  | JObj m => match m with [] => false | _ => true end
  end.

Fixpoint assoc (k : string) (m : list (string * json)) : option json :=
  match m with
  | [] => None
  | (k', v) :: m' => if String.eqb k k' then Some v else assoc k m'
  end.

(** [d.get(k)]: the value, or [None] (here [JNull]) when the key is absent. *)
Definition dict_get (k : string) (m : list (string * json)) : json :=
  match assoc k m with Some v => v | None => JNull end.

(** A decoded body whose strings and keys are all ASCII text. *)
Fixpoint ascii_json (j : json) : bool :=
  match j with
  | JNull | JBool _ | JNum _ => true
  | JStr s => Py.is_ascii s
  | JArr items => forallb ascii_json items
  | JObj fields =>
      forallb (fun kv => let '(k, v) := kv in Py.is_ascii k && ascii_json v)
              fields
  end.

(** ** The schema ([SCHEMA_SQL]) *)

Record Aeroporto := mkAeroporto {
  a_codigo : string; a_nome : string; a_cidade : string; a_pais : string }.

Record Aviao := mkAviao { av_no_serie : string; av_modelo : string }.

Record Assento := mkAssento {
  s_lugar : string; s_no_serie : string; s_prim_classe : bool }.

Record Voo := mkVoo {
  v_id : Z; v_no_serie : string; v_hora_partida : Z; v_hora_chegada : Z;
  v_partida : string; v_chegada : string }.

Record Venda := mkVenda {
  vd_codigo_reserva : Z; vd_nif_cliente : string; vd_balcao : string;
  vd_hora : Z }.

Record Bilhete := mkBilhete {
  b_id : Z; b_voo_id : Z; b_codigo_reserva : Z; b_nome_passegeiro : string;
  b_preco : Z; b_prim_classe : bool;
  b_lugar : option string; b_no_serie : option string }.

Record Tables := mkTables {
  aeroporto : list Aeroporto;
  aviao : list Aviao;
  assento : list Assento;
  voo : list Voo;
  venda : list Venda;
  bilhete : list Bilhete }.

(** The stored rows together with the two SERIAL sequences the handlers
    draw from.  A sequence holds the last value it gave out. *)
Record Database := mkDatabase {
  tables : Tables;
  venda_codigo_reserva_seq : Z;
  bilhete_id_seq : Z }.

Definition with_venda (t : Tables) (l : list Venda) : Tables :=
  mkTables (aeroporto t) (aviao t) (assento t) (voo t) l (bilhete t).

Definition with_bilhete (t : Tables) (l : list Bilhete) : Tables :=
  mkTables (aeroporto t) (aviao t) (assento t) (voo t) (venda t) l.

Definition with_tables (db : Database) (t : Tables) : Database :=
  mkDatabase t (venda_codigo_reserva_seq db) (bilhete_id_seq db).

(** SQL equality against a nullable column: never true on NULL. *)
Definition eq_nullable (col : option string) (x : string) : bool :=
  match col with
  | Some y => String.eqb y x
  | None => false
  end.

(** ** SQL text functions *)

Module Sql.

(** [regexp_replace(s, '[class]', '')] without the [g] flag: only the first
    match is replaced. *)
Fixpoint remove_first (p : ascii -> bool) (s : string) : string :=
  match s with
  | EmptyString => EmptyString
  | String c s' => if p c then s' else String c (remove_first p s')
  end.

Definition digit_value (c : ascii) : Z := Z.of_N (Py.code c) - 48.

Fixpoint decimal (acc : Z) (s : string) : Z :=
  match s with
  | EmptyString => acc
  | String c s' => decimal (10 * acc + digit_value c) s'
  end.

(** [CAST(s AS INTEGER)] on the texts the seat CHECK lets through, which
    are digit strings; any other text is reported as a failed cast. *)
Definition cast_integer (s : string) : option Z :=
  if Py.isdigit s then Some (decimal 0 s) else None.

(** Text ordering of ORDER BY, character code by character code. *)
Definition text_leb (s1 s2 : string) : bool := String.leb s1 s2.

Definition all_blank (s : string) : bool :=
  Py.forallb_str (fun c => (Py.code c =? 32)%N) s.

(** Storing a text into VARCHAR(n): it is kept when it fits, cut to [n]
    when what exceeds is only spaces, and refused otherwise. *)
Definition varchar (n : nat) (s : string) : option string :=
  if (String.length s <=? n)%nat then Some s
  else if all_blank (substring n (String.length s - n) s)
       then Some (substring 0 n s)
       else None.

(** A text with a NUL character: the driver refuses to send it as a
    parameter ([psycopg.DataError], raised before the statement runs). *)
Definition has_nul (s : string) : bool :=
  Py.existsb_str (fun c => (Py.code c =? 0)%N) s.

(** The largest value of the sequence behind a SERIAL column. *)
Definition serial_max : Z := 2147483647.

(** [nextval] on the sequence of a SERIAL column that last gave out [last]:
    the next value, or nothing once the largest value has been given out
    (the statement then fails with SQLSTATE 2200H). *)
Definition nextval (last : Z) : option Z :=
  if last <? serial_max then Some (last + 1) else None.

End Sql.

(** ** Statement results and transactions *)

(** What a statement gives back: its value, or a [psycopg.Error] with the
    SQLSTATE it carries, if any (an error raised by the driver before the
    statement is sent carries none). *)
Inductive result (A : Type) : Type :=
| Ok (a : A)
| Raise (sqlstate : option string).

Arguments Ok {A} a.
Arguments Raise {A} sqlstate.

(** A statement run on the connection: it sees and changes the working state
    of the open transaction. *)
Definition Tx (A : Type) : Type := Database -> result A * Database.

Definition ret {A} (a : A) : Tx A := fun db => (Ok a, db).

Definition raise {A} (code : string) : Tx A := fun db => (Raise (Some code), db).

Definition bind {A B} (m : Tx A) (k : A -> Tx B) : Tx B :=
  fun db =>
    match m db with
    | (Ok a, db') => k a db'
    | (Raise e, db') => (Raise e, db')
    end.

Notation "x <- m ;; k" := (bind m (fun x => k))
  (at level 61, m at next level, right associativity).
Notation "m ;;; k" := (bind m (fun _ => k))
  (at level 61, right associativity).

(** [with conn.transaction():] commits when the block is left normally
    (also by [return]) and rolls the rows back when it is left by an
    exception.  Values drawn from a sequence are not given back. *)
Definition transaction {A} (body : Tx A) : Tx A :=
  fun db =>
    match body db with
    | (Ok a, db') => (Ok a, db')
    | (Raise e, db') => (Raise e, with_tables db' (tables db))
    end.

(** ** HTTP responses *)

(** The JSON bodies the handlers build, one constructor per [jsonify] call
    of the source, carrying the values interpolated into it. *)
Inductive Body : Type :=
(* list_flights_from_departure *)
| DepartureCodeInvalid
| DepartureAirportMissing (codigo : string)
| NoFlightsNext12h (codigo : string)
| FlightsFrom (rows : list (string * Z * string))
(* list_next_available_flights *)
| AirportCodesInvalid
| SameAirports
| AirportsMissing (partida_missing chegada_missing : bool)
| NoScheduledFlights
| AllFlightsFull
| AvailableFlights (rows : list (Z * string * Z))
(* purchase_tickets *)
| RequestDataMissing
| ClientNifInvalid
| TicketListInvalid
| TicketFormatInvalid (index : nat)
| FlightNotFound (voo_id : Z)
| FlightDepartedOrClosed
| PurchaseSuccessful (codigo_reserva : Z)
                     (bilhetes_comprados : list (Z * string * bool * Z))
(* checkin_ticket *)
| TicketNotFound (bilhete_id : Z)
| CheckinAlreadyCompleted (bilhete_id : Z) (lugar : string)
| CheckinFlightDeparted
| NoSeatsAvailable (prim_classe : bool) (voo_id : Z) (no_serie : string)
| CheckinSuccessful (bilhete_id : Z) (lugar_atribuido : string)
                    (aviao_no_serie : string)
(* handle_general_exception; the message of a database error is the first
   line of [str(e)], for which the SQLSTATE of the error stands here *)
| DatabaseError (sqlstate : option string)
| UnexpectedError.

Definition Response : Type := Z * Body.

Definition status (r : Response) : Z := fst r.

(** [getattr(e, "pgcode", None)] on an error raised by the driver.  The
    driver imported is psycopg 3 ([import psycopg], with [psycopg_pool] and
    [psycopg.rows]), whose errors keep the SQLSTATE in the attribute
    [sqlstate] and have no attribute [pgcode]: the default [None] is what
    the handler reads, whatever the SQLSTATE. *)
Definition getattr_pgcode (sqlstate : option string) : option string := None.

(** [handle_general_exception] on a [psycopg.DatabaseError] with SQLSTATE
    [sqlstate] whose attribute [pgcode] reads [pgcode]: 409 for a trigger's
    [raise_exception] (P0001) and for the integrity class 23, else 500. *)
Definition handle_psycopg_error (sqlstate pgcode : option string) : Response :=
  match pgcode with
  | Some c =>
      if String.eqb c "P0001" then (409, DatabaseError sqlstate)
      else if String.prefix "23" c then (409, DatabaseError sqlstate)
      else (500, DatabaseError sqlstate)
  | None => (500, DatabaseError sqlstate)
  end.

(** [handle_general_exception] on any other exception that is not an HTTP
    exception (an [AttributeError], say). *)
Definition handle_other_exception : Response := (500, UnexpectedError).

(** What a route answers when the driver refuses a text parameter that
    holds a NUL: the [psycopg.DataError], which carries no SQLSTATE, is
    re-raised by the route and reaches [handle_general_exception]. *)
Definition refused_parameter : Response :=
  handle_psycopg_error None (getattr_pgcode None).

(** ** Queries of the availability routes *)

Fixpoint insert_by {A} (leb : A -> A -> bool) (x : A) (l : list A) : list A :=
  match l with
  | [] => [x]
  | y :: l' => if leb x y then x :: l else y :: insert_by leb x l'
  end.

(** ORDER BY, as an insertion sort on the rows in table order. *)
Fixpoint order_by {A} (leb : A -> A -> bool) (l : list A) : list A :=
  match l with
  | [] => []
  | x :: l' => insert_by leb x (order_by leb l')
  end.

Definition by_hora_partida (v1 v2 : Voo) : bool :=
  v_hora_partida v1 <=? v_hora_partida v2.

(** [SELECT COUNT( * ) FROM aeroporto WHERE codigo = %s], then [> 0]. *)
Definition airport_exists (t : Tables) (codigo : string) : bool :=
  0 <? Z.of_nat (List.length (filter (fun a => String.eqb (a_codigo a) codigo)
                                (aeroporto t))).

(** [timedelta(hours=12)] *)
Definition twelve_hours : Z := 12 * 3600 * 1000000.

(** The format gate of both routes: [len(c) == 3 and c.isupper()]. *)
Definition code_format_ok (c : string) : bool :=
  (Py.len c =? 3) && Py.isupper c.

(** GET /voos/<partida_codigo>/, at application time [now_app_tz]. *)
Definition list_flights_from_departure
    (t : Tables) (now_app_tz : Z) (partida_codigo : string) : Response :=
  if negb (code_format_ok partida_codigo) then (400, DepartureCodeInvalid)
  else if Sql.has_nul (Py.upper partida_codigo) then refused_parameter
  else if negb (airport_exists t (Py.upper partida_codigo))
  then (404, DepartureAirportMissing (Py.upper partida_codigo))
  else
    let twelve_hours_later_app_tz := now_app_tz + twelve_hours in
    let flights :=
      order_by by_hora_partida
        (filter (fun v => String.eqb (v_partida v) (Py.upper partida_codigo)
                          && (now_app_tz <? v_hora_partida v)
                          && (v_hora_partida v <=? twelve_hours_later_app_tz))
                (voo t)) in
    match flights with
    | [] => (200, NoFlightsNext12h partida_codigo)
    | _ => (200, FlightsFrom
                   (map (fun v => (v_no_serie v, v_hora_partida v, v_chegada v))
                        flights))
    end.

(** [SELECT COUNT( * ) FROM assento s_count WHERE s_count.no_serie = v.no_serie] *)
Definition count_assento (t : Tables) (no_serie : string) : Z :=
  Z.of_nat (List.length (filter (fun s => String.eqb (s_no_serie s) no_serie)
                           (assento t))).

(** [SELECT COUNT( * ) FROM bilhete b_count WHERE b_count.voo_id = v.id] *)
Definition count_bilhete (t : Tables) (voo_id : Z) : Z :=
  Z.of_nat (List.length (filter (fun b => b_voo_id b =? voo_id) (bilhete t))).

Definition on_route (partida chegada : string) (now : Z) (v : Voo) : bool :=
  String.eqb (v_partida v) partida && String.eqb (v_chegada v) chegada
  && (now <? v_hora_partida v).

(** [query_all_flights] *)
Definition query_all_flights
    (t : Tables) (now : Z) (partida chegada : string) : list Voo :=
  order_by by_hora_partida (filter (on_route partida chegada now) (voo t)).

(** [voo v JOIN aviao av ON v.no_serie = av.no_serie], keeping [v]. *)
Definition voo_join_aviao (t : Tables) : list Voo :=
  flat_map (fun v =>
              map (fun _ => v)
                  (filter (fun av => String.eqb (v_no_serie v) (av_no_serie av))
                          (aviao t)))
           (voo t).

Definition has_free_seat (t : Tables) (v : Voo) : bool :=
  count_bilhete t (v_id v) <? count_assento t (v_no_serie v).

(** [query_available] *)
Definition query_available
    (t : Tables) (now : Z) (partida chegada : string) : list Voo :=
  firstn 3
    (order_by by_hora_partida
       (filter (fun v => on_route partida chegada now v && has_free_seat t v)
               (voo_join_aviao t))).

Definition flight_row (v : Voo) : Z * string * Z :=
  (v_id v, v_no_serie v, v_hora_partida v).

(** GET /voos/<partida_codigo>/<chegada_codigo>/, at storage time [now]. *)
Definition list_next_available_flights
    (t : Tables) (now : Z) (partida_codigo chegada_codigo : string) : Response :=
  let partida_upper := Py.upper partida_codigo in
  let chegada_upper := Py.upper chegada_codigo in
  if negb (code_format_ok partida_upper && code_format_ok chegada_upper)
  then (400, AirportCodesInvalid)
  else if String.eqb partida_upper chegada_upper then (400, SameAirports)
  else if Sql.has_nul partida_upper || Sql.has_nul chegada_upper
  then refused_parameter
  else
    let partida_exists := airport_exists t partida_upper in
    let chegada_exists := airport_exists t chegada_upper in
    if negb partida_exists || negb chegada_exists
    then (404, AirportsMissing (negb partida_exists) (negb chegada_exists))
    else
      let all_flights := query_all_flights t now partida_upper chegada_upper in
      let flights := query_available t now partida_upper chegada_upper in
      match all_flights, flights with
      | [], _ => (200, NoScheduledFlights)
      | _, [] => (200, AllFlightsFull)
      | _, _ => (200, AvailableFlights (map flight_row flights))
      end.

(** ** Statements of the write routes *)

(** A row-level write, as the triggers see it. *)
Inductive RowWrite : Type :=
| InsertVenda (row : Venda)
| InsertBilhete (row : Bilhete)
| UpdateBilhete (old new : Bilhete).

Definition set_seat (b : Bilhete) (lugar no_serie : string) : Bilhete :=
  mkBilhete (b_id b) (b_voo_id b) (b_codigo_reserva b) (b_nome_passegeiro b)
            (b_preco b) (b_prim_classe b) (Some lugar) (Some no_serie).

(** [preco = 500.00 if prim_classe else 150.00], in cents. *)
Definition preco_of (prim_classe : bool) : Z :=
  if prim_classe then 50000 else 15000.

(** The two ORDER BY expressions of [sql_find_seat]:
    [CAST(regexp_replace(lugar, '[A-Z]', '') AS INTEGER)] and
    [regexp_replace(lugar, '[0-9]', '')]. *)
Definition seat_row (lugar : string) : option Z :=
  Sql.cast_integer (Sql.remove_first Py.is_AZ lugar).

Definition seat_rest (lugar : string) : string :=
  Sql.remove_first Py.is_09 lugar.

Definition seat_key_leb (k1 k2 : Z * string * string) : bool :=
  let '(row1, rest1, _) := k1 in
  let '(row2, rest2, _) := k2 in
  (row1 <? row2) || ((row1 =? row2) && Sql.text_leb rest1 rest2).

(** The NOT EXISTS subquery of [sql_find_seat]. *)
Definition seat_taken (t : Tables) (voo_id : Z) (a : Assento) : bool :=
  existsb (fun b_ocupado =>
             (b_voo_id b_ocupado =? voo_id)
             && eq_nullable (b_lugar b_ocupado) (s_lugar a)
             && eq_nullable (b_no_serie b_ocupado) (s_no_serie a))
          (bilhete t).

(** The rows [sql_find_seat] keeps before ordering. *)
Definition seat_candidates
    (t : Tables) (no_serie : string) (prim_classe : bool) (voo_id : Z)
  : list Assento :=
  filter (fun a => String.eqb (s_no_serie a) no_serie
                   && Bool.eqb (s_prim_classe a) prim_classe
                   && negb (seat_taken t voo_id a))
         (assento t).

Fixpoint seat_keys (l : list Assento) : option (list (Z * string * string)) :=
  match l with
  | [] => Some []
  | a :: l' =>
      match seat_row (s_lugar a), seat_keys l' with
      | Some row, Some ks => Some ((row, seat_rest (s_lugar a), s_lugar a) :: ks)
      | _, _ => None
      end
  end.

Definition first_seat (ks : list (Z * string * string)) : option string :=
  match order_by seat_key_leb ks with
  | [] => None
  | (_, _, lugar) :: _ => Some lugar
  end.

(** [SELECT NOW()]: the storage engine's time for this transaction. *)
Definition select_now (now : Z) : Tx Z := ret now.

(** [SELECT hora_partida, partida, no_serie FROM voo WHERE id = %s FOR UPDATE],
    then [fetchone()]. *)
Definition select_voo_for_update (voo_id : Z) : Tx (option Voo) :=
  fun db => (Ok (find (fun v => v_id v =? voo_id) (voo (tables db))), db).

(** [bilhete b JOIN voo v ON b.voo_id = v.id WHERE b.id = %s], first row. *)
Definition bilhete_join_voo (t : Tables) (bilhete_id : Z)
  : option (Bilhete * Voo) :=
  hd_error
    (filter (fun bv => b_id (fst bv) =? bilhete_id)
            (flat_map (fun b =>
                         map (fun v => (b, v))
                             (filter (fun v => b_voo_id b =? v_id v) (voo t)))
                      (bilhete t))).

(** The first statement of [checkin_ticket], then [fetchone()]: the ticket
    joined with its flight. *)
Definition select_bilhete_voo_for_update (bilhete_id : Z)
  : Tx (option (Bilhete * Voo)) :=
  fun db => (Ok (bilhete_join_voo (tables db) bilhete_id), db).

(** [sql_find_seat], then [fetchone()]. *)
Definition sql_find_seat (no_serie : string) (prim_classe : bool) (voo_id : Z)
  : Tx (option string) :=
  fun db =>
    match seat_keys (seat_candidates (tables db) no_serie prim_classe voo_id) with
    | Some ks => (Ok (first_seat ks), db)
    | None => (Raise (Some "22P02"), db)
    end.

Section Service.

(** The triggers RI-1, RI-2 and RI-3 that [handle_general_exception] names
    are not part of the sources; they are taken as a parameter: given the
    stored rows and a write, the SQLSTATE with which the write is refused,
    if it is.  A trigger is taken to refuse a write or let it through, not
    to change rows. *)
Variable trigger : Tables -> RowWrite -> option string.

(** [sql_insert_venda]: the client tax id is fitted to CHAR(9) (the handler
    passes nine digits, so nothing is padded), the reservation code is drawn
    from the sequence, then the primary key, the foreign key to [aeroporto]
    and the triggers are checked.  A value that does not fit is refused
    before the sequence is advanced. *)
Definition insert_venda (nif_cliente balcao : string) (hora : Z) : Tx Z :=
  fun db =>
    let t := tables db in
    match Sql.varchar 9 nif_cliente with
    | None => (Raise (Some "22001"), db)
    | Some nif =>
        match Sql.nextval (venda_codigo_reserva_seq db) with
        | None => (Raise (Some "2200H"), db)
        | Some codigo_reserva =>
            let db1 := mkDatabase (tables db) codigo_reserva (bilhete_id_seq db) in
            let row := mkVenda codigo_reserva nif balcao hora in
            if existsb (fun r => vd_codigo_reserva r =? codigo_reserva) (venda t)
            then (Raise (Some "23505"), db1)
            else if negb (existsb (fun a => String.eqb (a_codigo a) balcao)
                                  (aeroporto t))
            then (Raise (Some "23503"), db1)
            else match trigger t (InsertVenda row) with
                 | Some c => (Raise (Some c), db1)
                 | None =>
                     (Ok codigo_reserva,
                      with_tables db1 (with_venda t (venda t ++ [row])))
                 end
        end
    end.

(** [sql_insert_bilhete]: the passenger name, the one text of the request
    that reaches a statement unchecked, is refused by the driver when it
    holds a NUL; it is fitted to VARCHAR(80), the id is drawn from the
    sequence, then the primary key, the UNIQUE
    (voo_id, codigo_reserva, nome_passegeiro), the foreign keys to [voo] and
    [venda] and the triggers are checked.  A name that does not fit is
    refused before the sequence is advanced.  The seat is left NULL, so the
    foreign key to [assento] is not checked. *)
Definition insert_bilhete
    (voo_id codigo_reserva : Z) (nome_passageiro : string) (preco : Z)
    (prim_classe : bool) (no_serie : string) : Tx Z :=
  fun db =>
    let t := tables db in
    if Sql.has_nul nome_passageiro then (Raise None, db)
    else
      match Sql.varchar 80 nome_passageiro with
      | None => (Raise (Some "22001"), db)
      | Some nome =>
          match Sql.nextval (bilhete_id_seq db) with
          | None => (Raise (Some "2200H"), db)
          | Some id =>
              let db1 := mkDatabase (tables db) (venda_codigo_reserva_seq db) id in
              let row := mkBilhete id voo_id codigo_reserva nome preco prim_classe
                                   None (Some no_serie) in
              if existsb (fun b => b_id b =? id) (bilhete t)
              then (Raise (Some "23505"), db1)
              else if existsb (fun b => (b_voo_id b =? voo_id)
                                        && (b_codigo_reserva b =? codigo_reserva)
                                        && String.eqb (b_nome_passegeiro b) nome)
                              (bilhete t)
              then (Raise (Some "23505"), db1)
              else if negb (existsb (fun v => v_id v =? voo_id) (voo t))
              then (Raise (Some "23503"), db1)
              else if negb (existsb (fun r => vd_codigo_reserva r =? codigo_reserva)
                                    (venda t))
              then (Raise (Some "23503"), db1)
              else match trigger t (InsertBilhete row) with
                   | Some c => (Raise (Some c), db1)
                   | None =>
                       (Ok id,
                        with_tables db1 (with_bilhete t (bilhete t ++ [row])))
                   end
          end
      end.

(** The first SQLSTATE a trigger raises on the rows an UPDATE touches. *)
Fixpoint update_refused (t : Tables) (bilhete_id : Z) (lugar no_serie : string)
    (rows : list Bilhete) : option string :=
  match rows with
  | [] => None
  | b :: rows' =>
      if b_id b =? bilhete_id
      then match trigger t (UpdateBilhete b (set_seat b lugar no_serie)) with
           | Some c => Some c
           | None => update_refused t bilhete_id lugar no_serie rows'
           end
      else update_refused t bilhete_id lugar no_serie rows'
  end.

(** [sql_update_bilhete]: every row with this id gets the seat and the
    aircraft serial; the foreign key to [assento] and the triggers are
    checked on the rows touched. *)
Definition update_bilhete (lugar no_serie : string) (bilhete_id : Z) : Tx unit :=
  fun db =>
    let t := tables db in
    if existsb (fun b => b_id b =? bilhete_id) (bilhete t)
       && negb (existsb (fun a => String.eqb (s_lugar a) lugar
                                  && String.eqb (s_no_serie a) no_serie)
                        (assento t))
    then (Raise (Some "23503"), db)
    else match update_refused t bilhete_id lugar no_serie (bilhete t) with
         | Some c => (Raise (Some c), db)
         | None =>
             (Ok tt,
              with_tables db
                (with_bilhete t
                   (map (fun b => if b_id b =? bilhete_id
                                  then set_seat b lugar no_serie else b)
                        (bilhete t))))
         end.

(** A handler body run in [with conn.transaction():]; a [psycopg.Error]
    leaving the block reaches [handle_general_exception], which looks for
    its [pgcode]. *)
Definition respond (body : Tx Response) (db : Database) : Response * Database :=
  match transaction body db with
  | (Ok r, db') => (r, db')
  | (Raise e, db') => (handle_psycopg_error e (getattr_pgcode e), db')
  end.

(** *** POST /compra/<voo_id>/ *)

(** The NIF test of [purchase_tickets]: a non-empty string of length 9 that
    [isdigit()] accepts. *)
Definition nif_valid (nif_cliente : json) : option string :=
  match nif_cliente with
  | JStr s =>
      if Py.truthy_str s && (Py.len s =? 9) && Py.isdigit s
      then Some s else None
  | _ => None
  end.

(** The test on one entry of [bilhetes_a_comprar]. *)
Definition ticket_valid (bilhete_info : json) : option (string * bool) :=
  match bilhete_info with
  | JObj fields =>
      match assoc "nome_passageiro" fields, assoc "prim_classe" fields with
      | Some (JStr nome), Some (JBool prim_classe) =>
          if Py.truthy_str (Py.strip nome) then Some (nome, prim_classe)
          else None
      | _, _ => None
      end
  | _ => None
  end.

(** The [for i, bilhete_info in enumerate(...)] loop: the index of the first
    entry refused, or the entries read. *)
Fixpoint tickets_valid (i : nat) (l : list json) : nat + list (string * bool) :=
  match l with
  | [] => inr []
  | bilhete_info :: l' =>
      match ticket_valid bilhete_info with
      | None => inl i
      | Some e =>
          match tickets_valid (S i) l' with
          | inl k => inl k
          | inr es => inr (e :: es)
          end
      end
  end.

(** Everything [purchase_tickets] does before it opens a connection: the
    response it returns at once, or the validated request. *)
Definition validate_purchase (data : json)
  : Response + (string * list (string * bool)) :=
  if negb (truthy data) then inl (400, RequestDataMissing)
  else
    match data with
    | JObj fields =>
        let nif_cliente := dict_get "nif_cliente" fields in
        let bilhetes_a_comprar := dict_get "bilhetes_a_comprar" fields in
        match nif_valid nif_cliente with
        | None => inl (400, ClientNifInvalid)
        | Some nif =>
            match bilhetes_a_comprar with
            | JArr (b :: bs) =>
                match tickets_valid 0 (b :: bs) with
                | inl i => inl (400, TicketFormatInvalid i)
                | inr entries => inr (nif, entries)
                end
            | _ => inl (400, TicketListInvalid)
            end
        end
    | _ =>
        (* [data.get] on a value that is not a dict: AttributeError *)
        inl handle_other_exception
    end.

(** The [for bilhete_info in bilhetes_a_comprar] loop of inserts. *)
Fixpoint insert_bilhetes (voo_id codigo_reserva : Z) (no_serie_voo : string)
    (entries : list (string * bool)) : Tx (list (Z * string * bool * Z)) :=
  match entries with
  | [] => ret []
  | (nome_passageiro, prim_classe) :: rest =>
      let preco := preco_of prim_classe in
      bilhete_id_comprado <-
        insert_bilhete voo_id codigo_reserva nome_passageiro preco prim_classe
                       no_serie_voo ;;
      detalhes <- insert_bilhetes voo_id codigo_reserva no_serie_voo rest ;;
      ret ((bilhete_id_comprado, nome_passageiro, prim_classe, preco) :: detalhes)
  end.

(** Steps 5 and 6 of the purchase: the sale, then its tickets. *)
Definition insert_reservation (voo_id : Z) (v : Voo) (nif_cliente : string)
    (entries : list (string * bool)) (hora_venda_db : Z) : Tx Response :=
  let aeroporto_partida_voo := v_partida v in
  let no_serie_voo := v_no_serie v in
  codigo_reserva <- insert_venda nif_cliente aeroporto_partida_voo hora_venda_db ;;
  bilhetes_comprados_detalhes <-
    insert_bilhetes voo_id codigo_reserva no_serie_voo entries ;;
  ret (201, PurchaseSuccessful codigo_reserva bilhetes_comprados_detalhes).

(** The transaction block of [purchase_tickets] (the cutoff test is written
    twice in the source). *)
Definition purchase_body (voo_id : Z) (nif_cliente : string)
    (entries : list (string * bool)) (now : Z) : Tx Response :=
  voo_info <- select_voo_for_update voo_id ;;
  match voo_info with
  | None => ret (404, FlightNotFound voo_id)
  | Some v =>
      hora_venda_db <- select_now now ;;
      let hora_partida := v_hora_partida v in
      if hora_partida <=? hora_venda_db then ret (409, FlightDepartedOrClosed)
      else if hora_partida <=? hora_venda_db then ret (409, FlightDepartedOrClosed)
      else insert_reservation voo_id v nif_cliente entries hora_venda_db
  end.

Definition purchase_tickets (voo_id : Z) (data : json) (now : Z) (db : Database)
  : Response * Database :=
  match validate_purchase data with
  | inl r => (r, db)
  | inr (nif_cliente, entries) =>
      respond (purchase_body voo_id nif_cliente entries now) db
  end.

(** *** POST /checkin/<bilhete_id>/ *)

Definition checkin_body (bilhete_id : Z) (now : Z) : Tx Response :=
  bilhete_info <- select_bilhete_voo_for_update bilhete_id ;;
  match bilhete_info with
  | None => ret (404, TicketNotFound bilhete_id)
  | Some (b, v) =>
      match b_lugar b with
      | Some lugar => ret (409, CheckinAlreadyCompleted bilhete_id lugar)
      | None =>
          hora_atual_db <- select_now now ;;
          let hora_partida := v_hora_partida v in
          if hora_partida <=? hora_atual_db then ret (409, CheckinFlightDeparted)
          else
            let voo_id := b_voo_id b in
            let classe_bilhete := b_prim_classe b in
            let aviao_ns_do_voo := v_no_serie v in
            assento_disponivel_info <-
              sql_find_seat aviao_ns_do_voo classe_bilhete voo_id ;;
            match assento_disponivel_info with
            | None =>
                ret (409, NoSeatsAvailable classe_bilhete voo_id aviao_ns_do_voo)
            | Some lugar_atribuido =>
                update_bilhete lugar_atribuido aviao_ns_do_voo bilhete_id ;;;
                ret (200, CheckinSuccessful bilhete_id lugar_atribuido
                                            aviao_ns_do_voo)
            end
      end
  end.

Definition checkin_ticket (bilhete_id : Z) (now : Z) (db : Database)
  : Response * Database :=
  respond (checkin_body bilhete_id now) db.

(** ** Formats and orders named by the schema and the specification *)

(** The CHECK on [aeroporto.codigo]: [codigo ~ '^[A-Z]{3}$']. *)
Definition airport_code_format (s : string) : bool :=
  (Py.len s =? 3) && Py.forallb_str Py.is_AZ s.

Definition has_letter (s : string) : bool :=
  Py.existsb_str (fun c => Py.is_AZ c || Py.is_az c) s.

(** The format gate as the specification words it: every path parameter
    that is not three uppercase letters is answered 400 by both routes. *)
Definition format_gate_as_specified : Prop :=
  (forall t now d,
      airport_code_format d = false ->
      status (list_flights_from_departure t now d) = 400)
  /\ (forall t now d a,
         airport_code_format d = false \/ airport_code_format a = false ->
         status (list_next_available_flights t now d a) = 400).

(** The not-found answer of the two-airport route as the specification
    words it: a 404 is only given to two well-formed, distinct codes of
    which at least one is not the code of an airport. *)
Definition not_found_as_specified : Prop :=
  forall t now c1 c2,
    status (list_next_available_flights t now c1 c2) = 404 ->
    airport_code_format c1 = true /\ airport_code_format c2 = true
    /\ c1 <> c2
    /\ (~ In c1 (map a_codigo (aeroporto t))
        \/ ~ In c2 (map a_codigo (aeroporto t))).


(** The preconditions of the purchase, as the specification words them: a
    client tax id of exactly nine digits, a non-empty ticket list, and in
    each entry a non-blank passenger name and a boolean cabin flag. *)
Definition tax_id_ok (j : json) : Prop :=
  exists s, j = JStr s /\ String.length s = 9%nat
            /\ Py.forallb_str Py.is_09 s = true.

Definition entry_ok (j : json) : Prop :=
  exists fields nome prim_classe,
    j = JObj fields
    /\ assoc "nome_passageiro" fields = Some (JStr nome)
    /\ Py.forallb_str Py.is_space nome = false
    /\ assoc "prim_classe" fields = Some (JBool prim_classe).

Definition purchase_preconditions (fields : list (string * json)) : Prop :=
  tax_id_ok (dict_get "nif_cliente" fields)
  /\ exists items,
      dict_get "bilhetes_a_comprar" fields = JArr items
      /\ items <> [] /\ Forall entry_ok items.

(** What a validated entry was read from: an object of the request with
    this passenger name and this cabin flag. *)
Definition entry_of (j : json) (e : string * bool) : Prop :=
  exists fields,
    j = JObj fields
    /\ assoc "nome_passageiro" fields = Some (JStr (fst e))
    /\ assoc "prim_classe" fields = Some (JBool (snd e)).

(** The request carries this client tax id and these entries, in order. *)
Definition requested (data : json) (nif : string) (entries : list (string * bool))
  : Prop :=
  exists fields items,
    data = JObj fields
    /\ dict_get "nif_cliente" fields = JStr nif
    /\ dict_get "bilhetes_a_comprar" fields = JArr items
    /\ Forall2 entry_of items entries.

(** The Ticket row a purchase stores for an entry: the flight, the new
    reservation, the flight's aircraft, the flat price of the class, and no
    seat. *)
Definition ticket_for (voo_id codigo_reserva : Z) (no_serie : string)
    (e : string * bool) (b : Bilhete) : Prop :=
  b_voo_id b = voo_id
  /\ b_codigo_reserva b = codigo_reserva
  /\ Sql.varchar 80 (fst e) = Some (b_nome_passegeiro b)
  /\ b_preco b = preco_of (snd e)
  /\ b_prim_classe b = snd e
  /\ b_lugar b = None
  /\ b_no_serie b = Some no_serie.

(** The summary of a created ticket in the 201 response. *)
Definition summary_of (eb : (string * bool) * Bilhete) : Z * string * bool * Z :=
  (b_id (snd eb), fst (fst eb), snd (fst eb), preco_of (snd (fst eb))).

(** [b'] is [b] with possibly another seat label and aircraft serial: every
    other field is the same. *)
Definition same_but_seat (b b' : Bilhete) : Prop :=
  b_id b' = b_id b
  /\ b_voo_id b' = b_voo_id b
  /\ b_codigo_reserva b' = b_codigo_reserva b
  /\ b_nome_passegeiro b' = b_nome_passegeiro b
  /\ b_preco b' = b_preco b
  /\ b_prim_classe b' = b_prim_classe b.

(** The CHECK on [assento.lugar]: [lugar ~ '^[0-9]{1,2}[A-Z]$']. *)
Definition seat_label_format (s : string) : bool :=
  match s with
  | String d (String l EmptyString) => Py.is_09 d && Py.is_AZ l
  | String d1 (String d2 (String l EmptyString)) =>
      Py.is_09 d1 && Py.is_09 d2 && Py.is_AZ l
  | _ => false
  end.

(** A row number of two digits written without a leading zero, as the seed
    generator writes them ([f"{r_idx}{seat_char}"]). *)
Definition no_leading_zero (s : string) : bool :=
  match s with
  | String d1 (String _ (String _ _)) => negb (Py.code d1 =? 48)%N
  | _ => true
  end.

Fixpoint filter_str (p : ascii -> bool) (s : string) : string :=
  match s with
  | EmptyString => EmptyString
  | String c s' => if p c then String c (filter_str p s') else filter_str p s'
  end.

(** The order the specification gives the candidate seats: numeric row
    number ascending, then cabin letter ascending. *)
Definition row_number (lugar : string) : Z :=
  Sql.decimal 0 (filter_str Py.is_09 lugar).

Definition cabin_letter (lugar : string) : string :=
  filter_str Py.is_AZ lugar.

Definition seat_order_spec (lugar1 lugar2 : string) : bool :=
  (row_number lugar1 <? row_number lugar2)
  || ((row_number lugar1 =? row_number lugar2)
      && String.leb (cabin_letter lugar1) (cabin_letter lugar2)).

(** The order [sql_find_seat] sorts by, on seat labels. *)
Definition seat_order_sql (lugar1 lugar2 : string) : Prop :=
  exists row1 row2,
    seat_row lugar1 = Some row1 /\ seat_row lugar2 = Some row2
    /\ seat_key_leb (row1, seat_rest lugar1, lugar1)
                    (row2, seat_rest lugar2, lugar2) = true.

(** A seat is free for a ticket of a flight: it is a seat of this aircraft
    and of this class, and no ticket of this flight holds its label with
    this aircraft serial. *)
Definition free_seat (t : Tables) (no_serie : string) (prim_classe : bool)
    (voo_id : Z) (a : Assento) : Prop :=
  In a (assento t)
  /\ s_no_serie a = no_serie
  /\ s_prim_classe a = prim_classe
  /\ ~ exists b, In b (bilhete t) /\ b_voo_id b = voo_id
                 /\ b_lugar b = Some (s_lugar a)
                 /\ b_no_serie b = Some (s_no_serie a).

(** ** Sample data *)

(** No trigger installed, as in [SCHEMA_SQL]. *)
Definition no_trigger : Tables -> RowWrite -> option string := fun _ _ => None.

Definition sample_tables : Tables :=
  mkTables
    [mkAeroporto "LIS" "Lisbon Airport" "Lisbon" "Portugal";
     mkAeroporto "CDG" "Paris Charles de Gaulle" "Paris" "France";
     mkAeroporto "MAD" "Madrid Barajas" "Madrid" "Spain"]
    [mkAviao "AIRB-001" "Airbus A320neo"]
    [mkAssento "1A" "AIRB-001" true; mkAssento "1B" "AIRB-001" true;
     mkAssento "10A" "AIRB-001" false; mkAssento "2B" "AIRB-001" false;
     mkAssento "2A" "AIRB-001" false]
    [mkVoo 42 "AIRB-001" 5000 9000 "LIS" "CDG";
     mkVoo 43 "AIRB-001" 3000 4000 "LIS" "CDG"]
    [mkVenda 1 "123456789" "LIS" 10]
    [mkBilhete 7 42 1 "Rui Costa" 15000 false (Some "2A") (Some "AIRB-001");
     mkBilhete 8 42 1 "Ana Silva" 15000 false None (Some "AIRB-001")].

Definition sample_db : Database := mkDatabase sample_tables 1 8.

(** An aircraft whose row 1 is written both with and without a leading
    zero; both labels pass the CHECK on [assento.lugar]. *)
Definition leading_zero_tables : Tables :=
  mkTables
    [mkAeroporto "LIS" "Lisbon Airport" "Lisbon" "Portugal";
     mkAeroporto "CDG" "Paris Charles de Gaulle" "Paris" "France"]
    [mkAviao "EMBR-002" "Embraer E195-E2"]
    [mkAssento "1A" "EMBR-002" false; mkAssento "01B" "EMBR-002" false]
    [mkVoo 1 "EMBR-002" 5000 9000 "LIS" "CDG"]
    [mkVenda 1 "123456789" "LIS" 10]
    [mkBilhete 1 1 1 "Ana Silva" 15000 false None (Some "EMBR-002")].

Definition leading_zero_db : Database := mkDatabase leading_zero_tables 1 1.

(** The body of the purchase in the specification's second scenario. *)
Definition sample_purchase : json :=
  JObj [("nif_cliente", JStr "123456789");
        ("bilhetes_a_comprar",
         JArr [JObj [("nome_passageiro", JStr "Ana Silva");
                     ("prim_classe", JBool false)]])].

(** ** The error handler and the airport list *)

(** What [handle_general_exception] looks at in the exception it is given:
    whether it is a [psycopg.Error], whether it is a [psycopg.DatabaseError],
    its [pgcode] attribute if it has one, and its [code] attribute if it has
    one that is an int. *)
Record Raised := mkRaised {
  psycopg_error : bool;
  database_error : bool;
  raised_pgcode : option string;
  raised_code : option Z }.

(** The three messages [handle_general_exception] builds. *)
Inductive ErrorBody : Type :=
| DatabaseMessage
| ExceptionMessage
| UnexpectedMessage.

(** [handle_general_exception] *)
Definition handle_general_exception (e : Raised) : Z * ErrorBody :=
  if psycopg_error e then
    let status_code :=
      match raised_pgcode e with
      | Some pgcode =>
          if database_error e && Py.truthy_str pgcode then
            if String.eqb pgcode "P0001" then 409
            else if String.prefix "23" pgcode then 409
            else 500
          else 500
      | None => 500
      end in
    (status_code, DatabaseMessage)
  else
    match raised_code e with
    | Some code =>
        if (400 <=? code) && (code <? 600) then (code, ExceptionMessage)
        else (500, UnexpectedMessage)
    | None => (500, UnexpectedMessage)
    end.

Definition by_nome (a1 a2 : Aeroporto) : bool :=
  Sql.text_leb (a_nome a1) (a_nome a2).

(** GET /: [SELECT nome, cidade FROM aeroporto ORDER BY nome]. *)
Definition list_airports (t : Tables) : Z * list (string * string) :=
  (200, map (fun a => (a_nome a, a_cidade a)) (order_by by_nome (aeroporto t))).

(** ** Invariants of the Ticket table *)

(** No seat of a flight is held by two tickets. *)
Definition no_double_booking (t : Tables) : Prop :=
  forall b1 b2 lugar no_serie,
    In b1 (bilhete t) -> In b2 (bilhete t) ->
    b_voo_id b1 = b_voo_id b2 ->
    b_lugar b1 = Some lugar -> b_lugar b2 = Some lugar ->
    b_no_serie b1 = Some no_serie -> b_no_serie b2 = Some no_serie ->
    b_id b1 = b_id b2.

(** Every ticket that has a seat references a Seat row (the foreign key of
    [bilhete] to [assento]), and that seat is of the ticket's class. *)
Definition seated_in_class (t : Tables) : Prop :=
  forall b lugar no_serie,
    In b (bilhete t) ->
    b_lugar b = Some lugar -> b_no_serie b = Some no_serie ->
    In (mkAssento lugar no_serie (b_prim_classe b)) (assento t).

(** An aircraft with economy seats only, and an unassigned first-class
    ticket on one of its flights. *)
Definition economy_only_db : Database :=
  mkDatabase
    (mkTables
       [mkAeroporto "LIS" "Lisbon Airport" "Lisbon" "Portugal";
        mkAeroporto "CDG" "Paris Charles de Gaulle" "Paris" "France"]
       [mkAviao "EMBR-002" "Embraer E195-E2"]
       [mkAssento "1A" "EMBR-002" false; mkAssento "1B" "EMBR-002" false]
       [mkVoo 1 "EMBR-002" 5000 9000 "LIS" "CDG"]
       [mkVenda 1 "123456789" "LIS" 10]
       [mkBilhete 1 1 1 "Ana Silva" 50000 true None (Some "EMBR-002");
        mkBilhete 2 1 1 "Rui Costa" 15000 false None (Some "EMBR-002");
        mkBilhete 3 1 1 "Eva Dias" 15000 false None (Some "EMBR-002")])
    1 3.

(** ** Invariants of the schema *)

(** The key of the UNIQUE (voo_id, codigo_reserva, nome_passegeiro). *)
Definition ticket_triple (b : Bilhete) : Z * Z * string :=
  (b_voo_id b, b_codigo_reserva b, b_nome_passegeiro b).

(** The keys the purchase writes under: [bilhete.id], [venda.codigo_reserva]
    and the UNIQUE triple of [bilhete]. *)
Definition keys_hold (t : Tables) : Prop :=
  NoDup (map b_id (bilhete t))
  /\ NoDup (map vd_codigo_reserva (venda t))
  /\ NoDup (map ticket_triple (bilhete t)).

(** The foreign keys the purchase writes under: every ticket has its flight
    and its sale, every sale its counter airport. *)
Definition references_hold (t : Tables) : Prop :=
  (forall b, In b (bilhete t) -> exists v, In v (voo t) /\ v_id v = b_voo_id b)
  /\ (forall b, In b (bilhete t) ->
        exists s, In s (venda t) /\ vd_codigo_reserva s = b_codigo_reserva b)
  /\ (forall s, In s (venda t) ->
        exists a, In a (aeroporto t) /\ a_codigo a = vd_balcao s).

Definition with_assento (t : Tables) (l : list Assento) : Tables :=
  mkTables (aeroporto t) (aviao t) l (voo t) (venda t) (bilhete t).

Definition replace_seats (db : Database) (l : list Assento) : Database :=
  with_tables db (with_assento (tables db) l).
(** A purchase whose second entry has a blank passenger name. *)
Definition blank_name_purchase : list (string * json) :=
  [("nif_cliente", JStr "123456789");
   ("bilhetes_a_comprar",
    JArr [JObj [("nome_passageiro", JStr "Ana Silva");
                ("prim_classe", JBool false)];
          JObj [("nome_passageiro", JStr "  ");
                ("prim_classe", JBool true)]])].

(** ** Properties of statements *)

(** A statement keeps a property of the stored rows when it holds again
    after every run that ends without an error. *)
Definition keeps (P : Tables -> Prop) {A} (m : Tx A) : Prop :=
  forall db a db', P (tables db) -> m db = (Ok a, db') -> P (tables db').

(** A statement that neither reads nor writes the Seat table: run on other
    seats, it gives the same result and leaves those seats. *)
Definition seat_blind {A} (m : Tx A) : Prop :=
  forall db seats,
    m (replace_seats db seats)
    = (fst (m db), replace_seats (snd (m db)) seats).

(** ** The seed generator ([src/data/gerar_populate.py]) *)

Definition is_quote (c : ascii) : bool := (Py.code c =? 39)%N.

(** [format_sql_string]: [s.replace("'", "''")]. *)
Fixpoint format_sql_string (s : string) : string :=
  match s with
  | EmptyString => EmptyString
  | String c s' =>
      if is_quote c then String c (String c (format_sql_string s'))
      else String c (format_sql_string s')
  end.

(** How the storage engine reads the quoted literal the generator writes as
    ['{format_sql_string(x)}']: given the text after the opening quote, the
    value of the literal and the text after its closing quote.  Two quotes
    stand for one; a quote followed by anything else closes the literal. *)
Fixpoint read_sql_literal (s : string) : option (string * string) :=
  match s with
  | EmptyString => None
  | String c s' =>
      if is_quote c then
        match s' with
        | EmptyString => Some (EmptyString, EmptyString)
        | String c' s'' =>
            if is_quote c'
            then option_map (fun p => (String c (fst p), snd p))
                            (read_sql_literal s'')
            else Some (EmptyString, s')
        end
      else option_map (fun p => (String c (fst p), snd p))
                      (read_sql_literal s')
  end.

Definition starts_with_quote (s : string) : bool :=
  match s with
  | EmptyString => false
  | String c _ => is_quote c
  end.

(** [f"{r_idx}{seat_char}"]: the row index in decimal, then the letter. *)
Definition seat_label (r_idx : nat) (seat_char : ascii) : string :=
  NilEmpty.string_of_uint (Nat.to_uint r_idx) ++ String seat_char EmptyString.

(** The two inner loops of "Generate Avioes and Assentos", for one aircraft:
    rows 1 to [num_rows], the letters of [seats_map] in each, first class up
    to row [first_class_rows].  ([first_class_rows] is computed in floating
    point by the script and is taken as given here.) *)
Definition plane_seats (serial_no : string) (num_rows first_class_rows : nat)
    (seats_map : list ascii) : list Assento :=
  flat_map (fun r_idx =>
              map (fun seat_char =>
                     mkAssento (seat_label r_idx seat_char) serial_no
                               (r_idx <=? first_class_rows)%nat)
                  seats_map)
           (seq 1 num_rows).

(** The digits of a row index from 1 to 99: one digit, or two without a
    leading zero, whose value is the index. *)
Definition row_digits_ok (r : nat) : bool :=
  match NilEmpty.string_of_uint (Nat.to_uint r) with
  | String d EmptyString =>
      Py.is_09 d && (Sql.digit_value d =? Z.of_nat r)
  | String d1 (String d2 EmptyString) =>
      Py.is_09 d1 && Py.is_09 d2 && negb (Py.code d1 =? 48)%N
      && (10 * Sql.digit_value d1 + Sql.digit_value d2 =? Z.of_nat r)
  | _ => false
  end.

(** * Properties *)

(** ** Text *)

Lemma upper_char_not_az c : Py.is_az (Py.upper_char c) = false.
Proof. destruct c as [[] [] [] [] [] [] [] []]; reflexivity. Qed.

Lemma upper_char_AZ c :
  Py.is_AZ (Py.upper_char c) = Py.is_AZ c || Py.is_az c.
Proof. destruct c as [[] [] [] [] [] [] [] []]; reflexivity. Qed.

Lemma AZ_not_az c : Py.is_AZ c = true -> Py.is_az c = false.
Proof. destruct c as [[] [] [] [] [] [] [] []]; simpl; intros H; try reflexivity; discriminate H. Qed.

Lemma upper_length s : String.length (Py.upper s) = String.length s.
Proof. induction s as [|c s IH]; simpl; congruence. Qed.

Lemma upper_len s : Py.len (Py.upper s) = Py.len s.
Proof. unfold Py.len. now rewrite upper_length. Qed.

Lemma upper_no_lower s :
  Py.forallb_str (fun c => negb (Py.is_az c)) (Py.upper s) = true.
Proof.
  induction s as [|c s IH]; simpl; [reflexivity|].
  now rewrite upper_char_not_az, IH.
Qed.

Lemma upper_has_AZ s : Py.existsb_str Py.is_AZ (Py.upper s) = has_letter s.
Proof.
  unfold has_letter. induction s as [|c s IH]; simpl; [reflexivity|].
  now rewrite upper_char_AZ, IH.
Qed.

Lemma upper_fixes_AZ s :
  Py.forallb_str Py.is_AZ s = true -> Py.upper s = s.
Proof.
  induction s as [|c s IH]; simpl; [reflexivity|].
  intros H. apply andb_true_iff in H as [Hc Hs].
  unfold Py.upper_char. rewrite (AZ_not_az _ Hc). now rewrite IH.
Qed.

Lemma format_ok_upper s :
  code_format_ok (Py.upper s) = (Py.len s =? 3) && has_letter s.
Proof.
  unfold code_format_ok, Py.isupper.
  now rewrite upper_len, upper_no_lower, upper_has_AZ, andb_true_r.
Qed.

Lemma AZ_no_nul s :
  Py.forallb_str Py.is_AZ s = true -> Sql.has_nul s = false.
Proof.
  unfold Sql.has_nul. induction s as [|c s IH]; simpl; [reflexivity|].
  intros H. apply andb_true_iff in H as [Hc Hs]. rewrite (IH Hs).
  destruct c as [[] [] [] [] [] [] [] []]; try reflexivity; discriminate Hc.
Qed.

Lemma airport_code_no_nul s :
  airport_code_format s = true -> Sql.has_nul s = false.
Proof.
  unfold airport_code_format. intros H. apply andb_true_iff in H as [_ H].
  now apply AZ_no_nul.
Qed.

Lemma airport_code_format_ok s :
  airport_code_format s = true -> code_format_ok s = true /\ Py.upper s = s.
Proof.
  unfold airport_code_format. intros H. apply andb_true_iff in H as [Hl Hs].
  split; [|now apply upper_fixes_AZ].
  rewrite <- (upper_fixes_AZ _ Hs), format_ok_upper, Hl. simpl.
  unfold has_letter.
  destruct s as [|c s]; [discriminate Hl|].
  simpl in *. apply andb_true_iff in Hs as [Hc _]. now rewrite Hc.
Qed.

(** ** GET /voos/<partida>/<chegada>/: validation before existence *)

Lemma airport_exists_iff (t : Tables) (codigo : string) :
  airport_exists t codigo = true <-> In codigo (map a_codigo (aeroporto t)).
Proof.
  unfold airport_exists. induction (aeroporto t) as [|ap l IH]; simpl.
  - split; [discriminate | intros []].
  - destruct (String.eqb_spec (a_codigo ap) codigo) as [E|E].
    + split; [auto|]. intros _. apply Z.ltb_lt. simpl List.length. lia.
    + rewrite IH. split; [auto | intros [H|H]; [contradiction | exact H]].
Qed.

Lemma airport_missing (t : Tables) (codigo : string) :
  airport_exists t codigo = false -> ~ In codigo (map a_codigo (aeroporto t)).
Proof. intros H I. apply airport_exists_iff in I. congruence. Qed.

(** C7, as amended.  When the origin and destination codes are equal the
    route answers 400, whatever the Airport table holds (so also when
    neither code exists).  A 404 is only answered for two codes that, on
    ASCII text, are three characters long and hold a letter each, differ
    once upper-cased, and of which at least one, upper-cased, is not the
    code of an airport.  They need not be well-formed: the route upper-cases
    what it is given. *)
Theorem equal_codes_are_a_validation_error
    (t : Tables) (now : Z) (c1 c2 : string) :
  (c1 = c2 -> status (list_next_available_flights t now c1 c2) = 400)
  /\ (Py.is_ascii c1 = true -> Py.is_ascii c2 = true ->
      status (list_next_available_flights t now c1 c2) = 404 ->
      (String.length c1 = 3%nat /\ has_letter c1 = true)
      /\ (String.length c2 = 3%nat /\ has_letter c2 = true)
      /\ Py.upper c1 <> Py.upper c2
      /\ (~ In (Py.upper c1) (map a_codigo (aeroporto t))
          \/ ~ In (Py.upper c2) (map a_codigo (aeroporto t)))).
Proof.
  unfold list_next_available_flights. split.
  - intros ->.
    destruct (code_format_ok (Py.upper c2)); simpl; [|reflexivity].
    now rewrite String.eqb_refl.
  - intros _ _. rewrite !format_ok_upper.
    destruct ((Py.len c1 =? 3) && has_letter c1) eqn:F1;
      destruct ((Py.len c2 =? 3) && has_letter c2) eqn:F2; simpl;
      try (intros H; discriminate H).
    apply andb_true_iff in F1 as [L1 H1]. apply andb_true_iff in F2 as [L2 H2].
    apply Z.eqb_eq in L1, L2. unfold Py.len in L1, L2.
    destruct (String.eqb (Py.upper c1) (Py.upper c2)) eqn:E; simpl;
      [intros H; discriminate H|].
    apply String.eqb_neq in E.
    destruct (Sql.has_nul (Py.upper c1) || Sql.has_nul (Py.upper c2));
      [intros H; discriminate H|].
    destruct (airport_exists t (Py.upper c1)) eqn:X1;
      destruct (airport_exists t (Py.upper c2)) eqn:X2; simpl; intros H.
    + exfalso.
      destruct (query_all_flights t now (Py.upper c1) (Py.upper c2));
        [discriminate H|].
      destruct (query_available t now (Py.upper c1) (Py.upper c2));
        discriminate H.
    + split; [split; [lia | exact H1]|]. split; [split; [lia | exact H2]|].
      split; [exact E|]. right. now apply airport_missing.
    + split; [split; [lia | exact H1]|]. split; [split; [lia | exact H2]|].
      split; [exact E|]. left. now apply airport_missing.
    + split; [split; [lia | exact H1]|]. split; [split; [lia | exact H2]|].
      split; [exact E|]. left. now apply airport_missing.
Qed.

(** C7, as stated, fails in its second half: "lis" and "opo" are not
    well-formed codes, and the route answers them 404 (the airport OPO does
    not exist) where the claim allows a 404 for well-formed codes only. *)
Lemma not_found_counterexample : ~ not_found_as_specified.
Proof.
  intros H.
  destruct (H sample_tables 0 "lis" "opo" eq_refl) as [F _].
  discriminate F.
Qed.

(** ** The format gate of the flight routes *)

Lemma format_gate_400 (d : string) :
  Py.len d <> 3 \/ Py.existsb_str Py.is_az d = true \/ has_letter d = false ->
  code_format_ok d = false.
Proof.
  unfold code_format_ok, Py.isupper. intros [H | [H | H]].
  - apply Z.eqb_neq in H. now rewrite H.
  - apply andb_false_iff. right. apply andb_false_iff. right.
    induction d as [|c d IH]; simpl in *; [discriminate H|].
    destruct (Py.is_az c); simpl in *; [reflexivity|auto].
  - apply andb_false_iff. right. apply andb_false_iff. left.
    unfold has_letter in H.
    induction d as [|c d IH]; simpl in *; [reflexivity|].
    apply orb_false_iff in H as [Hc Hd]. apply orb_false_iff in Hc as [Hc _].
    rewrite Hc. simpl. auto.
Qed.

(** C8, as amended.  On path parameters that are ASCII text: GET /voos/<d>/
    answers 400, whatever is stored, when [d] is not three characters long,
    or holds a lowercase letter, or holds no letter; a code of three
    uppercase letters goes on to the existence check (404 when absent, 200
    when present).  GET /voos/<d>/<a>/ upper-cases both codes first: it
    answers 400, whatever is stored, when one of them is not three
    characters long or holds no letter, and two distinct codes that are
    three uppercase letters once upper-cased go on to the existence
    check. *)
Theorem code_format_gate (t : Tables) (now : Z) (d a : string) :
  Py.is_ascii d = true -> Py.is_ascii a = true ->
  (Py.len d <> 3 \/ Py.existsb_str Py.is_az d = true \/ has_letter d = false ->
   list_flights_from_departure t now d = (400, DepartureCodeInvalid))
  /\ (airport_code_format d = true ->
      status (list_flights_from_departure t now d)
      = if airport_exists t d then 200 else 404)
  /\ ((Py.len d <> 3 \/ has_letter d = false)
      \/ (Py.len a <> 3 \/ has_letter a = false) ->
      list_next_available_flights t now d a = (400, AirportCodesInvalid))
  /\ (airport_code_format (Py.upper d) = true ->
      airport_code_format (Py.upper a) = true ->
      Py.upper d <> Py.upper a ->
      status (list_next_available_flights t now d a)
      = if airport_exists t (Py.upper d) && airport_exists t (Py.upper a)
        then 200 else 404).
Proof.
  intros _ _. repeat split.
  - intros H. unfold list_flights_from_departure.
    now rewrite (format_gate_400 d H).
  - intros H. destruct (airport_code_format_ok _ H) as [F U].
    unfold list_flights_from_departure.
    rewrite F, U, (airport_code_no_nul _ H). simpl.
    destruct (airport_exists t d); simpl; [|reflexivity].
    match goal with |- status (match ?l with _ => _ end) = _ => destruct l end;
      reflexivity.
  - intros H. unfold list_next_available_flights.
    rewrite !format_ok_upper.
    assert (E : (Py.len d =? 3) && has_letter d
                && ((Py.len a =? 3) && has_letter a) = false).
    { destruct H as [[H | H] | [H | H]];
        try (apply Z.eqb_neq in H); rewrite H;
        rewrite ?andb_false_r, ?andb_false_l; reflexivity. }
    now rewrite E.
  - intros Hd Ha Hne.
    destruct (airport_code_format_ok _ Hd) as [Fd _].
    destruct (airport_code_format_ok _ Ha) as [Fa _].
    unfold list_next_available_flights. rewrite Fd, Fa. simpl.
    apply String.eqb_neq in Hne.
    rewrite Hne, (airport_code_no_nul _ Hd), (airport_code_no_nul _ Ha). simpl.
    destruct (airport_exists t (Py.upper d));
      destruct (airport_exists t (Py.upper a)); simpl; try reflexivity.
    destruct (query_all_flights t now (Py.upper d) (Py.upper a));
      [reflexivity|].
    destruct (query_available t now (Py.upper d) (Py.upper a)); reflexivity.
Qed.

(** C8, as stated, fails: the two-airport route upper-cases its parameters
    before the format gate, so "lis" and "cdg", which are not three
    uppercase letters, are answered 200. *)
Lemma format_gate_counterexample : ~ format_gate_as_specified.
Proof.
  intros [_ H].
  specialize (H sample_tables 0 "lis" "cdg" (or_introl eq_refl)).
  vm_compute in H. discriminate H.
Qed.

(** On the one-airport route a digit passes the gate: "A1B" is looked up
    (and not found) instead of being refused. *)
Lemma format_gate_lets_digits_through :
  airport_code_format "A1B" = false
  /\ list_flights_from_departure sample_tables 0 "A1B"
     = (404, DepartureAirportMissing "A1B").
Proof. split; reflexivity. Qed.

(** ** POST /compra/<voo_id>/: validation *)

Lemma lstrip_blank s :
  Py.lstrip s = "" <-> Py.forallb_str Py.is_space s = true.
Proof.
  induction s as [|c s IH]; simpl; [tauto|].
  destruct (Py.is_space c); simpl; [exact IH|].
  split; intros H; discriminate H.
Qed.

Lemma lstrip_head s c s' : Py.lstrip s = String c s' -> Py.is_space c = false.
Proof.
  induction s as [|x s IH]; simpl; [intros H; discriminate H|].
  destruct (Py.is_space x) eqn:E; [exact IH|].
  intros H. injection H as -> _. exact E.
Qed.

Lemma rstrip_nonblank_head c s :
  Py.is_space c = false -> Py.rstrip (String c s) <> "".
Proof.
  intros E. simpl. destruct (Py.rstrip s); [rewrite E|]; discriminate.
Qed.

Lemma strip_blank s :
  Py.truthy_str (Py.strip s) = negb (Py.forallb_str Py.is_space s).
Proof.
  unfold Py.truthy_str, Py.strip.
  destruct (Py.forallb_str Py.is_space s) eqn:E.
  - apply lstrip_blank in E. rewrite E. reflexivity.
  - destruct (Py.lstrip s) as [|c s'] eqn:L.
    + apply lstrip_blank in L. congruence.
    + apply lstrip_head in L.
      pose proof (@rstrip_nonblank_head c s' L) as N.
      apply String.eqb_neq in N. now rewrite N.
Qed.

Lemma nif_valid_spec j s :
  nif_valid j = Some s <->
  j = JStr s /\ String.length s = 9%nat /\ Py.forallb_str Py.is_09 s = true.
Proof.
  unfold nif_valid, Py.isdigit, Py.truthy_str, Py.len.
  destruct j as [|b|n|x|l|m]; try (split; [intros H; discriminate H | intros [H _]; discriminate H]).
  split.
  - destruct (negb (String.eqb x "") && (Z.of_nat (String.length x) =? 9)
              && (negb (String.eqb x "") && Py.forallb_str Py.is_09 x)) eqn:E;
      intros H; [|discriminate H].
    injection H as <-.
    apply andb_true_iff in E as [E D]. apply andb_true_iff in D as [_ D].
    apply andb_true_iff in E as [_ L]. apply Z.eqb_eq in L.
    repeat split; auto. lia.
  - intros [H [L D]]. injection H as ->.
    rewrite L, D. destruct s; [discriminate L|]. reflexivity.
Qed.

Lemma ticket_valid_spec j :
  (exists e, ticket_valid j = Some e) <-> entry_ok j.
Proof.
  unfold entry_ok, ticket_valid. split.
  - intros [e H].
    destruct j as [|b|n|x|l|m]; try discriminate H.
    destruct (assoc "nome_passageiro" m) as [[|b|n|nome|l|m']|] eqn:A;
      try discriminate H.
    destruct (assoc "prim_classe" m) as [[|b|n|x|l|m']|] eqn:B;
      try discriminate H.
    rewrite strip_blank in H.
    destruct (Py.forallb_str Py.is_space nome) eqn:S; [discriminate H|].
    exists m, nome, b. auto.
  - intros (m & nome & b & -> & A & S & B).
    rewrite A, B, strip_blank, S. simpl. eauto.
Qed.

Lemma tickets_valid_spec l : forall i,
  (Forall entry_ok l -> exists es, tickets_valid i l = inr es)
  /\ (~ Forall entry_ok l -> exists k, tickets_valid i l = inl k).
Proof.
  induction l as [|j l IH]; intros i; simpl.
  - split; [eauto|]. intros H. exfalso. apply H. constructor.
  - destruct (ticket_valid j) as [e|] eqn:T.
    + destruct (IH (S i)) as [IH1 IH2]. split.
      * intros H. inversion H; subst.
        destruct (IH1 H3) as [es ->]. eauto.
      * intros H.
        destruct IH2 as [k ->]; [|eauto].
        intros F. apply H. constructor; [|exact F].
        apply ticket_valid_spec. eauto.
    + split; [|eauto].
      intros H. inversion H; subst.
      apply ticket_valid_spec in H2 as [e H2]. congruence.
Qed.

(** X21.  On a body that is a JSON object of ASCII text, validation lets
    through exactly the requests that meet the preconditions (a tax id of
    nine digits 0 to 9, a non-empty ticket list, in each entry a non-blank
    passenger name and a boolean cabin flag), and answers 400 to the
    others. *)
Lemma validate_purchase_object (fields : list (string * json)) :
  ascii_json (JObj fields) = true ->
  (purchase_preconditions fields ->
   exists nif entries, validate_purchase (JObj fields) = inr (nif, entries))
  /\ (~ purchase_preconditions fields ->
      exists b, validate_purchase (JObj fields) = inl (400, b)).
Proof.
  intros _. unfold purchase_preconditions, validate_purchase. split.
  - intros [(s & Hn & L & D) (items & Hb & Ne & F)].
    destruct fields as [|f fields]; [discriminate Hn|].
    cbn [truthy negb].
    assert (V : nif_valid (dict_get "nif_cliente" (f :: fields)) = Some s)
      by (apply nif_valid_spec; auto).
    rewrite V, Hb.
    destruct items as [|b bs]; [congruence|].
    destruct (proj1 (tickets_valid_spec (b :: bs) 0) F) as [es ->]. eauto.
  - intros N.
    destruct fields as [|f fields]; [cbn; eauto|].
    cbn [truthy negb].
    destruct (nif_valid (dict_get "nif_cliente" (f :: fields))) as [s|] eqn:V;
      [|eauto].
    apply nif_valid_spec in V.
    destruct (dict_get "bilhetes_a_comprar" (f :: fields))
      as [|b|n|x|[|b bs]|m] eqn:B; eauto.
    destruct (proj2 (tickets_valid_spec (b :: bs) 0)) as [k ->]; [|eauto].
    intros F. apply N. split; [exists s; exact V|].
    exists (b :: bs). repeat split; auto. discriminate.
Qed.

Lemma validate_purchase_falsy (data : json) :
  truthy data = false -> validate_purchase data = inl (400, RequestDataMissing).
Proof. unfold validate_purchase. now intros ->. Qed.

(** A request refused by validation never reaches the storage. *)
Lemma purchase_rejected_untouched voo_id data now db r :
  validate_purchase data = inl r ->
  purchase_tickets voo_id data now db = (r, db).
Proof. unfold purchase_tickets. now intros ->. Qed.

(** C6, where the handler departs from it.  A body that is a non-empty JSON
    array carries no client tax id and no ticket list, yet it is not answered
    400: [data.get] raises on it and the request ends as a 500.  The storage
    is left untouched. *)
Theorem purchase_array_body_is_a_server_error
    (voo_id : Z) (x : json) (xs : list json) (now : Z) (db : Database) :
  purchase_tickets voo_id (JArr (x :: xs)) now db = ((500, UnexpectedError), db).
Proof. reflexivity. Qed.

(** ** Statements: what a write leaves behind *)

Lemma nextval_next last next :
  Sql.nextval last = Some next ->
  next = last + 1 /\ next <= Sql.serial_max.
Proof.
  unfold Sql.nextval. destruct (Z.ltb_spec last Sql.serial_max) as [L|L];
    [|discriminate].
  intros H. injection H as <-. split; [reflexivity | lia].
Qed.

Lemma insert_venda_cases nif_cliente balcao hora db :
  match insert_venda nif_cliente balcao hora db with
  | (Ok c, db1) =>
      c = venda_codigo_reserva_seq db + 1
      /\ bilhete_id_seq db1 = bilhete_id_seq db
      /\ exists nif,
          Sql.varchar 9 nif_cliente = Some nif
          /\ tables db1
             = with_venda (tables db)
                 (venda (tables db) ++ [mkVenda c nif balcao hora])
  | (Raise _, db1) => tables db1 = tables db
  end.
Proof.
  unfold insert_venda.
  destruct (Sql.varchar 9 nif_cliente) as [nif|]; [|reflexivity].
  destruct (Sql.nextval (venda_codigo_reserva_seq db)) as [c|] eqn:Nx;
    [|reflexivity].
  apply nextval_next in Nx as [-> _].
  destruct (existsb _ (venda (tables db))); [reflexivity|].
  destruct (negb _); [reflexivity|].
  destruct (trigger _ _); [reflexivity|].
  simpl. eauto.
Qed.

Lemma insert_bilhete_cases voo_id codigo_reserva nome preco prim_classe no_serie db :
  match insert_bilhete voo_id codigo_reserva nome preco prim_classe no_serie db with
  | (Ok id, db1) =>
      venda_codigo_reserva_seq db1 = venda_codigo_reserva_seq db
      /\ exists nome',
          Sql.varchar 80 nome = Some nome'
          /\ tables db1
             = with_bilhete (tables db)
                 (bilhete (tables db)
                  ++ [mkBilhete id voo_id codigo_reserva nome' preco prim_classe
                                None (Some no_serie)])
  | (Raise _, db1) => tables db1 = tables db
  end.
Proof.
  unfold insert_bilhete.
  destruct (Sql.has_nul nome); [reflexivity|].
  destruct (Sql.varchar 80 nome) as [nome'|]; [|reflexivity].
  destruct (Sql.nextval (bilhete_id_seq db)) as [id|]; [|reflexivity].
  destruct (existsb _ (bilhete (tables db))); [reflexivity|].
  destruct (existsb _ (bilhete (tables db))); [reflexivity|].
  destruct (negb _); [reflexivity|].
  destruct (negb _); [reflexivity|].
  destruct (trigger _ _); [reflexivity|].
  simpl. eauto.
Qed.

Lemma insert_bilhetes_cases voo_id codigo_reserva no_serie entries : forall db,
  match insert_bilhetes voo_id codigo_reserva no_serie entries db with
  | (Ok detalhes, db1) =>
      venda_codigo_reserva_seq db1 = venda_codigo_reserva_seq db
      /\ exists rows,
          tables db1
          = with_bilhete (tables db) (bilhete (tables db) ++ rows)
          /\ Forall2 (ticket_for voo_id codigo_reserva no_serie) entries rows
          /\ detalhes = map summary_of (combine entries rows)
  | (Raise _, _) => True
  end.
Proof.
  induction entries as [|[nome cls] rest IH]; intros db.
  - simpl. split; [reflexivity|]. exists []. rewrite app_nil_r.
    destruct db as [[] ? ?]. repeat split. constructor.
  - cbn [insert_bilhetes]. unfold bind at 1.
    pose proof (insert_bilhete_cases voo_id codigo_reserva nome (preco_of cls)
                  cls no_serie db) as H1.
    destruct (insert_bilhete voo_id codigo_reserva nome (preco_of cls) cls
                no_serie db) as [[id|e] db1]; [|exact I].
    destruct H1 as [S1 (nome' & V & T1)].
    unfold bind. specialize (IH db1).
    destruct (insert_bilhetes voo_id codigo_reserva no_serie rest db1)
      as [[detalhes|e] db2]; [|exact I].
    destruct IH as [S2 (rows & T2 & F & D)].
    unfold ret. split; [congruence|].
    exists (mkBilhete id voo_id codigo_reserva nome' (preco_of cls) cls None
                      (Some no_serie) :: rows).
    repeat split.
    + rewrite T2, T1. unfold with_bilhete. simpl. now rewrite <- app_assoc.
    + constructor; [|exact F]. repeat split. exact V.
    + simpl. now rewrite D.
Qed.

Lemma status_of_psycopg_error e pgcode :
  status (handle_psycopg_error e pgcode) = 409
  \/ status (handle_psycopg_error e pgcode) = 500.
Proof.
  unfold handle_psycopg_error. destruct pgcode as [c|]; [|now right].
  destruct (String.eqb c "P0001"); [now left|].
  destruct (String.prefix "23" c); [now left | now right].
Qed.

Lemma respond_raise (body : Tx Response) db e db1 :
  body db = (Raise e, db1) ->
  respond body db
  = (handle_psycopg_error e (getattr_pgcode e), with_tables db1 (tables db)).
Proof. unfold respond, transaction. now intros ->. Qed.

Lemma respond_ok (body : Tx Response) db r db1 :
  body db = (Ok r, db1) -> respond body db = (r, db1).
Proof. unfold respond, transaction. now intros ->. Qed.

(** ** POST /compra/<voo_id>/: cutoff and atomicity *)

Lemma validate_purchase_requested data nif entries :
  validate_purchase data = inr (nif, entries) ->
  requested data nif entries /\ String.length nif = 9%nat.
Proof.
  unfold validate_purchase, requested.
  destruct (negb (truthy data)); [intros H; discriminate H|].
  destruct data as [|b|n|x|l|m]; try (intros H; discriminate H).
  destruct (nif_valid (dict_get "nif_cliente" m)) as [s|] eqn:V;
    [|intros H; discriminate H].
  apply nif_valid_spec in V as (Hn & L & _).
  destruct (dict_get "bilhetes_a_comprar" m) as [|b|n|x|[|b bs]|m'] eqn:B;
    try (intros H; discriminate H).
  destruct (tickets_valid 0 (b :: bs)) as [k|es] eqn:T;
    intros H; [discriminate H|].
  injection H as <- <-. split; [|exact L].
  exists m, (b :: bs). repeat split; auto.
  clear B. revert T. generalize (b :: bs) es 0%nat. clear.
  induction l as [|j l IH]; intros es i; simpl.
  - intros H. injection H as <-. constructor.
  - destruct (ticket_valid j) as [e|] eqn:T; [|intros H; discriminate H].
    destruct (tickets_valid (S i) l) as [k|es'] eqn:T'; intros H;
      [discriminate H|].
    injection H as <-. constructor; [|eauto].
    unfold ticket_valid in T.
    destruct j as [|b|n|x|l0|m]; try discriminate T.
    destruct (assoc "nome_passageiro" m) as [[|b|n|nome|l0|m']|] eqn:A;
      try discriminate T.
    destruct (assoc "prim_classe" m) as [[|b|n|x|l0|m']|] eqn:C;
      try discriminate T.
    destruct (Py.truthy_str (Py.strip nome)); [|discriminate T].
    injection T as <-. exists m. auto.
Qed.

Lemma purchase_body_found voo_id nif entries now db v :
  find (fun v => v_id v =? voo_id) (voo (tables db)) = Some v ->
  purchase_body voo_id nif entries now db
  = if v_hora_partida v <=? now then (Ok (409, FlightDepartedOrClosed), db)
    else insert_reservation voo_id v nif entries now db.
Proof.
  intros F. unfold purchase_body, bind, select_voo_for_update, select_now, ret.
  rewrite F. destruct (v_hora_partida v <=? now); reflexivity.
Qed.


Lemma varchar_fits n s : (String.length s <= n)%nat -> Sql.varchar n s = Some s.
Proof. intros H. unfold Sql.varchar. apply Nat.leb_le in H. now rewrite H. Qed.

(** C3.  A purchase is all-or-nothing.  When it answers 201 it has added
    exactly one Sale row, carrying the storage engine's now, the client tax
    id and the departure airport of the flight, and exactly one Ticket row
    per requested entry, in order, each without a seat; nothing else has
    changed, and the response carries the generated reservation code.  On
    every other outcome, a constraint or trigger refusing one of the inserts
    included, the stored rows are what they were before the call. *)
Theorem purchase_all_or_nothing
    (voo_id : Z) (data : json) (now : Z) (db db' : Database) (r : Response) :
  purchase_tickets voo_id data now db = (r, db') ->
  (status r = 201 ->
   exists v nif entries rows,
     requested data nif entries
     /\ find (fun v => v_id v =? voo_id) (voo (tables db)) = Some v
     /\ now < v_hora_partida v
     /\ tables db'
        = mkTables (aeroporto (tables db)) (aviao (tables db))
            (assento (tables db)) (voo (tables db))
            (venda (tables db)
             ++ [mkVenda (venda_codigo_reserva_seq db + 1) nif (v_partida v) now])
            (bilhete (tables db) ++ rows)
     /\ Forall2 (ticket_for voo_id (venda_codigo_reserva_seq db + 1) (v_no_serie v))
                entries rows
     /\ r = (201, PurchaseSuccessful (venda_codigo_reserva_seq db + 1)
                    (map summary_of (combine entries rows))))
  /\ (status r <> 201 -> tables db' = tables db).
Proof.
  unfold purchase_tickets.
  destruct (validate_purchase data) as [r0|[nif entries]] eqn:V.
  - intros H. injection H as <- <-. split; [|reflexivity].
    intros S. exfalso. revert V S. unfold validate_purchase.
    destruct (negb (truthy data)); [intros H; injection H as <-; discriminate|].
    destruct data as [|b|n|x|l|m];
      try (intros H; injection H as <-; discriminate).
    destruct (nif_valid _); [|intros H; injection H as <-; discriminate].
    destruct (dict_get "bilhetes_a_comprar" m) as [|b|n|x|[|b bs]|m'];
      try (intros H; injection H as <-; discriminate).
    destruct (tickets_valid 0 (b :: bs));
      intros H; [injection H as <-|]; discriminate.
  - apply validate_purchase_requested in V as [Rq L].
    destruct (find (fun v => v_id v =? voo_id) (voo (tables db))) as [v|] eqn:F.
    + unfold respond, transaction.
      rewrite (@purchase_body_found voo_id nif entries now db v F).
      destruct (v_hora_partida v <=? now) eqn:Hd.
      { intros H. injection H as <- <-. split;
          [intros S; discriminate S | reflexivity]. }
      apply Z.leb_gt in Hd.
      unfold insert_reservation, bind.
      pose proof (insert_venda_cases nif (v_partida v) now db) as H1.
      destruct (insert_venda nif (v_partida v) now db) as [[c|e] db1].
      * destruct H1 as [-> [S1 (nif' & Vn & T1)]].
        assert (L9 : (String.length nif <= 9)%nat) by lia.
        rewrite (@varchar_fits 9 nif L9) in Vn. injection Vn as <-.
        pose proof (insert_bilhetes_cases voo_id
                      (venda_codigo_reserva_seq db + 1) (v_no_serie v)
                      entries db1) as H2.
        destruct (insert_bilhetes voo_id (venda_codigo_reserva_seq db + 1)
                    (v_no_serie v) entries db1) as [[detalhes|e] db2].
        -- destruct H2 as [S2 (rows & T2 & F2 & D)].
           unfold ret. intros H. injection H as <- <-. split.
           ++ intros _. exists v, nif, entries, rows.
              split; [exact Rq|]. split; [reflexivity|]. split; [lia|].
              split; [rewrite T2, T1; reflexivity|].
              split; [exact F2 | now rewrite D].
           ++ intros S. exfalso. apply S. reflexivity.
        -- intros H. injection H as <- <-. split; [|reflexivity].
           intros S. discriminate S.
      * intros H. injection H as <- <-. split; [|reflexivity].
        intros S. discriminate S.
    + unfold respond, transaction, purchase_body, bind, select_voo_for_update,
        ret. rewrite F.
      intros H. injection H as <- <-. split;
        [intros S; discriminate S | reflexivity].
Qed.

(** ** POST /checkin/<bilhete_id>/ *)

Lemma with_tables_same db : with_tables db (tables db) = db.
Proof. now destruct db. Qed.

(** The handler, one outcome per branch. *)
Lemma checkin_ticket_cases bilhete_id now db :
  checkin_ticket bilhete_id now db
  = match bilhete_join_voo (tables db) bilhete_id with
    | None => ((404, TicketNotFound bilhete_id), db)
    | Some (b, v) =>
        match b_lugar b with
        | Some lugar => ((409, CheckinAlreadyCompleted bilhete_id lugar), db)
        | None =>
            if v_hora_partida v <=? now then ((409, CheckinFlightDeparted), db)
            else
              match seat_keys (seat_candidates (tables db) (v_no_serie v)
                                 (b_prim_classe b) (b_voo_id b)) with
              | None =>
                  (handle_psycopg_error (Some "22P02")
                     (getattr_pgcode (Some "22P02")), db)
              | Some ks =>
                  match first_seat ks with
                  | None =>
                      ((409, NoSeatsAvailable (b_prim_classe b) (b_voo_id b)
                               (v_no_serie v)), db)
                  | Some lugar =>
                      match update_bilhete lugar (v_no_serie v) bilhete_id db with
                      | (Ok _, db1) =>
                          ((200, CheckinSuccessful bilhete_id lugar (v_no_serie v)),
                           db1)
                      | (Raise e, db1) =>
                          (handle_psycopg_error e (getattr_pgcode e),
                           with_tables db1 (tables db))
                      end
                  end
              end
        end
    end.
Proof.
  unfold checkin_ticket, respond, transaction, checkin_body, bind,
    select_bilhete_voo_for_update, select_now, sql_find_seat, ret.
  destruct (bilhete_join_voo (tables db) bilhete_id) as [[b v]|]; [|reflexivity].
  destruct (b_lugar b); [reflexivity|].
  destruct (v_hora_partida v <=? now); [reflexivity|].
  destruct (seat_keys _) as [ks|]; [|now rewrite with_tables_same].
  destruct (first_seat ks) as [lugar|]; [|reflexivity].
  destruct (update_bilhete lugar (v_no_serie v) bilhete_id db) as [[u|e] db1];
    reflexivity.
Qed.

Lemma update_bilhete_cases lugar no_serie bilhete_id db :
  match update_bilhete lugar no_serie bilhete_id db with
  | (Ok _, db1) =>
      db1 = with_tables db
              (with_bilhete (tables db)
                 (map (fun b => if b_id b =? bilhete_id
                                then set_seat b lugar no_serie else b)
                      (bilhete (tables db))))
  | (Raise _, db1) => db1 = db
  end.
Proof.
  unfold update_bilhete.
  destruct (_ && _); [reflexivity|].
  destruct (update_refused _ _ _ _ _); reflexivity.
Qed.

Lemma NoDup_map_inj {A B} (f : A -> B) (l : list A) x y :
  NoDup (map f l) -> In x l -> In y l -> f x = f y -> x = y.
Proof.
  induction l as [|a l IH]; simpl; [tauto|].
  intros N Hx Hy E. inversion N as [|? ? Na Nl]; subst.
  destruct Hx as [<-|Hx], Hy as [<-|Hy]; auto.
  - exfalso. apply Na. rewrite E. now apply in_map.
  - exfalso. apply Na. rewrite <- E. now apply in_map.
Qed.

Lemma bilhete_join_voo_sound t bilhete_id b v :
  bilhete_join_voo t bilhete_id = Some (b, v) ->
  In b (bilhete t) /\ b_id b = bilhete_id /\ In v (voo t) /\ v_id v = b_voo_id b.
Proof.
  unfold bilhete_join_voo. intros H.
  assert (I : In (b, v)
                (filter (fun bv => b_id (fst bv) =? bilhete_id)
                   (flat_map (fun b => map (fun v => (b, v))
                                (filter (fun v => b_voo_id b =? v_id v) (voo t)))
                      (bilhete t)))).
  { destruct (filter _ _) as [|x l]; [discriminate H|].
    injection H as ->. now left. }
  apply filter_In in I as [I E]. simpl in E. apply Z.eqb_eq in E.
  apply in_flat_map in I as (b' & Ib & I).
  apply in_map_iff in I as (v' & P & I). injection P as -> ->.
  apply filter_In in I as [Iv J]. apply Z.eqb_eq in J. auto.
Qed.

Lemma bilhete_join_voo_found t bilhete_id b :
  NoDup (map b_id (bilhete t)) ->
  In b (bilhete t) -> b_id b = bilhete_id ->
  (exists v, In v (voo t) /\ v_id v = b_voo_id b) ->
  exists v, bilhete_join_voo t bilhete_id = Some (b, v).
Proof.
  intros N Ib E (v & Iv & J).
  destruct (bilhete_join_voo t bilhete_id) as [[b' v']|] eqn:L.
  - apply bilhete_join_voo_sound in L as (Ib' & E' & _ & _).
    assert (b' = b) as -> by (eapply NoDup_map_inj; eauto; congruence).
    eauto.
  - exfalso. unfold bilhete_join_voo in L.
    assert (I : In (b, v)
                  (filter (fun bv => b_id (fst bv) =? bilhete_id)
                     (flat_map (fun b => map (fun v => (b, v))
                                  (filter (fun v => b_voo_id b =? v_id v) (voo t)))
                        (bilhete t)))).
    { apply filter_In. split; [|simpl; now apply Z.eqb_eq].
      apply in_flat_map. exists b. split; [exact Ib|].
      apply in_map. apply filter_In. split; [exact Iv|].
      apply Z.eqb_eq. congruence. }
    destruct (filter _ _); [destruct I | discriminate L].
Qed.

Lemma map_update_unique (f : Bilhete -> Bilhete) bilhete_id pre b post :
  NoDup (map b_id (pre ++ b :: post)) -> b_id b = bilhete_id ->
  map (fun x => if b_id x =? bilhete_id then f x else x) (pre ++ b :: post)
  = pre ++ f b :: post.
Proof.
  intros N E.
  assert (K : forall x, In x pre \/ In x post -> (b_id x =? bilhete_id) = false).
  { intros x Hx. apply Z.eqb_neq. intros Ex.
    rewrite map_app in N. simpl in N.
    apply NoDup_remove_2 in N. apply N. rewrite E, <- Ex.
    apply in_or_app. destruct Hx as [Hx|Hx]; [left|right]; now apply in_map. }
  rewrite map_app. simpl. rewrite (proj2 (Z.eqb_eq _ _) E).
  f_equal; [|f_equal].
  - rewrite <- (map_id pre) at 2. apply map_ext_in. intros x Hx.
    now rewrite K by auto.
  - rewrite <- (map_id post) at 2. apply map_ext_in. intros x Hx.
    now rewrite K by auto.
Qed.

Lemma checkin_success_inv bilhete_id now db db' r :
  NoDup (map b_id (bilhete (tables db))) ->
  checkin_ticket bilhete_id now db = (r, db') ->
  status r = 200 ->
  exists pre b post v lugar,
    bilhete (tables db) = pre ++ b :: post
    /\ b_id b = bilhete_id /\ b_lugar b = None
    /\ In v (voo (tables db)) /\ v_id v = b_voo_id b
    /\ now < v_hora_partida v
    /\ sql_find_seat (v_no_serie v) (b_prim_classe b) (b_voo_id b) db
       = (Ok (Some lugar), db)
    /\ db' = with_tables db
               (with_bilhete (tables db)
                  (pre ++ set_seat b lugar (v_no_serie v) :: post))
    /\ r = (200, CheckinSuccessful bilhete_id lugar (v_no_serie v)).
Proof.
  intros N. rewrite checkin_ticket_cases.
  destruct (bilhete_join_voo (tables db) bilhete_id) as [[b v]|] eqn:L;
    [|intros H; injection H as <- <-; intros S; discriminate S].
  apply bilhete_join_voo_sound in L as (Ib & E & Iv & J).
  destruct (b_lugar b) eqn:Lg;
    [intros H; injection H as <- <-; intros S; discriminate S|].
  destruct (v_hora_partida v <=? now) eqn:Hd;
    [intros H; injection H as <- <-; intros S; discriminate S|].
  apply Z.leb_gt in Hd.
  destruct (seat_keys _) as [ks|] eqn:K;
    [|intros H; injection H as <- <-; intros S; discriminate S].
  destruct (first_seat ks) as [lugar|] eqn:Fs;
    [|intros H; injection H as <- <-; intros S; discriminate S].
  pose proof (update_bilhete_cases lugar (v_no_serie v) bilhete_id db) as U.
  destruct (update_bilhete lugar (v_no_serie v) bilhete_id db) as [[u|e] db1].
  - intros H. injection H as <- <-. intros _.
    destruct (in_split _ _ Ib) as (pre & post & Sp).
    exists pre, b, post, v, lugar.
    repeat split; auto.
    + unfold sql_find_seat. now rewrite K, Fs.
    + rewrite U. rewrite Sp in N |- *.
      now rewrite (@map_update_unique (fun x => set_seat x lugar (v_no_serie v))
                     bilhete_id pre b post N E).
  - intros H. injection H as <- <-. intros S.
    discriminate S.
Qed.

Lemma checkin_assigned bilhete_id now db b lugar :
  NoDup (map b_id (bilhete (tables db))) ->
  In b (bilhete (tables db)) -> b_id b = bilhete_id ->
  b_lugar b = Some lugar ->
  (exists v, In v (voo (tables db)) /\ v_id v = b_voo_id b) ->
  checkin_ticket bilhete_id now db
  = ((409, CheckinAlreadyCompleted bilhete_id lugar), db).
Proof.
  intros N Ib E Lg Fk. rewrite checkin_ticket_cases.
  destruct (bilhete_join_voo_found (tables db) bilhete_id b N Ib E Fk) as [v ->].
  now rewrite Lg.
Qed.

(** C10.  A successful check-in changes exactly one stored row: the Ticket
    checked in gets the chosen seat label and the aircraft serial of its
    flight, and keeps every other field; the rows before and after it in the
    Ticket table, and the Airport, Aircraft, Seat, Flight and Sale tables,
    are what they were.  The seat and the aircraft serial of the 200 response
    are the values written. *)
Theorem checkin_writes_one_row
    (bilhete_id : Z) (now : Z) (db db' : Database) (r : Response) :
  NoDup (map b_id (bilhete (tables db))) ->
  checkin_ticket bilhete_id now db = (r, db') ->
  status r = 200 ->
  exists pre b post v lugar b',
    bilhete (tables db) = pre ++ b :: post
    /\ b_id b = bilhete_id
    /\ In v (voo (tables db)) /\ v_id v = b_voo_id b
    /\ sql_find_seat (v_no_serie v) (b_prim_classe b) (b_voo_id b) db
       = (Ok (Some lugar), db)
    /\ same_but_seat b b'
    /\ b_lugar b' = Some lugar
    /\ b_no_serie b' = Some (v_no_serie v)
    /\ db' = mkDatabase
               (mkTables (aeroporto (tables db)) (aviao (tables db))
                  (assento (tables db)) (voo (tables db)) (venda (tables db))
                  (pre ++ b' :: post))
               (venda_codigo_reserva_seq db) (bilhete_id_seq db)
    /\ r = (200, CheckinSuccessful bilhete_id lugar (v_no_serie v)).
Proof.
  intros N H S.
  destruct (checkin_success_inv bilhete_id now db db' r N H S)
    as (pre & b & post & v & lugar & Sp & E & _ & Iv & J & _ & Q & -> & ->).
  exists pre, b, post, v, lugar, (set_seat b lugar (v_no_serie v)).
  repeat split; auto.
Qed.

(** C4.  Check-in of a ticket that already has a seat is answered 409
    Conflict naming that seat, and changes nothing, whatever the time is.
    Hence when a check-in has succeeded, a second check-in of the same ticket
    is answered 409 naming the seat the first one chose and leaves the state
    the first one produced, also when the flight has departed meanwhile. *)
Theorem checkin_twice_conflicts (bilhete_id : Z) (db : Database) :
  NoDup (map b_id (bilhete (tables db))) ->
  (forall b lugar now,
      In b (bilhete (tables db)) -> b_id b = bilhete_id ->
      b_lugar b = Some lugar ->
      (exists v, In v (voo (tables db)) /\ v_id v = b_voo_id b) ->
      checkin_ticket bilhete_id now db
      = ((409, CheckinAlreadyCompleted bilhete_id lugar), db))
  /\ (forall now1 lugar no_serie db1,
         checkin_ticket bilhete_id now1 db
         = ((200, CheckinSuccessful bilhete_id lugar no_serie), db1) ->
         forall now2,
           checkin_ticket bilhete_id now2 db1
           = ((409, CheckinAlreadyCompleted bilhete_id lugar), db1)).
Proof.
  intros N. split.
  - intros b lugar now Ib E Lg Fk. now apply checkin_assigned with (b := b).
  - intros now1 lugar no_serie db1 H now2.
    destruct (checkin_success_inv bilhete_id now1 db db1 _ N H eq_refl)
      as (pre & b & post & v & lugar' & Sp & E & _ & Iv & J & _ & _ & -> & R).
    injection R as -> ->.
    apply checkin_assigned with (b := set_seat b lugar' (v_no_serie v)).
    + simpl. rewrite Sp in N. rewrite map_app in N |- *. exact N.
    + simpl. apply in_or_app. right. now left.
    + exact E.
    + reflexivity.
    + exists v. simpl. auto.
Qed.

(** ** ORDER BY *)

Section OrderBy.

Context {A : Type} (leb : A -> A -> bool).

Hypothesis leb_total : forall x y, leb x y = true \/ leb y x = true.
Hypothesis leb_trans :
  forall x y z, leb x y = true -> leb y z = true -> leb x z = true.

Let le (x y : A) : Prop := leb x y = true.

Lemma insert_by_perm x l : Permutation (insert_by leb x l) (x :: l).
Proof.
  induction l as [|y l IH]; simpl; [reflexivity|].
  destruct (leb x y); [reflexivity|].
  rewrite IH. apply perm_swap.
Qed.

Lemma order_by_perm l : Permutation (order_by leb l) l.
Proof.
  induction l as [|x l IH]; simpl; [reflexivity|].
  rewrite insert_by_perm. now constructor.
Qed.

Lemma insert_by_sorted x l :
  StronglySorted le l -> StronglySorted le (insert_by leb x l).
Proof using leb_total leb_trans.
  induction 1 as [|y l S IH F]; simpl.
  - repeat constructor.
  - destruct (leb x y) eqn:E.
    + constructor; [now constructor|].
      constructor; [exact E|].
      eapply Forall_impl; [|exact F]. intros z Hz. eapply leb_trans; eauto.
    + constructor; [exact IH|].
      eapply Permutation_Forall; [symmetry; apply insert_by_perm|].
      constructor; [|exact F].
      destruct (leb_total x y) as [C|C]; [congruence | exact C].
Qed.

Lemma order_by_sorted l : StronglySorted le (order_by leb l).
Proof using leb_total leb_trans.
  induction l as [|x l IH]; simpl; [constructor|].
  now apply insert_by_sorted.
Qed.

Lemma order_by_nil l : order_by leb l = [] <-> l = [].
Proof.
  split; [|now intros ->].
  intros H. pose proof (order_by_perm l) as P. rewrite H in P.
  now apply Permutation_nil.
Qed.

(** The first row of an ordered result is below every row. *)
Lemma order_by_head x l' l :
  order_by leb l = x :: l' -> forall y, In y l -> le x y.
Proof using leb_total leb_trans.
  intros H y Hy.
  pose proof (order_by_sorted l) as S. rewrite H in S.
  apply (Permutation_in _ (Permutation_sym (order_by_perm l))) in Hy.
  rewrite H in Hy. inversion S as [|? ? _ F]; subst.
  destruct Hy as [<-|Hy].
  - destruct (leb_total x x); assumption.
  - rewrite Forall_forall in F. now apply F.
Qed.



End OrderBy.

Lemma by_hora_partida_total v1 v2 :
  by_hora_partida v1 v2 = true \/ by_hora_partida v2 v1 = true.
Proof. unfold by_hora_partida. rewrite !Z.leb_le. lia. Qed.

Lemma by_hora_partida_trans v1 v2 v3 :
  by_hora_partida v1 v2 = true -> by_hora_partida v2 v3 = true ->
  by_hora_partida v1 v3 = true.
Proof. unfold by_hora_partida. rewrite !Z.leb_le. lia. Qed.

(** ** GET /voos/<partida>/<chegada>/: the next available flights *)




Lemma airport_exists_In (t : Tables) (codigo : string) :
  airport_exists t codigo = true ->
  exists ap, In ap (aeroporto t) /\ a_codigo ap = codigo.
Proof.
  unfold airport_exists. intros H.
  destruct (filter (fun a => String.eqb (a_codigo a) codigo) (aeroporto t))
    as [|ap l] eqn:F; [discriminate H|].
  assert (I : In ap (filter (fun a => String.eqb (a_codigo a) codigo)
                            (aeroporto t))) by (rewrite F; now left).
  apply filter_In in I as [I E]. apply String.eqb_eq in E. eauto.
Qed.

Lemma on_route_spec partida chegada now v :
  on_route partida chegada now v = true
  <-> v_partida v = partida /\ v_chegada v = chegada /\ now < v_hora_partida v.
Proof.
  unfold on_route. rewrite !andb_true_iff, !String.eqb_eq, Z.ltb_lt. tauto.
Qed.

Lemma has_free_seat_spec t v :
  has_free_seat t v = true
  <-> count_bilhete t (v_id v) < count_assento t (v_no_serie v).
Proof. unfold has_free_seat. apply Z.ltb_lt. Qed.

(** The ticket count of a flight does not look at seats: rewriting the seat
    fields of the tickets leaves it as it is. *)
Lemma count_bilhete_ignores_seats t (f : Bilhete -> Bilhete) voo_id :
  (forall b, b_voo_id (f b) = b_voo_id b) ->
  count_bilhete (with_bilhete t (map f (bilhete t))) voo_id
  = count_bilhete t voo_id.
Proof.
  intros H. unfold count_bilhete. simpl. f_equal.
  induction (bilhete t) as [|b l IH]; simpl; [reflexivity|].
  rewrite H. destruct (b_voo_id b =? voo_id); simpl; now rewrite IH.
Qed.





(** ** Seat selection *)

Lemma string_leb_trans (s1 : string) : forall s2 s3,
  String.leb s1 s2 = true -> String.leb s2 s3 = true -> String.leb s1 s3 = true.
Proof.
  induction s1 as [|c1 s1 IH]; intros [|c2 s2] [|c3 s3];
    unfold String.leb in *; simpl; try reflexivity; try discriminate.
  unfold Ascii.compare.
  destruct (N.compare_spec (N_of_ascii c1) (N_of_ascii c2)) as [E12|L12|G12];
    destruct (N.compare_spec (N_of_ascii c2) (N_of_ascii c3)) as [E23|L23|G23];
    destruct (N.compare_spec (N_of_ascii c1) (N_of_ascii c3)) as [E13|L13|G13];
    try discriminate; try reflexivity; try lia.
  apply IH.
Qed.

Lemma seat_key_leb_total k1 k2 :
  seat_key_leb k1 k2 = true \/ seat_key_leb k2 k1 = true.
Proof.
  destruct k1 as [[r1 t1] l1], k2 as [[r2 t2] l2]. unfold seat_key_leb.
  destruct (Z.lt_trichotomy r1 r2) as [H|[H|H]].
  - left. apply Z.ltb_lt in H. now rewrite H.
  - subst. rewrite Z.ltb_irrefl, Z.eqb_refl. simpl.
    apply String.leb_total.
  - right. apply Z.ltb_lt in H. now rewrite H.
Qed.

Lemma seat_key_leb_trans k1 k2 k3 :
  seat_key_leb k1 k2 = true -> seat_key_leb k2 k3 = true ->
  seat_key_leb k1 k3 = true.
Proof.
  destruct k1 as [[r1 t1] l1], k2 as [[r2 t2] l2], k3 as [[r3 t3] l3].
  unfold seat_key_leb, Sql.text_leb.
  rewrite !orb_true_iff, !andb_true_iff, !Z.ltb_lt, !Z.eqb_eq.
  intros [H1|[H1 T1]] [H2|[H2 T2]]; try (left; lia).
  right. split; [lia|]. eapply string_leb_trans; eauto.
Qed.

Lemma first_seat_none ks : first_seat ks = None <-> ks = [].
Proof.
  unfold first_seat. split; [|now intros ->].
  destruct (order_by seat_key_leb ks) as [|[[r t] l] ks'] eqn:O;
    [|discriminate].
  intros _. now apply (order_by_nil seat_key_leb).
Qed.

Lemma first_seat_some ks lugar :
  first_seat ks = Some lugar ->
  exists row rest,
    In (row, rest, lugar) ks
    /\ forall k, In k ks -> seat_key_leb (row, rest, lugar) k = true.
Proof.
  unfold first_seat.
  destruct (order_by seat_key_leb ks) as [|[[r t] l] ks'] eqn:O;
    [discriminate|].
  intros H. injection H as ->. exists r, t. split.
  - apply (Permutation_in _ (order_by_perm seat_key_leb ks)).
    rewrite O. now left.
  - exact (order_by_head seat_key_leb seat_key_leb_total seat_key_leb_trans
             _ _ _ O).
Qed.

Lemma seat_keys_in l ks :
  seat_keys l = Some ks ->
  (forall k, In k ks ->
     exists a, In a l /\ k = (fst (fst k), seat_rest (s_lugar a), s_lugar a)
               /\ seat_row (s_lugar a) = Some (fst (fst k)))
  /\ (forall a, In a l ->
        exists row, seat_row (s_lugar a) = Some row
                    /\ In (row, seat_rest (s_lugar a), s_lugar a) ks).
Proof.
  revert ks. induction l as [|a l IH]; simpl; intros ks.
  - intros H. injection H as <-. split; intros ? [].
  - destruct (seat_row (s_lugar a)) as [row|] eqn:R; [|discriminate].
    destruct (seat_keys l) as [ks'|]; [|discriminate].
    intros H. injection H as <-.
    destruct (IH ks' eq_refl) as [IH1 IH2]. split.
    + intros k [<-|Hk].
      * exists a. simpl. auto.
      * destruct (IH1 k Hk) as (a' & Ia & E & R'). exists a'. auto.
    + intros a' [<-|Ha].
      * exists row. split; [exact R | now left].
      * destruct (IH2 a' Ha) as (row' & R' & I). exists row'.
        split; [exact R' | now right].
Qed.

Lemma seat_candidates_spec t no_serie prim_classe voo_id a :
  In a (seat_candidates t no_serie prim_classe voo_id)
  <-> free_seat t no_serie prim_classe voo_id a.
Proof.
  clear trigger.
  unfold seat_candidates, free_seat, seat_taken.
  rewrite filter_In, !andb_true_iff, String.eqb_eq, Bool.eqb_true_iff,
    negb_true_iff.
  assert (X : existsb
                (fun b => (b_voo_id b =? voo_id)
                          && eq_nullable (b_lugar b) (s_lugar a)
                          && eq_nullable (b_no_serie b) (s_no_serie a))
                (bilhete t) = false
              <-> ~ exists b, In b (bilhete t) /\ b_voo_id b = voo_id
                              /\ b_lugar b = Some (s_lugar a)
                              /\ b_no_serie b = Some (s_no_serie a)).
  { rewrite <- not_true_iff_false, existsb_exists.
    split; intros H C; apply H; destruct C as (b & Ib & C); exists b;
      (split; [exact Ib|]).
    - destruct C as (V & L & S). rewrite L, S. simpl.
      rewrite !String.eqb_refl, (proj2 (Z.eqb_eq _ _) V). reflexivity.
    - apply andb_true_iff in C as [C S]. apply andb_true_iff in C as [V L].
      apply Z.eqb_eq in V.
      destruct (b_lugar b) as [x|]; [|discriminate L].
      destruct (b_no_serie b) as [y|]; [|discriminate S].
      simpl in L, S. apply String.eqb_eq in L, S. subst. auto. }
  tauto.
Qed.

(** On success the seat assigned is a free seat of the flight's aircraft and
    of the ticket's class, and no free seat comes before it in the order
    [sql_find_seat] sorts by. *)
Lemma checkin_picks_first_free_seat bilhete_id now db db' lugar no_serie :
  checkin_ticket bilhete_id now db
  = ((200, CheckinSuccessful bilhete_id lugar no_serie), db') ->
  exists b v a,
    bilhete_join_voo (tables db) bilhete_id = Some (b, v)
    /\ no_serie = v_no_serie v
    /\ free_seat (tables db) (v_no_serie v) (b_prim_classe b) (b_voo_id b) a
    /\ s_lugar a = lugar
    /\ forall a',
        free_seat (tables db) (v_no_serie v) (b_prim_classe b) (b_voo_id b) a' ->
        seat_order_sql lugar (s_lugar a').
Proof.
  rewrite checkin_ticket_cases.
  destruct (bilhete_join_voo (tables db) bilhete_id) as [[b v]|] eqn:L;
    [|intros H; discriminate H].
  destruct (b_lugar b); [intros H; discriminate H|].
  destruct (v_hora_partida v <=? now); [intros H; discriminate H|].
  destruct (seat_keys _) as [ks|] eqn:K; [|intros H; discriminate H].
  destruct (first_seat ks) as [lugar'|] eqn:Fs; [|intros H; discriminate H].
  destruct (update_bilhete lugar' (v_no_serie v) bilhete_id db) as [[u|e] db1].
  - intros H. injection H as -> <- _.
    destruct (seat_keys_in _ _ K) as [K1 K2].
    destruct (first_seat_some _ _ Fs) as (row & rest & I & Min).
    destruct (K1 _ I) as (a & Ia & E & R). simpl in E, R.
    injection E as -> ->.
    exists b, v, a.
    split; [reflexivity|]. split; [reflexivity|].
    split; [now apply seat_candidates_spec|]. split; [reflexivity|].
    intros a' Ha'. apply seat_candidates_spec in Ha'.
    destruct (K2 _ Ha') as (row' & R' & I').
    exists row, row'. split; [exact R|]. split; [exact R'|]. now apply Min.
  - intros H. discriminate H.
Qed.

(** When no seat is free for an unassigned ticket of a flight that has not
    departed, check-in is answered 409 and nothing is written. *)
Lemma checkin_no_free_seat bilhete_id now db b v :
  bilhete_join_voo (tables db) bilhete_id = Some (b, v) ->
  b_lugar b = None ->
  now < v_hora_partida v ->
  (forall a, ~ free_seat (tables db) (v_no_serie v) (b_prim_classe b)
                         (b_voo_id b) a) ->
  checkin_ticket bilhete_id now db
  = ((409, NoSeatsAvailable (b_prim_classe b) (b_voo_id b) (v_no_serie v)), db).
Proof.
  intros L Lg Hd No. rewrite checkin_ticket_cases, L, Lg.
  apply Z.leb_gt in Hd. rewrite Hd.
  assert (E : seat_candidates (tables db) (v_no_serie v) (b_prim_classe b)
                (b_voo_id b) = []).
  { destruct (seat_candidates _ _ _ _) as [|a l] eqn:C; [reflexivity|].
    exfalso. apply (No a). apply seat_candidates_spec. rewrite C. now left. }
  rewrite E. reflexivity.
Qed.

Lemma digit_not_AZ c : Py.is_09 c = true -> Py.is_AZ c = false.
Proof.
  destruct c as [[] [] [] [] [] [] [] []]; simpl; intros H;
    try reflexivity; discriminate H.
Qed.

Lemma AZ_not_digit c : Py.is_AZ c = true -> Py.is_09 c = false.
Proof.
  destruct c as [[] [] [] [] [] [] [] []]; simpl; intros H;
    try reflexivity; discriminate H.
Qed.

Lemma digit_value_range c :
  Py.is_09 c = true -> 0 <= Sql.digit_value c <= 9.
Proof.
  unfold Py.is_09, Sql.digit_value. intros H.
  apply andb_true_iff in H as [H1 H2].
  apply N.leb_le in H1, H2. lia.
Qed.

Lemma digit_value_inj c d : Sql.digit_value c = Sql.digit_value d -> c = d.
Proof.
  unfold Sql.digit_value, Py.code. intros H.
  assert (E : N_of_ascii c = N_of_ascii d) by lia.
  rewrite <- (ascii_N_embedding c), <- (ascii_N_embedding d). now rewrite E.
Qed.

Lemma keys_one_digit d l :
  Py.is_09 d = true -> Py.is_AZ l = true ->
  seat_row (String d (String l "")) = Some (Sql.digit_value d)
  /\ seat_rest (String d (String l "")) = String l ""
  /\ row_number (String d (String l "")) = Sql.digit_value d
  /\ cabin_letter (String d (String l "")) = String l "".
Proof.
  intros Hd Hl.
  unfold seat_row, seat_rest, row_number, cabin_letter, Sql.cast_integer,
    Py.isdigit. simpl.
  rewrite (digit_not_AZ _ Hd), (AZ_not_digit _ Hl), Hd, Hl. simpl.
  rewrite Hd. simpl. repeat split; f_equal; lia.
Qed.

Lemma keys_two_digits d1 d2 l :
  Py.is_09 d1 = true -> Py.is_09 d2 = true -> Py.is_AZ l = true ->
  seat_row (String d1 (String d2 (String l "")))
  = Some (10 * Sql.digit_value d1 + Sql.digit_value d2)
  /\ seat_rest (String d1 (String d2 (String l ""))) = String d2 (String l "")
  /\ row_number (String d1 (String d2 (String l "")))
     = 10 * Sql.digit_value d1 + Sql.digit_value d2
  /\ cabin_letter (String d1 (String d2 (String l ""))) = String l "".
Proof.
  intros H1 H2 Hl.
  unfold seat_row, seat_rest, row_number, cabin_letter, Sql.cast_integer,
    Py.isdigit. simpl.
  rewrite (digit_not_AZ _ H1), (digit_not_AZ _ H2), (AZ_not_digit _ Hl),
    H1, H2, Hl. simpl.
  rewrite H1, H2. simpl. repeat split; f_equal; lia.
Qed.

Lemma seat_label_shape s :
  seat_label_format s = true ->
  (exists d l, s = String d (String l "")
               /\ Py.is_09 d = true /\ Py.is_AZ l = true)
  \/ (exists d1 d2 l, s = String d1 (String d2 (String l ""))
                      /\ Py.is_09 d1 = true /\ Py.is_09 d2 = true
                      /\ Py.is_AZ l = true).
Proof.
  destruct s as [|c1 [|c2 [|c3 [|c4 s]]]]; simpl; try discriminate.
  - intros H. apply andb_true_iff in H as [H1 H2]. left. eauto.
  - intros H. apply andb_true_iff in H as [H H3].
    apply andb_true_iff in H as [H1 H2]. right. eauto 8.
Qed.

Lemma seat_order_sql_keys l1 l2 r1 r2 :
  seat_row l1 = Some r1 -> seat_row l2 = Some r2 ->
  (seat_order_sql l1 l2
   <-> (r1 <? r2) || ((r1 =? r2) && String.leb (seat_rest l1) (seat_rest l2))
       = true).
Proof.
  intros R1 R2. unfold seat_order_sql. split.
  - intros (x1 & x2 & E1 & E2 & H).
    rewrite R1 in E1. rewrite R2 in E2. injection E1 as <-. injection E2 as <-.
    exact H.
  - intros H. exists r1, r2. auto.
Qed.

(** On labels that pass the CHECK and carry no leading zero, the order
    [sql_find_seat] sorts by is the order the specification names: row
    number, then cabin letter. *)
Lemma seat_order_agrees l1 l2 :
  seat_label_format l1 = true -> seat_label_format l2 = true ->
  no_leading_zero l1 = true -> no_leading_zero l2 = true ->
  (seat_order_sql l1 l2 <-> seat_order_spec l1 l2 = true).
Proof.
  intros F1 F2 Z1 Z2.
  destruct (seat_label_shape _ F1)
    as [(d & l & -> & Hd & Hl) | (d1 & d2 & l & -> & Hd1 & Hd2 & Hl)];
    destruct (seat_label_shape _ F2)
      as [(e & m & -> & He & Hm) | (e1 & e2 & m & -> & He1 & He2 & Hm)].
  - destruct (keys_one_digit _ _ Hd Hl) as (R1 & T1 & N1 & C1).
    destruct (keys_one_digit _ _ He Hm) as (R2 & T2 & N2 & C2).
    rewrite (seat_order_sql_keys _ _ _ _ R1 R2). unfold seat_order_spec.
    rewrite T1, T2, N1, N2, C1, C2. reflexivity.
  - destruct (keys_one_digit _ _ Hd Hl) as (R1 & T1 & N1 & C1).
    destruct (keys_two_digits _ _ _ He1 He2 Hm) as (R2 & T2 & N2 & C2).
    rewrite (seat_order_sql_keys _ _ _ _ R1 R2). unfold seat_order_spec.
    rewrite N1, N2.
    pose proof (digit_value_range _ Hd). pose proof (digit_value_range _ He1).
    pose proof (digit_value_range _ He2).
    assert (Sql.digit_value e1 <> 0).
    { simpl in Z2. apply negb_true_iff, N.eqb_neq in Z2.
      unfold Sql.digit_value. lia. }
    assert (L : (Sql.digit_value d
                 <? 10 * Sql.digit_value e1 + Sql.digit_value e2) = true)
      by (apply Z.ltb_lt; lia).
    rewrite L. tauto.
  - destruct (keys_two_digits _ _ _ Hd1 Hd2 Hl) as (R1 & T1 & N1 & C1).
    destruct (keys_one_digit _ _ He Hm) as (R2 & T2 & N2 & C2).
    rewrite (seat_order_sql_keys _ _ _ _ R1 R2). unfold seat_order_spec.
    rewrite N1, N2.
    pose proof (digit_value_range _ Hd1). pose proof (digit_value_range _ Hd2).
    pose proof (digit_value_range _ He).
    assert (Sql.digit_value d1 <> 0).
    { simpl in Z1. apply negb_true_iff, N.eqb_neq in Z1.
      unfold Sql.digit_value. lia. }
    assert (L : (10 * Sql.digit_value d1 + Sql.digit_value d2
                 <? Sql.digit_value e) = false) by (apply Z.ltb_ge; lia).
    assert (E : (10 * Sql.digit_value d1 + Sql.digit_value d2
                 =? Sql.digit_value e) = false) by (apply Z.eqb_neq; lia).
    rewrite L, E. tauto.
  - destruct (keys_two_digits _ _ _ Hd1 Hd2 Hl) as (R1 & T1 & N1 & C1).
    destruct (keys_two_digits _ _ _ He1 He2 Hm) as (R2 & T2 & N2 & C2).
    rewrite (seat_order_sql_keys _ _ _ _ R1 R2). unfold seat_order_spec.
    rewrite T1, T2, N1, N2, C1, C2.
    destruct (10 * Sql.digit_value d1 + Sql.digit_value d2
              =? 10 * Sql.digit_value e1 + Sql.digit_value e2) eqn:E;
      [|tauto].
    apply Z.eqb_eq in E.
    pose proof (digit_value_range _ Hd1). pose proof (digit_value_range _ Hd2).
    pose proof (digit_value_range _ He1). pose proof (digit_value_range _ He2).
    assert (d2 = e2) as -> by (apply digit_value_inj; lia).
    unfold String.leb. simpl. unfold Ascii.compare.
    rewrite N.compare_refl. tauto.
Qed.

(** X13.  One after the other, two successful check-ins on the same flight
    never hand out the same seat label: the second sees the first one's seat
    as taken. *)
Lemma sequential_checkins_take_distinct_seats
    id1 id2 now1 now2 db db1 db2 s1 s2 ns1 ns2 b1 b2 :
  NoDup (map b_id (bilhete (tables db))) ->
  NoDup (map v_id (voo (tables db))) ->
  In b1 (bilhete (tables db)) -> b_id b1 = id1 ->
  In b2 (bilhete (tables db)) -> b_id b2 = id2 ->
  b_voo_id b1 = b_voo_id b2 ->
  checkin_ticket id1 now1 db = ((200, CheckinSuccessful id1 s1 ns1), db1) ->
  checkin_ticket id2 now2 db1 = ((200, CheckinSuccessful id2 s2 ns2), db2) ->
  s1 <> s2.
Proof.
  intros N Nv I1 E1 I2 E2 Same H1 H2 Eq. subst s2.
  destruct (checkin_success_inv id1 now1 db db1 _ N H1 eq_refl)
    as (pre & b & post & v1 & lugar & Sp & Eb & _ & Iv1 & J1 & _ & _ & -> & R).
  injection R as -> ->.
  assert (b = b1) as ->.
  { eapply NoDup_map_inj; [exact N| | exact I1 | congruence].
    rewrite Sp. apply in_or_app. right. now left. }
  destruct (checkin_picks_first_free_seat id2 now2 _ db2 lugar ns2 H2)
    as (b2' & v2 & a & L2 & _ & (_ & Sa & _ & Free) & La & _).
  apply bilhete_join_voo_sound in L2 as (I2' & E2' & Iv2 & J2).
  simpl in I2', Iv2, Free.
  assert (V : b_voo_id b2' = b_voo_id b1).
  { apply in_app_or in I2'. destruct I2' as [I|[<-|I]]; [|reflexivity|].
    - assert (b2' = b2) as ->; [|congruence].
      eapply NoDup_map_inj; [exact N| | exact I2 | congruence].
      rewrite Sp. apply in_or_app. now left.
    - assert (b2' = b2) as ->; [|congruence].
      eapply NoDup_map_inj; [exact N| | exact I2 | congruence].
      rewrite Sp. apply in_or_app. right. now right. }
  assert (v2 = v1) as ->
    by (eapply NoDup_map_inj; [exact Nv | exact Iv2 | exact Iv1 | congruence]).
  apply Free. exists (set_seat b1 lugar (v_no_serie v1)).
  split; [apply in_or_app; right; now left|].
  simpl. rewrite La, Sa. auto.
Qed.

(** ** The error handler *)

(** The full handler agrees with the part of it the write routes use. *)
Lemma handle_general_exception_psycopg sqlstate pgcode :
  fst (handle_general_exception (mkRaised true true pgcode None))
  = status (handle_psycopg_error sqlstate pgcode).
Proof.
  unfold handle_general_exception, handle_psycopg_error. simpl.
  destruct pgcode as [c|]; [|reflexivity].
  unfold Py.truthy_str.
  destruct (String.eqb_spec c "") as [->|_]; [reflexivity|]. simpl.
  destruct (String.eqb c "P0001"); [reflexivity|].
  destruct (String.prefix "23" c); reflexivity.
Qed.

(** X1.  Whatever exception reaches it, the error handler answers with an
    error status: the status is at least 400 and below 600, never a success
    code; and a [psycopg.Error] is answered 409 or 500 and nothing else. *)
Theorem error_handler_status_range (e : Raised) :
  400 <= fst (handle_general_exception e) < 600
  /\ (psycopg_error e = true ->
      fst (handle_general_exception e) = 409
      \/ fst (handle_general_exception e) = 500).
Proof.
  unfold handle_general_exception.
  destruct (psycopg_error e).
  - assert (H : forall z : Z, z = 409 \/ z = 500 ->
                  400 <= z < 600 /\ (true = true -> z = 409 \/ z = 500))
      by (intros z [-> | ->]; split; auto; lia).
    simpl. apply H.
    destruct (raised_pgcode e) as [c|]; [|now right].
    destruct (database_error e && Py.truthy_str c); [|now right].
    destruct (String.eqb c "P0001"); [now left|].
    destruct (String.prefix "23" c); [now left | now right].
  - split; [|intros H; discriminate H].
    destruct (raised_code e) as [c|]; [|simpl; lia].
    destruct ((400 <=? c) && (c <? 600)) eqn:R; [|simpl; lia].
    apply andb_true_iff in R as [R1 R2].
    apply Z.leb_le in R1. apply Z.ltb_lt in R2. simpl. lia.
Qed.

(** ** GET /: the airport list *)

Lemma by_nome_total a1 a2 : by_nome a1 a2 = true \/ by_nome a2 a1 = true.
Proof. apply String.leb_total. Qed.

Lemma by_nome_trans a1 a2 a3 :
  by_nome a1 a2 = true -> by_nome a2 a3 = true -> by_nome a1 a3 = true.
Proof. apply string_leb_trans. Qed.

Lemma StronglySorted_map {A B} (f : A -> B) (R : B -> B -> Prop) (l : list A) :
  StronglySorted (fun x y => R (f x) (f y)) l -> StronglySorted R (map f l).
Proof.
  induction 1 as [|x l S IH F]; simpl; constructor; [exact IH|].
  rewrite Forall_forall in F |- *. intros y Hy.
  apply in_map_iff in Hy as (z & <- & Hz). auto.
Qed.

(** X2.  The airport list answers 200 with the name and city of every stored
    airport, each row once, ordered by name. *)
Theorem list_airports_spec (t : Tables) :
  fst (list_airports t) = 200
  /\ Permutation (snd (list_airports t))
                 (map (fun a => (a_nome a, a_cidade a)) (aeroporto t))
  /\ StronglySorted (fun r1 r2 => String.leb (fst r1) (fst r2) = true)
                    (snd (list_airports t)).
Proof.
  split; [reflexivity|]. split.
  - simpl. apply Permutation_map, order_by_perm.
  - simpl. apply StronglySorted_map.
    apply (order_by_sorted by_nome by_nome_total by_nome_trans).
Qed.

(** ** GET /voos/<partida>/: the departures of the next twelve hours *)

(** X3.  For the code of an existing airport, the route answers 200 with the
    flights that leave this airport strictly after the application's now and
    at most twelve hours later, each once, ordered by departure time; when
    there is none the answer is the empty list with a message. *)
Theorem upcoming_departures_spec (t : Tables) (now : Z) (d : string) :
  airport_code_format d = true ->
  airport_exists t d = true ->
  exists flights,
    Permutation flights
      (filter (fun v => String.eqb (v_partida v) d
                        && (now <? v_hora_partida v)
                        && (v_hora_partida v <=? now + 43200000000))
              (voo t))
    /\ StronglySorted (fun u w => v_hora_partida u <= v_hora_partida w) flights
    /\ list_flights_from_departure t now d
       = match flights with
         | [] => (200, NoFlightsNext12h d)
         | _ => (200, FlightsFrom
                        (map (fun v => (v_no_serie v, v_hora_partida v,
                                        v_chegada v)) flights))
         end.
Proof.
  intros F X. destruct (airport_code_format_ok _ F) as [G U].
  set (rows := filter (fun v => String.eqb (v_partida v) d
                                && (now <? v_hora_partida v)
                                && (v_hora_partida v <=? now + 43200000000))
                      (voo t)).
  exists (order_by by_hora_partida rows).
  split; [apply order_by_perm|]. split.
  - pose proof (order_by_sorted by_hora_partida by_hora_partida_total
                  by_hora_partida_trans rows) as S.
    induction S as [|x l S IH Fa]; constructor; [exact IH|].
    eapply Forall_impl; [|exact Fa]. intros y Hy. now apply Z.leb_le.
  - unfold list_flights_from_departure.
    rewrite G, U, (airport_code_no_nul _ F), X. simpl.
    reflexivity.
Qed.

(** ** POST /checkin/<bilhete_id>/: outcomes and invariants *)

(** What a successful check-in read and wrote. *)
Lemma checkin_success_full bilhete_id now db db' r :
  NoDup (map b_id (bilhete (tables db))) ->
  checkin_ticket bilhete_id now db = (r, db') ->
  status r = 200 ->
  exists pre b post v a,
    bilhete (tables db) = pre ++ b :: post
    /\ bilhete_join_voo (tables db) bilhete_id = Some (b, v)
    /\ b_lugar b = None
    /\ free_seat (tables db) (v_no_serie v) (b_prim_classe b) (b_voo_id b) a
    /\ db' = with_tables db
               (with_bilhete (tables db)
                  (pre ++ set_seat b (s_lugar a) (v_no_serie v) :: post))
    /\ r = (200, CheckinSuccessful bilhete_id (s_lugar a) (v_no_serie v)).
Proof.
  intros N H S.
  destruct (checkin_success_inv bilhete_id now db db' r N H S)
    as (pre & b & post & v & lugar & Sp & E & Lg & Iv & J & _ & _ & -> & ->).
  destruct (checkin_picks_first_free_seat bilhete_id now db _ lugar
              (v_no_serie v) H)
    as (b0 & v0 & a & L & Ens & Free & La & _).
  pose proof (bilhete_join_voo_sound _ _ _ _ L) as (Ib0 & E0 & _ & _).
  assert (b0 = b) as ->.
  { eapply NoDup_map_inj; [exact N | exact Ib0 | | congruence].
    rewrite Sp. apply in_or_app. right. now left. }
  subst lugar. rewrite Ens.
  exists pre, b, post, v0, a.
  split; [exact Sp|]. split; [exact L|]. split; [exact Lg|].
  split; [exact Free|]. split; reflexivity.
Qed.

(** X4.  Check-in of an id no ticket has is answered 404 and changes
    nothing. *)
Theorem checkin_unknown_ticket (bilhete_id now : Z) (db : Database) :
  (forall b, In b (bilhete (tables db)) -> b_id b <> bilhete_id) ->
  checkin_ticket bilhete_id now db = ((404, TicketNotFound bilhete_id), db).
Proof.
  intros No. rewrite checkin_ticket_cases.
  destruct (bilhete_join_voo (tables db) bilhete_id) as [[b v]|] eqn:L;
    [|reflexivity].
  apply bilhete_join_voo_sound in L as (Ib & E & _ & _).
  exfalso. exact (No b Ib E).
Qed.

(** X5.  Check-in of a ticket without a seat, at or after the departure time
    of its flight (equality included), is answered 409 and changes
    nothing. *)
Theorem checkin_after_departure
    (bilhete_id now : Z) (db : Database) (b : Bilhete) (v : Voo) :
  NoDup (map b_id (bilhete (tables db))) ->
  NoDup (map v_id (voo (tables db))) ->
  In b (bilhete (tables db)) -> b_id b = bilhete_id -> b_lugar b = None ->
  In v (voo (tables db)) -> v_id v = b_voo_id b ->
  v_hora_partida v <= now ->
  checkin_ticket bilhete_id now db = ((409, CheckinFlightDeparted), db).
Proof.
  intros N Nv Ib E Lg Iv J Hd. rewrite checkin_ticket_cases.
  destruct (bilhete_join_voo_found (tables db) bilhete_id b N Ib E
              (ex_intro _ v (conj Iv J))) as [v' L].
  rewrite L, Lg.
  apply bilhete_join_voo_sound in L as (_ & _ & Iv' & J').
  assert (v' = v) as ->
    by (eapply NoDup_map_inj; [exact Nv | exact Iv' | exact Iv | congruence]).
  apply Z.leb_le in Hd. now rewrite Hd.
Qed.

Lemma checkin_unchanged_aux bilhete_id now db :
  status (fst (checkin_ticket bilhete_id now db)) <> 200 ->
  snd (checkin_ticket bilhete_id now db) = db.
Proof.
  rewrite checkin_ticket_cases.
  destruct (bilhete_join_voo (tables db) bilhete_id) as [[b v]|];
    [|reflexivity].
  destruct (b_lugar b); [reflexivity|].
  destruct (v_hora_partida v <=? now); [reflexivity|].
  destruct (seat_keys _) as [ks|]; [|reflexivity].
  destruct (first_seat ks) as [lugar|]; [|reflexivity].
  pose proof (update_bilhete_cases lugar (v_no_serie v) bilhete_id db) as U.
  destruct (update_bilhete lugar (v_no_serie v) bilhete_id db) as [[u|e] db1].
  - intros H. exfalso. apply H. reflexivity.
  - intros _. simpl. rewrite U. apply with_tables_same.
Qed.

(** X6.  Check-in writes only when it answers 200: on every other outcome,
    a refused UPDATE included, the state is what it was. *)
Theorem checkin_writes_only_on_success (bilhete_id now : Z) (db : Database) :
  status (fst (checkin_ticket bilhete_id now db)) <> 200 ->
  snd (checkin_ticket bilhete_id now db) = db.
Proof. apply checkin_unchanged_aux. Qed.

(** X7.  A successful check-in assigns a seat of the flight's aircraft and of
    the ticket's class that no ticket of this flight holds, and no such seat
    comes before it in the order the query sorts by. *)
Theorem checkin_assigns_first_free_seat
    (bilhete_id now : Z) (db db' : Database) (lugar no_serie : string) :
  checkin_ticket bilhete_id now db
  = ((200, CheckinSuccessful bilhete_id lugar no_serie), db') ->
  exists b v a,
    bilhete_join_voo (tables db) bilhete_id = Some (b, v)
    /\ no_serie = v_no_serie v
    /\ free_seat (tables db) (v_no_serie v) (b_prim_classe b) (b_voo_id b) a
    /\ s_lugar a = lugar
    /\ forall a',
        free_seat (tables db) (v_no_serie v) (b_prim_classe b) (b_voo_id b) a' ->
        seat_order_sql lugar (s_lugar a').
Proof. apply checkin_picks_first_free_seat. Qed.

(** X8.  When no seat of the ticket's class is free on the flight, check-in
    of an unassigned ticket of a flight that has not departed is answered
    409 and changes nothing. *)
Theorem checkin_without_free_seat
    (bilhete_id now : Z) (db : Database) (b : Bilhete) (v : Voo) :
  bilhete_join_voo (tables db) bilhete_id = Some (b, v) ->
  b_lugar b = None ->
  now < v_hora_partida v ->
  (forall a, ~ free_seat (tables db) (v_no_serie v) (b_prim_classe b)
                         (b_voo_id b) a) ->
  checkin_ticket bilhete_id now db
  = ((409, NoSeatsAvailable (b_prim_classe b) (b_voo_id b) (v_no_serie v)), db).
Proof. apply checkin_no_free_seat. Qed.

(** X9.  On seat labels that pass the CHECK of the schema and carry no
    leading zero, the order the seat query sorts by is: row number first,
    then cabin letter. *)
Theorem sql_seat_order_is_row_then_letter (l1 l2 : string) :
  seat_label_format l1 = true -> seat_label_format l2 = true ->
  no_leading_zero l1 = true -> no_leading_zero l2 = true ->
  (seat_order_sql l1 l2 <-> seat_order_spec l1 l2 = true).
Proof. apply seat_order_agrees. Qed.

(** X10.  A check-in keeps the Ticket table free of double bookings: when no
    seat of a flight was held by two tickets before, none is after. *)
Theorem checkin_keeps_no_double_booking (bilhete_id now : Z) (db : Database) :
  NoDup (map b_id (bilhete (tables db))) ->
  no_double_booking (tables db) ->
  no_double_booking (tables (snd (checkin_ticket bilhete_id now db))).
Proof.
  intros N Inv.
  destruct (Z.eq_dec (status (fst (checkin_ticket bilhete_id now db))) 200)
    as [S|S]; [|now rewrite (checkin_unchanged_aux bilhete_id now db S)].
  destruct (checkin_success_full bilhete_id now db _ _ N
              (surjective_pairing _) S)
    as (pre & b & post & v & a & Sp & L & Lg & Free & -> & _).
  destruct Free as (_ & Sa & _ & Free).
  assert (Old : forall x, In x pre \/ In x post -> In x (bilhete (tables db)))
    by (intros x [Hx|Hx]; rewrite Sp; apply in_or_app;
        [left | right; right]; exact Hx).
  assert (Clash : forall x lugar no_serie,
             In x (bilhete (tables db)) -> b_voo_id x = b_voo_id b ->
             b_lugar x = Some lugar -> Some (s_lugar a) = Some lugar ->
             b_no_serie x = Some no_serie ->
             Some (v_no_serie v) = Some no_serie -> False).
  { intros x lugar no_serie Ix Vx Lx El Nx En. apply Free. exists x.
    repeat split; auto; congruence. }
  simpl. intros b1 b2 lugar no_serie I1 I2 V L1 L2 N1 N2.
  apply in_app_or in I1. apply in_app_or in I2. simpl in I1, I2.
  destruct I1 as [I1|[<-|I1]], I2 as [I2|[<-|I2]];
    try reflexivity;
    try (eapply Inv; eauto; fail);
    simpl in *; exfalso;
    first [ eapply (Clash b1); eauto; fail
          | eapply (Clash b2); eauto; congruence ].
Qed.
(** X11.  A check-in keeps every seated ticket on a Seat row of its own
    class: when each ticket with a seat referenced a stored seat of the
    ticket's class before, each does after. *)
Theorem checkin_keeps_seated_in_class (bilhete_id now : Z) (db : Database) :
  NoDup (map b_id (bilhete (tables db))) ->
  seated_in_class (tables db) ->
  seated_in_class (tables (snd (checkin_ticket bilhete_id now db))).
Proof.
  intros N Inv.
  destruct (Z.eq_dec (status (fst (checkin_ticket bilhete_id now db))) 200)
    as [S|S]; [|now rewrite (checkin_unchanged_aux bilhete_id now db S)].
  destruct (checkin_success_full bilhete_id now db _ _ N
              (surjective_pairing _) S)
    as (pre & b & post & v & a & Sp & L & Lg & Free & -> & _).
  destruct Free as (Ia & Sa & Ca & _).
  simpl. intros x lugar no_serie Ix Lx Nx.
  apply in_app_or in Ix. simpl in Ix. destruct Ix as [Ix|[<-|Ix]].
  - apply Inv; auto. rewrite Sp. apply in_or_app. now left.
  - simpl in *. injection Lx as <-. injection Nx as <-.
    rewrite <- Sa, <- Ca. now destruct a.
  - apply Inv; auto. rewrite Sp. apply in_or_app. right. now right.
Qed.

Lemma next_available_ignores_seat_fields t (f : Bilhete -> Bilhete) now d a :
  (forall b, b_voo_id (f b) = b_voo_id b) ->
  list_next_available_flights (with_bilhete t (map f (bilhete t))) now d a
  = list_next_available_flights t now d a.
Proof.
  intros H.
  assert (Q : forall p c,
             query_available (with_bilhete t (map f (bilhete t))) now p c
             = query_available t now p c).
  { intros p c. unfold query_available. f_equal. f_equal.
    change (voo_join_aviao (with_bilhete t (map f (bilhete t))))
      with (voo_join_aviao t).
    apply filter_ext. intros v. unfold has_free_seat.
    now rewrite count_bilhete_ignores_seats. }
  unfold list_next_available_flights. rewrite Q. reflexivity.
Qed.

(** X12.  A check-in never changes what the next-available-flights route
    answers: that route counts the tickets of a flight whether they have a
    seat or not. *)
Theorem checkin_leaves_availability
    (bilhete_id now : Z) (db : Database) (now' : Z) (d a : string) :
  list_next_available_flights
    (tables (snd (checkin_ticket bilhete_id now db))) now' d a
  = list_next_available_flights (tables db) now' d a.
Proof.
  rewrite checkin_ticket_cases.
  destruct (bilhete_join_voo (tables db) bilhete_id) as [[b v]|];
    [|reflexivity].
  destruct (b_lugar b); [reflexivity|].
  destruct (v_hora_partida v <=? now); [reflexivity|].
  destruct (seat_keys _) as [ks|]; [|reflexivity].
  destruct (first_seat ks) as [lugar|]; [|reflexivity].
  pose proof (update_bilhete_cases lugar (v_no_serie v) bilhete_id db) as U.
  destruct (update_bilhete lugar (v_no_serie v) bilhete_id db) as [[u|e] db1].
  - simpl. rewrite U. simpl.
    apply next_available_ignores_seat_fields.
    intros x. destruct (b_id x =? bilhete_id); reflexivity.
  - reflexivity.
Qed.

(** ** POST /compra/<voo_id>/: what the inserts check and keep *)

Lemma existsb_false_In {A} (p : A -> bool) (l : list A) :
  existsb p l = false -> forall x, In x l -> p x = false.
Proof.
  intros H x Hx. destruct (p x) eqn:E; [|reflexivity].
  assert (existsb p l = true) by (apply existsb_exists; eauto). congruence.
Qed.

(** Case analysis on the test a statement starts with. *)
Ltac head_test H :=
  match goal with
  | |- (if negb ?c then _ else _) = _ -> _ =>
      destruct c eqn:H; cbn [negb]
  | |- (if ?c then _ else _) = _ -> _ => destruct c eqn:H
  end.

Lemma insert_venda_ok nif_cliente balcao hora db c db' :
  insert_venda nif_cliente balcao hora db = (Ok c, db') ->
  c = venda_codigo_reserva_seq db + 1
  /\ (forall r, In r (venda (tables db)) -> vd_codigo_reserva r <> c)
  /\ (exists a, In a (aeroporto (tables db)) /\ a_codigo a = balcao)
  /\ exists nif,
      tables db' = with_venda (tables db)
                     (venda (tables db) ++ [mkVenda c nif balcao hora]).
Proof.
  unfold insert_venda. cbv zeta.
  destruct (Sql.varchar 9 nif_cliente) as [nif|]; [|discriminate].
  destruct (Sql.nextval (venda_codigo_reserva_seq db)) as [c0|] eqn:Nx;
    [|discriminate].
  apply nextval_next in Nx as [Nx _].
  head_test K; [discriminate|].
  head_test F; [|discriminate].
  destruct (trigger _ _); [discriminate|].
  intros H. injection H as <- <-. split; [exact Nx|]. split; [|split].
  - intros r Hr E.
    pose proof (existsb_false_In _ _ K r Hr) as X. simpl in X.
    apply Z.eqb_neq in X. contradiction.
  - apply existsb_exists in F as (a & Ia & E).
    apply String.eqb_eq in E. eauto.
  - simpl. eauto.
Qed.

Lemma insert_bilhete_ok voo_id codigo_reserva nome preco prim_classe no_serie
    db id db' :
  insert_bilhete voo_id codigo_reserva nome preco prim_classe no_serie db
  = (Ok id, db') ->
  exists row,
    tables db' = with_bilhete (tables db) (bilhete (tables db) ++ [row])
    /\ b_id row = id /\ b_voo_id row = voo_id
    /\ b_codigo_reserva row = codigo_reserva /\ b_lugar row = None
    /\ (forall b, In b (bilhete (tables db)) -> b_id b <> id)
    /\ (forall b, In b (bilhete (tables db)) ->
                  ticket_triple b <> ticket_triple row)
    /\ (exists v, In v (voo (tables db)) /\ v_id v = voo_id)
    /\ (exists s, In s (venda (tables db))
                  /\ vd_codigo_reserva s = codigo_reserva).
Proof.
  unfold insert_bilhete. cbv zeta.
  destruct (Sql.has_nul nome); [discriminate|].
  destruct (Sql.varchar 80 nome) as [nome'|]; [|discriminate].
  destruct (Sql.nextval (bilhete_id_seq db)) as [id0|]; [|discriminate].
  head_test K1; [discriminate|].
  head_test K2; [discriminate|].
  head_test F1; [|discriminate].
  head_test F2; [|discriminate].
  destruct (trigger _ _); [discriminate|].
  intros H. injection H as <- <-.
  eexists. split; [reflexivity|]. simpl.
  repeat split.
  - intros b Hb E.
    pose proof (existsb_false_In _ _ K1 b Hb) as X. simpl in X.
    apply Z.eqb_neq in X. contradiction.
  - intros b Hb E. unfold ticket_triple in E. simpl in E.
    injection E as E1 E2 E3.
    pose proof (existsb_false_In _ _ K2 b Hb) as X. simpl in X.
    rewrite E1, E2, E3, !Z.eqb_refl, String.eqb_refl in X. discriminate X.
  - apply existsb_exists in F1 as (v & Iv & E). apply Z.eqb_eq in E. eauto.
  - apply existsb_exists in F2 as (s & Is & E). apply Z.eqb_eq in E. eauto.
Qed.

Lemma keeps_ret P {A} (a : A) : keeps P (ret a).
Proof. intros db x db' H E. injection E as _ <-. exact H. Qed.

Lemma keeps_bind P {A B} (m : Tx A) (k : A -> Tx B) :
  keeps P m -> (forall a, keeps P (k a)) -> keeps P (bind m k).
Proof.
  intros Hm Hk db b db' H. unfold bind.
  destruct (m db) as [[a|e] db1] eqn:E; [|discriminate].
  intros E2. eapply Hk; [|exact E2]. eapply Hm; eauto.
Qed.

Lemma keeps_respond P (body : Tx Response) db :
  keeps P body -> P (tables db) -> P (tables (snd (respond body db))).
Proof.
  intros K H. unfold respond, transaction.
  destruct (body db) as [[r|e] db1] eqn:E; simpl; [|exact H].
  eapply K; eauto.
Qed.

Lemma NoDup_map_snoc {A B} (f : A -> B) (l : list A) (x : A) :
  NoDup (map f l) -> (forall y, In y l -> f y <> f x) ->
  NoDup (map f (l ++ [x])).
Proof.
  intros N H. rewrite map_app. simpl.
  apply NoDup_rev in N. rewrite <- (rev_involutive (map f l ++ [f x])).
  apply NoDup_rev. rewrite rev_app_distr. simpl.
  constructor; [|exact N].
  intros I. apply in_rev in I. apply in_map_iff in I as (y & E & Iy).
  exact (H y Iy E).
Qed.

Lemma insert_venda_keeps_keys nif_cliente balcao hora :
  keeps keys_hold (insert_venda nif_cliente balcao hora).
Proof.
  intros db c db' (K1 & K2 & K3) E.
  apply insert_venda_ok in E as (_ & Fresh & _ & nif & ->).
  repeat split; simpl; auto.
  apply NoDup_map_snoc; auto.
Qed.

Lemma insert_bilhete_keeps_keys voo_id codigo_reserva nome preco prim_classe
    no_serie :
  keeps keys_hold
    (insert_bilhete voo_id codigo_reserva nome preco prim_classe no_serie).
Proof.
  intros db id db' (K1 & K2 & K3) E.
  apply insert_bilhete_ok in E
    as (row & -> & Eid & _ & _ & _ & Fresh & Uniq & _ & _).
  repeat split; simpl; auto.
  - apply NoDup_map_snoc; auto. intros y Hy. rewrite Eid. auto.
  - apply NoDup_map_snoc; auto.
Qed.

Lemma insert_venda_keeps_references nif_cliente balcao hora :
  keeps references_hold (insert_venda nif_cliente balcao hora).
Proof.
  intros db c db' (R1 & R2 & R3) E.
  apply insert_venda_ok in E as (_ & _ & (a & Ia & Ea) & nif & ->).
  repeat split; simpl; auto.
  - intros b Hb. destruct (R2 b Hb) as (s & Is & Es).
    exists s. split; [apply in_or_app; now left | exact Es].
  - intros s Hs. apply in_app_or in Hs. destruct Hs as [Hs|[<-|[]]]; auto.
    exists a. simpl. auto.
Qed.

Lemma insert_bilhete_keeps_references voo_id codigo_reserva nome preco
    prim_classe no_serie :
  keeps references_hold
    (insert_bilhete voo_id codigo_reserva nome preco prim_classe no_serie).
Proof.
  intros db id db' (R1 & R2 & R3) E.
  apply insert_bilhete_ok in E
    as (row & -> & _ & Ev & Ec & _ & _ & _ & (v & Iv & Jv) & (s & Is & Js)).
  repeat split; simpl; auto.
  - intros b Hb. apply in_app_or in Hb. destruct Hb as [Hb|[<-|[]]]; auto.
    exists v. split; [exact Iv | congruence].
  - intros b Hb. apply in_app_or in Hb. destruct Hb as [Hb|[<-|[]]]; auto.
    exists s. split; [exact Is | congruence].
Qed.

Lemma insert_bilhetes_keeps P voo_id codigo_reserva no_serie entries :
  (forall nome preco prim_classe,
      keeps P (insert_bilhete voo_id codigo_reserva nome preco prim_classe
                              no_serie)) ->
  keeps P (insert_bilhetes voo_id codigo_reserva no_serie entries).
Proof.
  intros H. induction entries as [|[nome cls] rest IH]; simpl.
  - apply keeps_ret.
  - apply keeps_bind; [apply H|]. intros id.
    apply keeps_bind; [exact IH|]. intros d. apply keeps_ret.
Qed.

Lemma purchase_body_keeps P voo_id nif entries now :
  (forall n b h, keeps P (insert_venda n b h)) ->
  (forall v c nome preco prim_classe no_serie,
      keeps P (insert_bilhete v c nome preco prim_classe no_serie)) ->
  keeps P (purchase_body voo_id nif entries now).
Proof.
  intros Hv Hb. unfold purchase_body.
  apply keeps_bind.
  - intros db a db' H E. unfold select_voo_for_update in E.
    injection E as _ <-. exact H.
  - intros [v|]; [|apply keeps_ret].
    apply keeps_bind; [apply keeps_ret|]. intros h.
    destruct (v_hora_partida v <=? h); [apply keeps_ret|].
    unfold insert_reservation.
    apply keeps_bind; [apply Hv|]. intros c.
    apply keeps_bind; [|intros d; apply keeps_ret].
    apply insert_bilhetes_keeps. intros. apply Hb.
Qed.

Lemma purchase_keeps P voo_id data now db :
  (forall n b h, keeps P (insert_venda n b h)) ->
  (forall v c nome preco prim_classe no_serie,
      keeps P (insert_bilhete v c nome preco prim_classe no_serie)) ->
  P (tables db) ->
  P (tables (snd (purchase_tickets voo_id data now db))).
Proof.
  intros Hv Hb H. unfold purchase_tickets.
  destruct (validate_purchase data) as [r|[nif entries]]; [exact H|].
  apply keeps_respond; [|exact H]. now apply purchase_body_keeps.
Qed.

(** X14.  A purchase, whatever its outcome, keeps the keys of the tables it
    writes: ticket ids stay unique, reservation codes stay unique, and no
    (flight, reservation, passenger name) appears on two tickets. *)
Theorem purchase_keeps_keys (voo_id : Z) (data : json) (now : Z) (db : Database) :
  keys_hold (tables db) ->
  keys_hold (tables (snd (purchase_tickets voo_id data now db))).
Proof.
  apply purchase_keeps.
  - apply insert_venda_keeps_keys.
  - apply insert_bilhete_keeps_keys.
Qed.

(** X15.  A purchase, whatever its outcome, keeps the references of the
    tables it writes: every ticket has its flight and its sale, every sale
    the airport of its counter. *)
Theorem purchase_keeps_references
    (voo_id : Z) (data : json) (now : Z) (db : Database) :
  references_hold (tables db) ->
  references_hold (tables (snd (purchase_tickets voo_id data now db))).
Proof.
  apply purchase_keeps.
  - apply insert_venda_keeps_references.
  - apply insert_bilhete_keeps_references.
Qed.
Lemma insert_bilhete_keeps_seat_invariants voo_id codigo_reserva nome preco
    prim_classe no_serie :
  keeps (fun t => no_double_booking t /\ seated_in_class t)
    (insert_bilhete voo_id codigo_reserva nome preco prim_classe no_serie).
Proof.
  intros db id db' (D & C) E.
  apply insert_bilhete_ok in E as (row & -> & _ & _ & _ & Lr & _).
  split.
  - intros b1 b2 lugar ns I1 I2 V L1 L2 N1 N2. simpl in I1, I2.
    apply in_app_or in I1. apply in_app_or in I2.
    destruct I1 as [I1|[<-|[]]]; [|congruence].
    destruct I2 as [I2|[<-|[]]]; [|congruence].
    eapply D; eauto.
  - intros b lugar ns I L N. simpl in I |- *.
    apply in_app_or in I. destruct I as [I|[<-|[]]]; [|congruence].
    apply (C b lugar ns I L N).
Qed.

Lemma insert_venda_keeps_seat_invariants nif_cliente balcao hora :
  keeps (fun t => no_double_booking t /\ seated_in_class t)
    (insert_venda nif_cliente balcao hora).
Proof.
  intros db c db' H E.
  apply insert_venda_ok in E as (_ & _ & _ & nif & ->). exact H.
Qed.

(** X16.  A purchase never seats anyone: whatever its outcome, it keeps the
    Ticket table free of double bookings and every seated ticket on a stored
    seat of its class. *)
Theorem purchase_keeps_seat_invariants
    (voo_id : Z) (data : json) (now : Z) (db : Database) :
  no_double_booking (tables db) /\ seated_in_class (tables db) ->
  no_double_booking (tables (snd (purchase_tickets voo_id data now db)))
  /\ seated_in_class (tables (snd (purchase_tickets voo_id data now db))).
Proof.
  apply (purchase_keeps (fun t => no_double_booking t /\ seated_in_class t)).
  - apply insert_venda_keeps_seat_invariants.
  - apply insert_bilhete_keeps_seat_invariants.
Qed.

(** X17.  A valid purchase request for a flight id that no flight has is
    answered 404 and writes nothing. *)
Theorem purchase_unknown_flight
    (voo_id : Z) (data : json) (now : Z) (db : Database)
    (nif : string) (entries : list (string * bool)) :
  validate_purchase data = inr (nif, entries) ->
  (forall v, In v (voo (tables db)) -> v_id v <> voo_id) ->
  purchase_tickets voo_id data now db = ((404, FlightNotFound voo_id), db).
Proof.
  intros V No. unfold purchase_tickets. rewrite V.
  apply respond_ok.
  unfold purchase_body, bind, select_voo_for_update, ret.
  destruct (find (fun v => v_id v =? voo_id) (voo (tables db))) as [v|] eqn:F;
    [|reflexivity].
  apply find_some in F as [Iv E]. apply Z.eqb_eq in E.
  exfalso. exact (No v Iv E).
Qed.

(** What a purchase answered 201 read and wrote. *)
Lemma purchase_success_inv voo_id data now db db' r :
  purchase_tickets voo_id data now db = (r, db') ->
  status r = 201 ->
  exists v nif entries rows,
    requested data nif entries
    /\ find (fun v => v_id v =? voo_id) (voo (tables db)) = Some v
    /\ tables db'
       = with_bilhete
           (with_venda (tables db)
              (venda (tables db)
               ++ [mkVenda (venda_codigo_reserva_seq db + 1) nif (v_partida v)
                           now]))
           (bilhete (tables db) ++ rows)
    /\ Forall2 (ticket_for voo_id (venda_codigo_reserva_seq db + 1)
                           (v_no_serie v)) entries rows.
Proof.
  unfold purchase_tickets.
  destruct (validate_purchase data) as [r0|[nif entries]] eqn:V.
  - intros H S. injection H as <- <-. exfalso. revert V S.
    unfold validate_purchase.
    destruct (negb (truthy data)); [intros H; injection H as <-; discriminate|].
    destruct data as [|b|n|x|l|m];
      try (intros H; injection H as <-; discriminate).
    destruct (nif_valid _); [|intros H; injection H as <-; discriminate].
    destruct (dict_get "bilhetes_a_comprar" m) as [|b|n|x|[|b bs]|m'];
      try (intros H; injection H as <-; discriminate).
    destruct (tickets_valid 0 (b :: bs));
      intros H; [injection H as <-|]; discriminate.
  - apply validate_purchase_requested in V as [Rq L].
    destruct (find (fun v => v_id v =? voo_id) (voo (tables db))) as [v|] eqn:F.
    + unfold respond, transaction.
      rewrite (@purchase_body_found voo_id nif entries now db v F).
      destruct (v_hora_partida v <=? now) eqn:Hd.
      { intros H S. injection H as <- <-. discriminate S. }
      unfold insert_reservation, bind.
      pose proof (insert_venda_cases nif (v_partida v) now db) as H1.
      destruct (insert_venda nif (v_partida v) now db) as [[c|e] db1].
      * destruct H1 as [-> [S1 (nif' & Vn & T1)]].
        assert (L9 : (String.length nif <= 9)%nat) by lia.
        rewrite (@varchar_fits 9 nif L9) in Vn. injection Vn as <-.
        pose proof (insert_bilhetes_cases voo_id
                      (venda_codigo_reserva_seq db + 1) (v_no_serie v)
                      entries db1) as H2.
        destruct (insert_bilhetes voo_id (venda_codigo_reserva_seq db + 1)
                    (v_no_serie v) entries db1) as [[detalhes|e] db2].
        -- destruct H2 as [S2 (rows & T2 & F2 & D)].
           unfold ret. intros H _. injection H as <- <-.
           exists v, nif, entries, rows.
           split; [exact Rq|]. split; [reflexivity|].
           split; [rewrite T2, T1; reflexivity | exact F2].
        -- intros H S. injection H as <- <-.
           discriminate S.
      * intros H S. injection H as <- <-.
        discriminate S.
    + unfold respond, transaction, purchase_body, bind, select_voo_for_update,
        ret. rewrite F.
      intros H S. injection H as <- <-. discriminate S.
Qed.

Lemma count_bilhete_app t rows voo_id :
  count_bilhete (with_bilhete t (bilhete t ++ rows)) voo_id
  = count_bilhete t voo_id
    + Z.of_nat (List.length (filter (fun b => b_voo_id b =? voo_id) rows)).
Proof.
  unfold count_bilhete. simpl. rewrite filter_app, length_app. lia.
Qed.

(** X18.  Every ticket bought uses up one unit of what the availability
    route counts for its flight: after a purchase answered 201 the ticket
    count of the flight has grown by the number of entries of the request,
    that of every other flight is unchanged, and so is every seat count. *)
Theorem purchase_consumes_capacity
    (voo_id : Z) (data : json) (now : Z) (db db' : Database) (r : Response) :
  purchase_tickets voo_id data now db = (r, db') ->
  status r = 201 ->
  exists fields items,
    data = JObj fields
    /\ dict_get "bilhetes_a_comprar" fields = JArr items
    /\ count_bilhete (tables db') voo_id
       = count_bilhete (tables db) voo_id + Z.of_nat (List.length items)
    /\ (forall other, other <> voo_id ->
          count_bilhete (tables db') other = count_bilhete (tables db) other)
    /\ (forall no_serie,
          count_assento (tables db') no_serie
          = count_assento (tables db) no_serie).
Proof.
  intros H S.
  destruct (purchase_success_inv voo_id data now db db' r H S)
    as (v & nif & entries & rows & (fields & items & -> & _ & B & Fe) & _ & T & F).
  exists fields, items. split; [reflexivity|]. split; [exact B|].
  assert (Lr : List.length rows = List.length items).
  { apply Forall2_length in Fe. apply Forall2_length in F. congruence. }
  assert (Rv : forall b, In b rows -> b_voo_id b = voo_id).
  { clear -F. induction F as [|e b es bs (Hv & _) _ IH]; intros x [].
    - now subst.
    - now apply IH. }
  rewrite T. split; [|split].
  - change (with_bilhete _ (bilhete (tables db) ++ rows))
      with (with_bilhete
              (with_venda (tables db)
                 (venda (tables db)
                  ++ [mkVenda (venda_codigo_reserva_seq db + 1) nif
                              (v_partida v) now]))
              (bilhete
                 (with_venda (tables db)
                    (venda (tables db)
                     ++ [mkVenda (venda_codigo_reserva_seq db + 1) nif
                                 (v_partida v) now])) ++ rows)).
    rewrite count_bilhete_app. rewrite <- Lr.
    replace (filter (fun b => b_voo_id b =? voo_id) rows) with rows;
      [reflexivity|].
    clear -Rv. induction rows as [|b l IH]; simpl; [reflexivity|].
    rewrite (proj2 (Z.eqb_eq _ _) (Rv b (or_introl eq_refl))).
    f_equal. apply IH. intros x Hx. apply Rv. now right.
  - intros other Ne. unfold count_bilhete. simpl.
    rewrite filter_app, length_app.
    replace (filter (fun b => b_voo_id b =? other) rows) with (@nil Bilhete);
      [simpl; lia|].
    clear -Rv Ne. induction rows as [|b l IH]; simpl; [reflexivity|].
    rewrite (Rv b (or_introl eq_refl)).
    rewrite (proj2 (Z.eqb_neq _ _) (not_eq_sym Ne)).
    apply IH. intros x Hx. apply Rv. now right.
  - reflexivity.
Qed.
Lemma seat_blind_ret {A} (a : A) : seat_blind (ret a).
Proof. intros db seats. reflexivity. Qed.

Lemma seat_blind_bind {A B} (m : Tx A) (k : A -> Tx B) :
  seat_blind m -> (forall a, seat_blind (k a)) -> seat_blind (bind m k).
Proof.
  intros Hm Hk db seats. unfold bind. rewrite Hm.
  destruct (m db) as [[a|e] db1]; simpl; [apply Hk | reflexivity].
Qed.

Section SeatBlindTriggers.

Hypothesis trigger_seat_blind :
  forall t seats w, trigger (with_assento t seats) w = trigger t w.

Lemma insert_venda_seat_blind nif_cliente balcao hora :
  seat_blind (insert_venda nif_cliente balcao hora).
Proof using trigger_seat_blind.
  intros db seats. unfold insert_venda. cbv zeta.
  change (tables (replace_seats db seats))
    with (with_assento (tables db) seats).
  destruct (Sql.varchar 9 nif_cliente); [|reflexivity].
  simpl.
  destruct (Sql.nextval (venda_codigo_reserva_seq db)); [|reflexivity].
  rewrite trigger_seat_blind. simpl.
  destruct (existsb _ (venda (tables db))); [reflexivity|].
  destruct (negb _); [reflexivity|].
  destruct (trigger _ _); reflexivity.
Qed.

Lemma insert_bilhete_seat_blind voo_id codigo_reserva nome preco prim_classe
    no_serie :
  seat_blind
    (insert_bilhete voo_id codigo_reserva nome preco prim_classe no_serie).
Proof using trigger_seat_blind.
  intros db seats. unfold insert_bilhete. cbv zeta.
  change (tables (replace_seats db seats))
    with (with_assento (tables db) seats).
  destruct (Sql.has_nul nome); [reflexivity|].
  destruct (Sql.varchar 80 nome) as [nome'|]; [|reflexivity].
  simpl.
  destruct (Sql.nextval (bilhete_id_seq db)); [|reflexivity].
  rewrite trigger_seat_blind. simpl.
  destruct (existsb _ (bilhete (tables db))); [reflexivity|].
  destruct (existsb _ (bilhete (tables db))); [reflexivity|].
  destruct (negb _); [reflexivity|].
  destruct (negb _); [reflexivity|].
  destruct (trigger _ _); reflexivity.
Qed.

Lemma insert_bilhetes_seat_blind voo_id codigo_reserva no_serie entries :
  seat_blind (insert_bilhetes voo_id codigo_reserva no_serie entries).
Proof using trigger_seat_blind.
  induction entries as [|[nome cls] rest IH]; simpl.
  - apply seat_blind_ret.
  - apply seat_blind_bind; [apply insert_bilhete_seat_blind|]. intros id.
    apply seat_blind_bind; [exact IH|]. intros d. apply seat_blind_ret.
Qed.

Lemma purchase_body_seat_blind voo_id nif entries now :
  seat_blind (purchase_body voo_id nif entries now).
Proof using trigger_seat_blind.
  unfold purchase_body. apply seat_blind_bind.
  - intros db seats. reflexivity.
  - intros [v|]; [|apply seat_blind_ret].
    apply seat_blind_bind; [apply seat_blind_ret|]. intros h.
    destruct (v_hora_partida v <=? h); [apply seat_blind_ret|].
    unfold insert_reservation.
    apply seat_blind_bind; [apply insert_venda_seat_blind|]. intros c.
    apply seat_blind_bind; [apply insert_bilhetes_seat_blind|].
    intros d. apply seat_blind_ret.
Qed.

Lemma purchase_seat_blind voo_id data now db seats :
  purchase_tickets voo_id data now (replace_seats db seats)
  = (fst (purchase_tickets voo_id data now db),
     replace_seats (snd (purchase_tickets voo_id data now db)) seats).
Proof using trigger_seat_blind.
  unfold purchase_tickets.
  destruct (validate_purchase data) as [r|[nif entries]]; [reflexivity|].
  unfold respond, transaction.
  rewrite purchase_body_seat_blind.
  destruct (purchase_body voo_id nif entries now db) as [[r|e] db1];
    reflexivity.
Qed.

End SeatBlindTriggers.

(** X19.  A purchase does not check capacity: with triggers that do not
    look at the Seat table, its answer does not depend on the seats stored,
    so it is the same when the aircraft has no seat at all, and it leaves
    the Seat table as it is. *)
Theorem purchase_never_looks_at_seats
    (voo_id : Z) (data : json) (now : Z) (db : Database) (seats : list Assento) :
  (forall t l w, trigger (with_assento t l) w = trigger t w) ->
  purchase_tickets voo_id data now (replace_seats db seats)
  = (fst (purchase_tickets voo_id data now db),
     replace_seats (snd (purchase_tickets voo_id data now db)) seats).
Proof. intros H. now apply purchase_seat_blind. Qed.

(** ** POST /compra/<voo_id>/: which entry is reported *)

Lemma tickets_valid_first_bad l : forall i k,
  tickets_valid i l = inl k ->
  (i <= k)%nat
  /\ (exists j, nth_error l (k - i) = Some j /\ ticket_valid j = None)
  /\ (forall n j, (n < k - i)%nat -> nth_error l n = Some j ->
                  ticket_valid j <> None).
Proof.
  induction l as [|j l IH]; intros i k; simpl; [discriminate|].
  destruct (ticket_valid j) as [e|] eqn:T.
  - destruct (tickets_valid (S i) l) as [k'|es] eqn:R; [|discriminate].
    intros H. injection H as ->.
    destruct (IH (S i) k R) as (Le & (j' & Nj & Tj) & Before).
    split; [lia|]. split.
    + exists j'. split; [|exact Tj].
      replace (k - i)%nat with (S (k - S i)) by lia. exact Nj.
    + intros n x Hn Hx. destruct n as [|n].
      * simpl in Hx. injection Hx as <-. congruence.
      * simpl in Hx. apply (Before n x); [lia | exact Hx].
  - intros H. injection H as <-. split; [lia|]. split.
    + exists j. rewrite Nat.sub_diag. auto.
    + intros n x Hn. lia.
Qed.

(** X20.  When a purchase with a body of ASCII text is refused for the
    format of a ticket, the index it reports is that of the first entry of
    the list that is not acceptable (an object with a non-blank passenger
    name and a boolean cabin flag): the entry at that index is not
    acceptable and every entry before it is. *)
Theorem purchase_reports_first_bad_ticket
    (fields : list (string * json)) (i : nat) :
  ascii_json (JObj fields) = true ->
  validate_purchase (JObj fields) = inl (400, TicketFormatInvalid i) ->
  exists items j,
    dict_get "bilhetes_a_comprar" fields = JArr items
    /\ nth_error items i = Some j
    /\ ~ entry_ok j
    /\ forall n x, (n < i)%nat -> nth_error items n = Some x -> entry_ok x.
Proof.
  intros _. unfold validate_purchase.
  destruct (negb (truthy (JObj fields))); [discriminate|].
  destruct (nif_valid _); [|discriminate].
  destruct (dict_get "bilhetes_a_comprar" fields)
    as [|b|n|x|[|b bs]|m] eqn:B; try discriminate.
  destruct (tickets_valid 0 (b :: bs)) as [k|es] eqn:T; [|discriminate].
  intros H. injection H as ->.
  destruct (tickets_valid_first_bad _ _ _ T) as (_ & (j & Nj & Tj) & Before).
  rewrite Nat.sub_0_r in Nj, Before.
  exists (b :: bs), j. split; [reflexivity|]. split; [exact Nj|]. split.
  - intros Ok. apply ticket_valid_spec in Ok as [e Ok]. congruence.
  - intros n x Hn Hx. apply ticket_valid_spec.
    destruct (ticket_valid x) as [e|] eqn:Tx; [eauto|].
    exfalso. exact (Before n x Hn Hx Tx).
Qed.

(** ** The seed generator *)

(** X22.  A text escaped by [format_sql_string] and put between quotes is
    read back as the text itself, and the literal ends where the generator
    closed it: a quote in the text never closes the literal early. *)
Theorem format_sql_string_round_trip (s rest : string) :
  starts_with_quote rest = false ->
  read_sql_literal (format_sql_string s ++ String "'" rest) = Some (s, rest).
Proof.
  intros R. induction s as [|c s IH].
  - simpl. destruct rest as [|c' s'']; [reflexivity|].
    simpl in R. now rewrite R.
  - simpl. destruct (is_quote c) eqn:Q.
    + simpl. rewrite Q, IH. reflexivity.
    + simpl. rewrite Q, IH. reflexivity.
Qed.

Lemma rows_1_to_99_ok : forallb row_digits_ok (seq 1 99) = true.
Proof. vm_compute. reflexivity. Qed.

Lemma row_digits r :
  (1 <= r <= 99)%nat -> row_digits_ok r = true.
Proof.
  intros H. pose proof rows_1_to_99_ok as A.
  rewrite forallb_forall in A. apply A. apply in_seq. lia.
Qed.

(** What a generated label is to the schema and to the seat query: it passes
    the CHECK, has no leading zero, and its row number is the row index. *)
Lemma seat_label_keys r c :
  (1 <= r <= 99)%nat -> Py.is_AZ c = true ->
  seat_label_format (seat_label r c) = true
  /\ no_leading_zero (seat_label r c) = true
  /\ seat_row (seat_label r c) = Some (Z.of_nat r)
  /\ row_number (seat_label r c) = Z.of_nat r
  /\ cabin_letter (seat_label r c) = String c "".
Proof.
  intros Hr Hc. pose proof (row_digits r Hr) as D.
  unfold row_digits_ok in D. unfold seat_label.
  destruct (NilEmpty.string_of_uint (Nat.to_uint r)) as [|d1 [|d2 [|d3 s]]];
    try discriminate D.
  - apply andb_true_iff in D as [D1 V]. apply Z.eqb_eq in V.
    destruct (keys_one_digit d1 c D1 Hc) as (R & T & N & C).
    simpl append. rewrite R, N, C, V. simpl. rewrite D1, Hc. auto.
  - apply andb_true_iff in D as [D V]. apply Z.eqb_eq in V.
    apply andb_true_iff in D as [D Z0].
    apply andb_true_iff in D as [D1 D2].
    destruct (keys_two_digits d1 d2 c D1 D2 Hc) as (R & T & N & C).
    simpl append. rewrite R, N, C, V. simpl. rewrite D1, D2, Hc, Z0. auto.
Qed.

Lemma letter_leb c1 c2 :
  String.leb (String c1 "") (String c2 "") = true
  <-> (Py.code c1 <= Py.code c2)%N.
Proof.
  unfold String.leb, Py.code. simpl. unfold Ascii.compare.
  destruct (N.compare_spec (N_of_ascii c1) (N_of_ascii c2)) as [E|L|G];
    split; intros H; try reflexivity; try discriminate H; lia.
Qed.

(** X23.  On the labels the generator writes (rows 1 to 99, an uppercase
    letter) the seat query of the check-in sorts row by row, and by letter
    within a row. *)
Theorem generated_seat_order (r1 r2 : nat) (c1 c2 : ascii) :
  (1 <= r1 <= 99)%nat -> (1 <= r2 <= 99)%nat ->
  Py.is_AZ c1 = true -> Py.is_AZ c2 = true ->
  (seat_order_sql (seat_label r1 c1) (seat_label r2 c2)
   <-> (r1 < r2)%nat \/ (r1 = r2 /\ (Py.code c1 <= Py.code c2)%N)).
Proof.
  intros H1 H2 A1 A2.
  destruct (seat_label_keys r1 c1 H1 A1) as (F1 & Z1 & _ & N1 & C1).
  destruct (seat_label_keys r2 c2 H2 A2) as (F2 & Z2 & _ & N2 & C2).
  rewrite (seat_order_agrees _ _ F1 F2 Z1 Z2).
  unfold seat_order_spec. rewrite N1, N2, C1, C2.
  rewrite orb_true_iff, andb_true_iff, Z.ltb_lt, Z.eqb_eq, letter_leb.
  split; intros [H|[H L]]; first [left; lia | right; split; [lia | exact L]].
Qed.

Lemma seat_label_inj r1 r2 c1 c2 :
  (1 <= r1 <= 99)%nat -> (1 <= r2 <= 99)%nat ->
  Py.is_AZ c1 = true -> Py.is_AZ c2 = true ->
  seat_label r1 c1 = seat_label r2 c2 -> r1 = r2 /\ c1 = c2.
Proof.
  intros H1 H2 A1 A2 E.
  destruct (seat_label_keys r1 c1 H1 A1) as (_ & _ & _ & N1 & C1).
  destruct (seat_label_keys r2 c2 H2 A2) as (_ & _ & _ & N2 & C2).
  rewrite E in N1, C1. split; [lia | congruence].
Qed.

Lemma plane_seats_In serial_no num_rows first_class_rows seats_map a :
  In a (plane_seats serial_no num_rows first_class_rows seats_map)
  <-> exists r c,
      (1 <= r <= num_rows)%nat /\ In c seats_map
      /\ a = mkAssento (seat_label r c) serial_no (r <=? first_class_rows)%nat.
Proof.
  unfold plane_seats. rewrite in_flat_map. split.
  - intros (r & Hr & Ha). apply in_map_iff in Ha as (c & <- & Hc).
    apply in_seq in Hr. exists r, c. repeat split; auto; lia.
  - intros (r & c & Hr & Hc & ->). exists r. split.
    + apply in_seq. lia.
    + apply in_map_iff. eauto.
Qed.

Lemma NoDup_flat_map_labels (rows : list nat) (letters : list ascii) :
  NoDup rows -> NoDup letters ->
  Forall (fun r => (1 <= r <= 99)%nat) rows ->
  Forall (fun c => Py.is_AZ c = true) letters ->
  NoDup (flat_map (fun r => map (seat_label r) letters) rows).
Proof.
  intros Nr Nl Fr Fl. induction Nr as [|r rows Hr Nr IH]; simpl; [constructor|].
  inversion Fr as [|? ? Rr Fr']; subst.
  rewrite Forall_forall in Fl, Fr'.
  apply NoDup_app.
  - clear -Nl Fl Rr. induction Nl as [|c l Hc Nl IH]; simpl; [constructor|].
    constructor.
    + intros I. apply in_map_iff in I as (c' & E & I').
      apply seat_label_inj in E as [_ ->]; auto; try apply Fl; simpl; auto.
    + apply IH. intros x Hx. apply Fl. now right.
  - apply IH. apply Forall_forall. exact Fr'.
  - intros x I1 I2. apply in_map_iff in I1 as (c & <- & Ic).
    apply in_flat_map in I2 as (r' & Ir' & I2).
    apply in_map_iff in I2 as (c' & E & Ic').
    apply seat_label_inj in E as [-> _]; auto; try contradiction.
Qed.

(** X24.  The seats the generator makes for an aircraft of at most 99 rows
    with distinct uppercase seat letters fit the schema: there is one seat
    per row and letter, every label passes the CHECK on the seat label, and
    no label is written twice, so the primary key (label, aircraft serial)
    holds. *)
Theorem plane_seats_fit_schema
    (serial_no : string) (num_rows first_class_rows : nat)
    (seats_map : list ascii) :
  (num_rows <= 99)%nat ->
  NoDup seats_map ->
  Forall (fun c => Py.is_AZ c = true) seats_map ->
  let seats := plane_seats serial_no num_rows first_class_rows seats_map in
  List.length seats = (num_rows * List.length seats_map)%nat
  /\ Forall (fun a => seat_label_format (s_lugar a) = true
                      /\ s_no_serie a = serial_no) seats
  /\ NoDup (map s_lugar seats).
Proof.
  intros Hn Nl Fl seats. subst seats. split; [|split].
  - unfold plane_seats. generalize 1%nat.
    induction num_rows as [|n IH]; intros k; simpl; [reflexivity|].
    rewrite length_app, length_map, IH by lia. reflexivity.
  - apply Forall_forall. intros a Ha.
    apply plane_seats_In in Ha as (r & c & Hr & Hc & ->). simpl.
    rewrite Forall_forall in Fl.
    split; [|reflexivity]. apply seat_label_keys; [lia | now apply Fl].
  - unfold plane_seats. rewrite flat_map_concat_map, concat_map, map_map.
    rewrite <- flat_map_concat_map.
    erewrite flat_map_ext; [|intros r; rewrite map_map; simpl; reflexivity].
    apply NoDup_flat_map_labels; auto.
    + apply seq_NoDup.
    + apply Forall_forall. intros r Hr. apply in_seq in Hr. lia.
Qed.

(** X25.  In the seats the generator makes, a seat is first class exactly
    when its row is among the first [first_class_rows] rows: the row number
    the seat query reads off the label decides the class. *)
Theorem plane_seats_class
    (serial_no : string) (num_rows first_class_rows : nat)
    (seats_map : list ascii) (a : Assento) :
  (num_rows <= 99)%nat ->
  Forall (fun c => Py.is_AZ c = true) seats_map ->
  In a (plane_seats serial_no num_rows first_class_rows seats_map) ->
  exists row,
    seat_row (s_lugar a) = Some row
    /\ 1 <= row <= Z.of_nat num_rows
    /\ (s_prim_classe a = true <-> row <= Z.of_nat first_class_rows).
Proof.
  intros Hn Fl Ha.
  apply plane_seats_In in Ha as (r & c & Hr & Hc & ->). simpl.
  rewrite Forall_forall in Fl.
  destruct (seat_label_keys r c ltac:(lia) (Fl c Hc)) as (_ & _ & R & _).
  exists (Z.of_nat r). split; [exact R|]. split; [lia|].
  rewrite Nat.leb_le. lia.
Qed.

(** ** From purchase to check-in *)

(** The rows of a loop of inserts: each new id was checked against every
    row stored before it, the rows of the same loop included. *)
Lemma insert_bilhetes_fresh voo_id codigo_reserva no_serie entries :
  forall db detalhes db',
    insert_bilhetes voo_id codigo_reserva no_serie entries db
    = (Ok detalhes, db') ->
    exists rows,
      tables db' = with_bilhete (tables db) (bilhete (tables db) ++ rows)
      /\ map (fun d => fst (fst (fst d))) detalhes = map b_id rows
      /\ Forall (fun b => b_voo_id b = voo_id /\ b_lugar b = None) rows
      /\ forall r1 b r2,
          rows = r1 ++ b :: r2 ->
          forall x, In x (bilhete (tables db) ++ r1) -> b_id x <> b_id b.
Proof.
  induction entries as [|[nome cls] rest IH]; intros db detalhes db'.
  - simpl. unfold ret. intros H. injection H as <- <-. exists [].
    rewrite app_nil_r. split; [now destruct db as [[] ? ?]|].
    split; [reflexivity|]. split; [constructor|].
    intros [|? ?] ? ? H; discriminate H.
  - cbn [insert_bilhetes]. unfold bind at 1.
    destruct (insert_bilhete voo_id codigo_reserva nome (preco_of cls) cls
                no_serie db) as [[id|e] db1] eqn:E1; [|discriminate].
    apply insert_bilhete_ok in E1
      as (row & T1 & Eid & Ev & _ & El & Fresh & _).
    unfold bind.
    destruct (insert_bilhetes voo_id codigo_reserva no_serie rest db1)
      as [[ds|e] db2] eqn:E2; [|discriminate].
    unfold ret. intros H. injection H as <- <-.
    destruct (IH db1 ds db2 E2) as (rows & T2 & Ids & Fr & Fresh2).
    exists (row :: rows). split; [|split; [|split]].
    + rewrite T2, T1. simpl. unfold with_bilhete. simpl.
      now rewrite <- app_assoc.
    + simpl. now rewrite Ids, Eid.
    + constructor; auto.
    + intros r1 b r2 Sp x Hx. destruct r1 as [|y r1]; simpl in Sp.
      * injection Sp as <- _. rewrite app_nil_r in Hx. rewrite Eid.
        now apply Fresh.
      * injection Sp as <- Sp. apply (Fresh2 r1 b r2 Sp).
        rewrite T1. simpl. rewrite <- app_assoc. exact Hx.
Qed.

(** The first statement of the check-in finds a row when no row before it
    in the table has its id, joined with the first flight of its id. *)
Lemma bilhete_join_voo_first t bilhete_id pre b post v :
  bilhete t = pre ++ b :: post ->
  (forall x, In x pre -> b_id x <> bilhete_id) ->
  b_id b = bilhete_id ->
  find (fun v => b_voo_id b =? v_id v) (voo t) = Some v ->
  bilhete_join_voo t bilhete_id = Some (b, v).
Proof.
  intros Sp No E F. unfold bilhete_join_voo. rewrite Sp. clear Sp.
  induction pre as [|x pre IH]; simpl.
  - rewrite filter_app.
    assert (H : exists l, filter (fun v => b_voo_id b =? v_id v) (voo t)
                          = v :: l).
    { clear -F. induction (voo t) as [|w l IH]; simpl in *; [discriminate|].
      destruct (b_voo_id b =? v_id w); [injection F as ->; eauto | auto]. }
    destruct H as [l ->]. simpl. rewrite (proj2 (Z.eqb_eq _ _) E). reflexivity.
  - rewrite filter_app.
    replace (filter (fun bv => b_id (fst bv) =? bilhete_id)
               (map (fun v => (x, v))
                    (filter (fun v => b_voo_id x =? v_id v) (voo t))))
      with (@nil (Bilhete * Voo)).
    + simpl. apply IH. intros y Hy. apply No. now right.
    + symmetry. induction (filter _ (voo t)) as [|w l IHl]; simpl;
        [reflexivity|].
      rewrite (proj2 (Z.eqb_neq _ _) (No x (or_introl eq_refl))). exact IHl.
Qed.

Lemma find_voo_sym (l : list Voo) (k : Z) :
  find (fun w => k =? v_id w) l = find (fun w => v_id w =? k) l.
Proof.
  induction l as [|w l IH]; simpl; [reflexivity|].
  rewrite (Z.eqb_sym k (v_id w)). now rewrite IH.
Qed.

(** X26.  Every ticket a purchase answered 201 lists is ready for check-in:
    the first statement of the check-in finds it under the id returned,
    without a seat, on the flight it was bought for, which had not departed
    at the time of the purchase. *)
Theorem purchased_ticket_awaits_checkin
    (voo_id : Z) (data : json) (now : Z) (db db' : Database)
    (codigo_reserva : Z) (detalhes : list (Z * string * bool * Z))
    (id : Z) (nome : string) (prim_classe : bool) (preco : Z) :
  purchase_tickets voo_id data now db
  = ((201, PurchaseSuccessful codigo_reserva detalhes), db') ->
  In (id, nome, prim_classe, preco) detalhes ->
  exists b v,
    bilhete_join_voo (tables db') id = Some (b, v)
    /\ b_lugar b = None
    /\ b_voo_id b = voo_id
    /\ v_id v = voo_id
    /\ now < v_hora_partida v.
Proof.
  unfold purchase_tickets.
  destruct (validate_purchase data) as [r0|[nif entries]] eqn:V.
  { intros H. exfalso. injection H as -> _. revert V. unfold validate_purchase.
    destruct (negb (truthy data)); [discriminate|].
    destruct data as [|b|n|x|l|m]; try discriminate.
    destruct (nif_valid _); [|discriminate].
    destruct (dict_get "bilhetes_a_comprar" m) as [|b|n|x|[|b bs]|m'];
      try discriminate.
    destruct (tickets_valid 0 (b :: bs)); discriminate. }
  destruct (find (fun v => v_id v =? voo_id) (voo (tables db))) as [v|] eqn:F.
  2:{ unfold respond, transaction, purchase_body, bind, select_voo_for_update,
        ret. rewrite F. discriminate. }
  unfold respond, transaction.
  rewrite (@purchase_body_found voo_id nif entries now db v F).
  destruct (v_hora_partida v <=? now) eqn:Hd; [discriminate|].
  apply Z.leb_gt in Hd.
  unfold insert_reservation, bind.
  destruct (insert_venda nif (v_partida v) now db) as [[c|e] db1] eqn:E1.
  2:{ intros H. discriminate H. }
  apply insert_venda_ok in E1 as (_ & _ & _ & nif' & T1).
  destruct (insert_bilhetes voo_id c (v_no_serie v) entries db1)
    as [[ds|e] db2] eqn:E2.
  2:{ intros H. discriminate H. }
  unfold ret. intros H. injection H as -> -> ->. intros I.
  destruct (insert_bilhetes_fresh _ _ _ _ _ _ _ E2)
    as (rows & T2 & Ids & Fr & Fresh).
  assert (Ib : In id (map b_id rows)).
  { rewrite <- Ids. apply in_map_iff.
    exists (id, nome, prim_classe, preco). auto. }
  apply in_map_iff in Ib as (b & Eb & Ib).
  destruct (in_split _ _ Ib) as (r1 & r2 & Sp).
  rewrite Forall_forall in Fr. destruct (Fr b Ib) as [Vb Lb].
  pose proof (find_some _ _ F) as [_ Ev]. apply Z.eqb_eq in Ev.
  exists b, v. split; [|auto].
  apply bilhete_join_voo_first
    with (pre := bilhete (tables db1) ++ r1) (post := r2).
  - rewrite T2. simpl. rewrite Sp. now rewrite <- app_assoc.
  - intros x Hx. rewrite <- Eb. now apply (Fresh r1 b r2 Sp).
  - exact Eb.
  - rewrite T2, T1. simpl. rewrite Vb, find_voo_sym. exact F.
Qed.

End Service.

(** * The properties on the sample data *)

(** C1, where the handler departs from it.  On an aircraft whose free economy
    seats are "1A" and "01B", both of row 1, check-in assigns "01B": the
    second sort key of [sql_find_seat] removes only the first digit of the
    label, so it compares "A" with "1B" instead of "A" with "B".  In the
    order of the specification (row number, then cabin letter) the free seat
    "1A" comes strictly first. *)
Theorem checkin_leading_zero_row_order :
  fst (checkin_ticket no_trigger 1 0 leading_zero_db)
  = (200, CheckinSuccessful 1 "01B" "EMBR-002")
  /\ free_seat leading_zero_tables "EMBR-002" false 1
               (mkAssento "1A" "EMBR-002" false)
  /\ free_seat leading_zero_tables "EMBR-002" false 1
               (mkAssento "01B" "EMBR-002" false)
  /\ seat_order_spec "1A" "01B" = true
  /\ seat_order_spec "01B" "1A" = false.
Proof.
  split; [reflexivity|].
  split; [apply seat_candidates_spec; vm_compute; auto|].
  split; [apply seat_candidates_spec; vm_compute; auto|].
  split; reflexivity.
Qed.

(** Two entries with the same passenger name: the second insert violates the
    UNIQUE (voo_id, codigo_reserva, nome_passegeiro), and the sale and the
    first ticket are rolled back; the values drawn from the sequences are
    lost.  The handler means to answer an integrity violation with 409, but
    it looks for the SQLSTATE under [pgcode], which the error does not
    have, and the request is answered 500. *)
Example purchase_duplicate_passenger_rolls_back :
  purchase_tickets no_trigger 42
    (JObj [("nif_cliente", JStr "123456789");
           ("bilhetes_a_comprar",
            JArr [JObj [("nome_passageiro", JStr "Ana Silva");
                        ("prim_classe", JBool false)];
                  JObj [("nome_passageiro", JStr "Ana Silva");
                        ("prim_classe", JBool true)]])])
    0 sample_db
  = ((500, DatabaseError (Some "23505")), mkDatabase sample_tables 2 10).
Proof. reflexivity. Qed.

(** The specification's second scenario: one economy ticket on flight 42. *)
Example purchase_scenario :
  fst (purchase_tickets no_trigger 42 sample_purchase 0 sample_db)
  = (201, PurchaseSuccessful 2 [(9, "Ana Silva", false, 15000)]).
Proof. reflexivity. Qed.

(** The specification's third scenario: ticket 7 already has seat "2A". *)
Example checkin_scenario :
  checkin_ticket no_trigger 7 0 sample_db
  = ((409, CheckinAlreadyCompleted 7 "2A"), sample_db).
Proof. reflexivity. Qed.

(** [bilhete.id] is a key of the sample data. *)
Lemma sample_bilhete_key : NoDup (map b_id (bilhete (tables sample_db))).
Proof.
  simpl. constructor.
  - simpl. intros [H|[]]. discriminate H.
  - constructor; [intros []|constructor].
Defined.



(** A purchase of one ticket on flight 42 that succeeds. *)
Lemma purchase_all_or_nothing_witness :
  let voo_id := 42 in
  let now := 0 in
  let db := sample_db in
  let r := fst (purchase_tickets no_trigger 42 sample_purchase 0 sample_db) in
  let db' := snd (purchase_tickets no_trigger 42 sample_purchase 0 sample_db) in
  status r = 201
  /\ exists v nif entries rows,
      requested sample_purchase nif entries
      /\ find (fun v => v_id v =? voo_id) (voo (tables db)) = Some v
      /\ now < v_hora_partida v
      /\ tables db'
         = mkTables (aeroporto (tables db)) (aviao (tables db))
             (assento (tables db)) (voo (tables db))
             (venda (tables db)
              ++ [mkVenda (venda_codigo_reserva_seq db + 1) nif (v_partida v) now])
             (bilhete (tables db) ++ rows)
      /\ Forall2 (ticket_for voo_id (venda_codigo_reserva_seq db + 1)
                             (v_no_serie v))
                 entries rows
      /\ r = (201, PurchaseSuccessful (venda_codigo_reserva_seq db + 1)
                     (map summary_of (combine entries rows))).
Proof.
  intros voo_id now db r db'.
  split; [reflexivity|].
  exact (proj1 (purchase_all_or_nothing no_trigger voo_id sample_purchase now db
                  db' r
                  (surjective_pairing
                     (purchase_tickets no_trigger 42 sample_purchase 0 sample_db)))
               eq_refl).
Defined.

(** The check-in of ticket 8, which succeeds. *)
Lemma checkin_writes_one_row_witness :
  let bilhete_id := 8 in
  let db := sample_db in
  let r := fst (checkin_ticket no_trigger 8 0 sample_db) in
  let db' := snd (checkin_ticket no_trigger 8 0 sample_db) in
  status r = 200
  /\ exists pre b post v lugar b',
      bilhete (tables db) = pre ++ b :: post
      /\ b_id b = bilhete_id
      /\ In v (voo (tables db)) /\ v_id v = b_voo_id b
      /\ sql_find_seat (v_no_serie v) (b_prim_classe b) (b_voo_id b) db
         = (Ok (Some lugar), db)
      /\ same_but_seat b b'
      /\ b_lugar b' = Some lugar
      /\ b_no_serie b' = Some (v_no_serie v)
      /\ db' = mkDatabase
                 (mkTables (aeroporto (tables db)) (aviao (tables db))
                    (assento (tables db)) (voo (tables db)) (venda (tables db))
                    (pre ++ b' :: post))
                 (venda_codigo_reserva_seq db) (bilhete_id_seq db)
      /\ r = (200, CheckinSuccessful bilhete_id lugar (v_no_serie v)).
Proof.
  intros bilhete_id db r db'.
  split; [reflexivity|].
  exact (checkin_writes_one_row no_trigger bilhete_id 0 db db' r
           sample_bilhete_key
           (surjective_pairing (checkin_ticket no_trigger 8 0 sample_db))
           eq_refl).
Defined.

(** Ticket 7 already has a seat; ticket 8 is checked in twice. *)
Lemma checkin_twice_conflicts_witness :
  checkin_ticket no_trigger 7 9999 sample_db
  = ((409, CheckinAlreadyCompleted 7 "2A"), sample_db)
  /\ checkin_ticket no_trigger 8 0 sample_db
     = ((200, CheckinSuccessful 8 "2B" "AIRB-001"),
        snd (checkin_ticket no_trigger 8 0 sample_db))
  /\ checkin_ticket no_trigger 8 9999 (snd (checkin_ticket no_trigger 8 0 sample_db))
     = ((409, CheckinAlreadyCompleted 8 "2B"),
        snd (checkin_ticket no_trigger 8 0 sample_db)).
Proof.
  split; [|split].
  - apply (proj1 (checkin_twice_conflicts no_trigger 7 sample_db
                    sample_bilhete_key))
      with (b := mkBilhete 7 42 1 "Rui Costa" 15000 false (Some "2A")
                           (Some "AIRB-001")).
    + simpl. left. reflexivity.
    + reflexivity.
    + reflexivity.
    + exists (mkVoo 42 "AIRB-001" 5000 9000 "LIS" "CDG"). simpl.
      split; [left|]; reflexivity.
  - reflexivity.
  - apply (proj2 (checkin_twice_conflicts no_trigger 8 sample_db
                    sample_bilhete_key))
      with (now1 := 0) (no_serie := "AIRB-001").
    reflexivity.
Defined.

(** Equal codes of an airport that does not exist; two distinct lowercase
    codes, one of them unknown once upper-cased. *)
Lemma equal_codes_witness :
  status (list_next_available_flights sample_tables 0 "OPO" "OPO") = 400
  /\ Py.is_ascii "lis" = true /\ Py.is_ascii "opo" = true
  /\ status (list_next_available_flights sample_tables 0 "lis" "opo") = 404
  /\ (String.length "lis" = 3%nat /\ has_letter "lis" = true)
  /\ (String.length "opo" = 3%nat /\ has_letter "opo" = true)
  /\ Py.upper "lis" <> Py.upper "opo"
  /\ (~ In (Py.upper "lis") (map a_codigo (aeroporto sample_tables))
      \/ ~ In (Py.upper "opo") (map a_codigo (aeroporto sample_tables))).
Proof.
  split.
  - exact (proj1 (equal_codes_are_a_validation_error sample_tables 0 "OPO" "OPO")
                 eq_refl).
  - split; [reflexivity|]. split; [reflexivity|]. split; [reflexivity|].
    exact (proj2 (equal_codes_are_a_validation_error sample_tables 0 "lis" "opo")
                 eq_refl eq_refl eq_refl).
Defined.

(** The format gate on a lowercase code, a well-formed code and a code of
    four letters. *)
Lemma code_format_gate_witness :
  list_flights_from_departure sample_tables 0 "lis" = (400, DepartureCodeInvalid)
  /\ status (list_flights_from_departure sample_tables 0 "LIS")
     = (if airport_exists sample_tables "LIS" then 200 else 404)
  /\ list_next_available_flights sample_tables 0 "LISB" "CDG"
     = (400, AirportCodesInvalid)
  /\ status (list_next_available_flights sample_tables 0 "lis" "cdg")
     = (if airport_exists sample_tables (Py.upper "lis")
           && airport_exists sample_tables (Py.upper "cdg")
        then 200 else 404)
  /\ Py.is_ascii "lis" = true /\ Py.is_ascii "cdg" = true
  /\ Py.is_ascii "LIS" = true /\ Py.is_ascii "CDG" = true
  /\ Py.is_ascii "LISB" = true.
Proof.
  split; [|split; [|split; [|split]]].
  - destruct (code_format_gate sample_tables 0 "lis" "cdg" eq_refl eq_refl)
      as (H & _).
    apply H. right. left. reflexivity.
  - destruct (code_format_gate sample_tables 0 "LIS" "CDG" eq_refl eq_refl)
      as (_ & H & _).
    apply H. reflexivity.
  - destruct (code_format_gate sample_tables 0 "LISB" "CDG" eq_refl eq_refl)
      as (_ & _ & H & _).
    apply H. left. left. discriminate.
  - destruct (code_format_gate sample_tables 0 "lis" "cdg" eq_refl eq_refl)
      as (_ & _ & _ & H).
    apply H; [reflexivity | reflexivity | discriminate].
  - repeat split.
Defined.


(** What the route answers on the sample data: the two flights, earliest
    first. *)
Example next_available_flights_scenario :
  list_next_available_flights sample_tables 0 "LIS" "CDG"
  = (200, AvailableFlights [(43, "AIRB-001", 3000); (42, "AIRB-001", 5000)]).
Proof. reflexivity. Qed.

(** The departures of LIS in the sample data, seen at time 0. *)
Lemma upcoming_departures_witness :
  exists flights,
    Permutation flights
      (filter (fun v => String.eqb (v_partida v) "LIS"
                        && (0 <? v_hora_partida v)
                        && (v_hora_partida v <=? 0 + 43200000000))
              (voo sample_tables))
    /\ StronglySorted (fun u w => v_hora_partida u <= v_hora_partida w) flights
    /\ list_flights_from_departure sample_tables 0 "LIS"
       = match flights with
         | [] => (200, NoFlightsNext12h "LIS")
         | _ => (200, FlightsFrom
                        (map (fun v => (v_no_serie v, v_hora_partida v,
                                        v_chegada v)) flights))
         end.
Proof.
  exact (upcoming_departures_spec sample_tables 0 "LIS" eq_refl eq_refl).
Defined.

Lemma sample_voo_key : NoDup (map v_id (voo (tables sample_db))).
Proof.
  simpl. constructor.
  - simpl. intros [H|[]]. discriminate H.
  - constructor; [intros []|constructor].
Defined.

Lemma economy_only_bilhete_key :
  NoDup (map b_id (bilhete (tables economy_only_db))).
Proof.
  simpl. constructor.
  - simpl. intros [H|[H|[]]]; discriminate H.
  - constructor.
    + simpl. intros [H|[]]. discriminate H.
    + constructor; [intros []|constructor].
Defined.

Lemma economy_only_voo_key : NoDup (map v_id (voo (tables economy_only_db))).
Proof. simpl. constructor; [intros []|constructor]. Defined.

Lemma sample_no_double_booking : no_double_booking (tables sample_db).
Proof.
  intros b1 b2 lugar no_serie I1 I2 V L1 L2 N1 N2. simpl in I1, I2.
  destruct I1 as [<-|[<-|[]]]; destruct I2 as [<-|[<-|[]]];
    try reflexivity; discriminate.
Defined.

Lemma sample_seated_in_class : seated_in_class (tables sample_db).
Proof.
  intros b lugar no_serie I L N. simpl in I.
  destruct I as [<-|[<-|[]]].
  - injection L as <-. injection N as <-. simpl. auto 6.
  - discriminate L.
Defined.

(** No ticket of the sample data has the id 99. *)
Lemma checkin_unknown_ticket_witness :
  checkin_ticket no_trigger 99 0 sample_db
  = ((404, TicketNotFound 99), sample_db).
Proof.
  apply (checkin_unknown_ticket no_trigger 99 0 sample_db).
  intros b [<-|[<-|[]]]; discriminate.
Defined.

(** Ticket 8 is on flight 42, which leaves at 5000. *)
Lemma checkin_after_departure_witness :
  checkin_ticket no_trigger 8 5000 sample_db
  = ((409, CheckinFlightDeparted), sample_db).
Proof.
  apply (checkin_after_departure no_trigger 8 5000 sample_db
           (mkBilhete 8 42 1 "Ana Silva" 15000 false None (Some "AIRB-001"))
           (mkVoo 42 "AIRB-001" 5000 9000 "LIS" "CDG")
           sample_bilhete_key sample_voo_key).
  - simpl. auto.
  - reflexivity.
  - reflexivity.
  - simpl. auto.
  - reflexivity.
  - apply Z.le_refl.
Defined.

(** Ticket 7 already has a seat: its check-in is refused. *)
Lemma checkin_writes_only_on_success_witness :
  snd (checkin_ticket no_trigger 7 0 sample_db) = sample_db.
Proof.
  apply (checkin_writes_only_on_success no_trigger 7 0 sample_db).
  intros H. discriminate H.
Defined.

(** Ticket 8 gets seat 2B: 2A is taken, and 10A comes after 2B. *)
Lemma checkin_assigns_first_free_seat_witness :
  let db := sample_db in
  let bilhete_id := 8 in
  let lugar := "2B" in
  let no_serie := "AIRB-001" in
  exists b v a,
    bilhete_join_voo (tables db) bilhete_id = Some (b, v)
    /\ no_serie = v_no_serie v
    /\ free_seat (tables db) (v_no_serie v) (b_prim_classe b) (b_voo_id b) a
    /\ s_lugar a = lugar
    /\ forall a',
        free_seat (tables db) (v_no_serie v) (b_prim_classe b) (b_voo_id b) a' ->
        seat_order_sql lugar (s_lugar a').
Proof.
  exact (checkin_assigns_first_free_seat no_trigger 8 0 sample_db
           (snd (checkin_ticket no_trigger 8 0 sample_db)) "2B" "AIRB-001"
           eq_refl).
Defined.

(** A first-class ticket on an aircraft that has economy seats only. *)
Lemma checkin_without_free_seat_witness :
  checkin_ticket no_trigger 1 0 economy_only_db
  = ((409, NoSeatsAvailable true 1 "EMBR-002"), economy_only_db).
Proof.
  apply (checkin_without_free_seat no_trigger 1 0 economy_only_db
           (mkBilhete 1 1 1 "Ana Silva" 50000 true None (Some "EMBR-002"))
           (mkVoo 1 "EMBR-002" 5000 9000 "LIS" "CDG")).
  - reflexivity.
  - reflexivity.
  - reflexivity.
  - intros a (Ia & _ & Ca & _). simpl in Ia.
    destruct Ia as [<-|[<-|[]]]; discriminate Ca.
Defined.

(** Row 2 before row 10, although "10A" is the smaller text. *)
Lemma sql_seat_order_witness :
  (seat_order_sql "2B" "10A" <-> seat_order_spec "2B" "10A" = true)
  /\ seat_order_spec "2B" "10A" = true.
Proof.
  split; [|reflexivity].
  apply (sql_seat_order_is_row_then_letter "2B" "10A"); reflexivity.
Defined.

Lemma checkin_keeps_no_double_booking_witness :
  no_double_booking (tables sample_db)
  /\ no_double_booking (tables (snd (checkin_ticket no_trigger 8 0 sample_db))).
Proof.
  split; [exact sample_no_double_booking|].
  exact (checkin_keeps_no_double_booking no_trigger 8 0 sample_db
           sample_bilhete_key sample_no_double_booking).
Defined.

Lemma checkin_keeps_seated_in_class_witness :
  seated_in_class (tables sample_db)
  /\ seated_in_class (tables (snd (checkin_ticket no_trigger 8 0 sample_db))).
Proof.
  split; [exact sample_seated_in_class|].
  exact (checkin_keeps_seated_in_class no_trigger 8 0 sample_db
           sample_bilhete_key sample_seated_in_class).
Defined.

(** Tickets 2 and 3, both economy on flight 1, checked in one after the
    other: seats 1A and 1B. *)
Lemma sequential_checkins_witness :
  checkin_ticket no_trigger 2 0 economy_only_db
  = ((200, CheckinSuccessful 2 "1A" "EMBR-002"),
     snd (checkin_ticket no_trigger 2 0 economy_only_db))
  /\ checkin_ticket no_trigger 3 0
       (snd (checkin_ticket no_trigger 2 0 economy_only_db))
     = ((200, CheckinSuccessful 3 "1B" "EMBR-002"),
        snd (checkin_ticket no_trigger 3 0
               (snd (checkin_ticket no_trigger 2 0 economy_only_db))))
  /\ "1A" <> "1B".
Proof.
  split; [reflexivity|]. split; [reflexivity|].
  apply (sequential_checkins_take_distinct_seats no_trigger 2 3 0 0
           economy_only_db
           (snd (checkin_ticket no_trigger 2 0 economy_only_db))
           (snd (checkin_ticket no_trigger 3 0
                   (snd (checkin_ticket no_trigger 2 0 economy_only_db))))
           "1A" "1B" "EMBR-002" "EMBR-002"
           (mkBilhete 2 1 1 "Rui Costa" 15000 false None (Some "EMBR-002"))
           (mkBilhete 3 1 1 "Eva Dias" 15000 false None (Some "EMBR-002"))
           economy_only_bilhete_key economy_only_voo_key).
  - simpl. auto.
  - reflexivity.
  - simpl. auto.
  - reflexivity.
  - reflexivity.
  - reflexivity.
  - reflexivity.
Defined.

Lemma sample_keys_hold : keys_hold (tables sample_db).
Proof.
  split; [exact sample_bilhete_key|]. split; simpl.
  - constructor; [intros []|constructor].
  - constructor.
    + simpl. intros [H|[]]. discriminate H.
    + constructor; [intros []|constructor].
Defined.

Lemma sample_references_hold : references_hold (tables sample_db).
Proof.
  split; [|split]; simpl.
  - intros b [<-|[<-|[]]];
      exists (mkVoo 42 "AIRB-001" 5000 9000 "LIS" "CDG"); simpl; auto.
  - intros b [<-|[<-|[]]];
      exists (mkVenda 1 "123456789" "LIS" 10); simpl; auto.
  - intros s [<-|[]].
    exists (mkAeroporto "LIS" "Lisbon Airport" "Lisbon" "Portugal").
    simpl. auto.
Defined.

(** The keys of the sample data, before and after the sample purchase. *)
Lemma purchase_keeps_keys_witness :
  keys_hold (tables sample_db)
  /\ keys_hold
       (tables (snd (purchase_tickets no_trigger 42 sample_purchase 0 sample_db))).
Proof.
  split; [exact sample_keys_hold|].
  exact (purchase_keeps_keys no_trigger 42 sample_purchase 0 sample_db
           sample_keys_hold).
Defined.

Lemma purchase_keeps_references_witness :
  references_hold (tables sample_db)
  /\ references_hold
       (tables (snd (purchase_tickets no_trigger 42 sample_purchase 0 sample_db))).
Proof.
  split; [exact sample_references_hold|].
  exact (purchase_keeps_references no_trigger 42 sample_purchase 0 sample_db
           sample_references_hold).
Defined.

Lemma purchase_keeps_seat_invariants_witness :
  no_double_booking
    (tables (snd (purchase_tickets no_trigger 42 sample_purchase 0 sample_db)))
  /\ seated_in_class
       (tables (snd (purchase_tickets no_trigger 42 sample_purchase 0 sample_db))).
Proof.
  exact (purchase_keeps_seat_invariants no_trigger 42 sample_purchase 0
           sample_db (conj sample_no_double_booking sample_seated_in_class)).
Defined.

(** No flight of the sample data has the id 99. *)
Lemma purchase_unknown_flight_witness :
  purchase_tickets no_trigger 99 sample_purchase 0 sample_db
  = ((404, FlightNotFound 99), sample_db).
Proof.
  apply (purchase_unknown_flight no_trigger 99 sample_purchase 0 sample_db
           "123456789" [("Ana Silva", false)] eq_refl).
  intros v [<-|[<-|[]]]; discriminate.
Defined.

(** One ticket bought on flight 42: its ticket count goes from 2 to 3. *)
Lemma purchase_consumes_capacity_witness :
  let voo_id := 42 in
  let data := sample_purchase in
  let db := sample_db in
  let db' := snd (purchase_tickets no_trigger 42 sample_purchase 0 sample_db) in
  count_bilhete (tables db') 42 = 3
  /\ exists fields items,
      data = JObj fields
      /\ dict_get "bilhetes_a_comprar" fields = JArr items
      /\ count_bilhete (tables db') voo_id
         = count_bilhete (tables db) voo_id + Z.of_nat (List.length items)
      /\ (forall other, other <> voo_id ->
            count_bilhete (tables db') other = count_bilhete (tables db) other)
      /\ (forall no_serie,
            count_assento (tables db') no_serie
            = count_assento (tables db) no_serie).
Proof.
  intros voo_id data db db'. split; [reflexivity|].
  exact (purchase_consumes_capacity no_trigger 42 sample_purchase 0 sample_db
           db' (fst (purchase_tickets no_trigger 42 sample_purchase 0 sample_db))
           (surjective_pairing _) eq_refl).
Defined.

(** The sample purchase on an aircraft without any seat is still a 201. *)
Lemma purchase_never_looks_at_seats_witness :
  purchase_tickets no_trigger 42 sample_purchase 0 (replace_seats sample_db [])
  = (fst (purchase_tickets no_trigger 42 sample_purchase 0 sample_db),
     replace_seats
       (snd (purchase_tickets no_trigger 42 sample_purchase 0 sample_db)) [])
  /\ status (fst (purchase_tickets no_trigger 42 sample_purchase 0
                    (replace_seats sample_db []))) = 201.
Proof.
  split; [|reflexivity].
  apply (purchase_never_looks_at_seats no_trigger 42 sample_purchase 0
           sample_db []).
  intros t l w. reflexivity.
Defined.

(** The entry at index 1 has a blank name; the entry at index 0 is fine. *)
Lemma purchase_reports_first_bad_ticket_witness :
  ascii_json (JObj blank_name_purchase) = true
  /\ validate_purchase (JObj blank_name_purchase)
     = inl (400, TicketFormatInvalid 1)
  /\ exists items j,
      dict_get "bilhetes_a_comprar" blank_name_purchase = JArr items
      /\ nth_error items 1 = Some j
      /\ ~ entry_ok j
      /\ forall n x, (n < 1)%nat -> nth_error items n = Some x -> entry_ok x.
Proof.
  split; [reflexivity|]. split; [reflexivity|].
  exact (purchase_reports_first_bad_ticket blank_name_purchase 1 eq_refl
           eq_refl).
Defined.

(** The purchase of the second scenario meets the preconditions and is let
    through; the purchase with a blank name does not and is answered 400. *)
Lemma validate_purchase_object_witness :
  ascii_json sample_purchase = true
  /\ ascii_json (JObj blank_name_purchase) = true
  /\ (exists nif entries, validate_purchase sample_purchase = inr (nif, entries))
  /\ (exists b, validate_purchase (JObj blank_name_purchase) = inl (400, b)).
Proof.
  split; [reflexivity|]. split; [reflexivity|]. split.
  - apply (proj1 (validate_purchase_object
                    [("nif_cliente", JStr "123456789");
                     ("bilhetes_a_comprar",
                      JArr [JObj [("nome_passageiro", JStr "Ana Silva");
                                  ("prim_classe", JBool false)]])]
                    eq_refl)).
    split.
    + exists "123456789". repeat split.
    + eexists. split; [reflexivity|]. split; [discriminate|].
      constructor; [|constructor].
      eexists _, "Ana Silva", false. repeat split.
  - apply (proj2 (validate_purchase_object blank_name_purchase eq_refl)).
    intros [_ (items & E & _ & F)].
    injection E as <-.
    inversion F as [|? ? _ F']; subst.
    inversion F' as [|? ? (fields & nome & cls & J & A & B & _) _]; subst.
    injection J as <-. injection A as <-. discriminate B.
Defined.

(** A name with a quote in it, followed by the rest of the INSERT. *)
Lemma format_sql_string_witness :
  read_sql_literal
    (format_sql_string "Chicago O'Hare" ++ String "'" ", 'Chicago');")
  = Some ("Chicago O'Hare", ", 'Chicago');").
Proof.
  apply (format_sql_string_round_trip "Chicago O'Hare" ", 'Chicago');").
  reflexivity.
Defined.

(** Seat 2B comes before seat 10A. *)
Lemma generated_seat_order_witness :
  seat_label 10 "A" = "10A"
  /\ (seat_order_sql (seat_label 2 "B") (seat_label 10 "A")
      <-> (2 < 10)%nat \/ (2%nat = 10%nat /\ (Py.code "B" <= Py.code "A")%N)).
Proof.
  split; [reflexivity|].
  apply (generated_seat_order 2 10 "B" "A");
    first [ reflexivity | split; repeat constructor ].
Defined.

Lemma letters_ABCD_distinct : NoDup ["A"; "B"; "C"; "D"]%char.
Proof.
  constructor; [simpl; intros [H|[H|[H|[]]]]; discriminate H|].
  constructor; [simpl; intros [H|[H|[]]]; discriminate H|].
  constructor; [simpl; intros [H|[]]; discriminate H|].
  constructor; [intros []|constructor].
Defined.

(** The Embraer E195-E2 of the generator: 25 rows of A, B, C, D. *)
Lemma plane_seats_fit_schema_witness :
  let seats := plane_seats "EMBR-002" 25 2 ["A"; "B"; "C"; "D"]%char in
  List.length seats = (25 * List.length ["A"; "B"; "C"; "D"]%char)%nat
  /\ Forall (fun a => seat_label_format (s_lugar a) = true
                      /\ s_no_serie a = "EMBR-002") seats
  /\ NoDup (map s_lugar seats).
Proof.
  apply (plane_seats_fit_schema "EMBR-002" 25 2 ["A"; "B"; "C"; "D"]%char).
  - repeat constructor.
  - exact letters_ABCD_distinct.
  - repeat constructor.
Defined.

(** Seat 3A of that aircraft is in row 3, past the two first-class rows. *)
Lemma plane_seats_class_witness :
  exists row,
    seat_row "3A" = Some row
    /\ 1 <= row <= Z.of_nat 25
    /\ (false = true <-> row <= Z.of_nat 2).
Proof.
  apply (plane_seats_class "EMBR-002" 25 2 ["A"; "B"; "C"; "D"]%char
           (mkAssento "3A" "EMBR-002" false)).
  - repeat constructor.
  - repeat constructor.
  - apply plane_seats_In. exists 3%nat, "A"%char.
    split; [split; repeat constructor|]. split; [now left | reflexivity].
Defined.

(** The ticket the sample purchase creates is ticket 9 of flight 42. *)
Lemma purchased_ticket_awaits_checkin_witness :
  let db' := snd (purchase_tickets no_trigger 42 sample_purchase 0 sample_db) in
  exists b v,
    bilhete_join_voo (tables db') 9 = Some (b, v)
    /\ b_lugar b = None
    /\ b_voo_id b = 42
    /\ v_id v = 42
    /\ 0 < v_hora_partida v.
Proof.
  intros db'.
  apply (purchased_ticket_awaits_checkin no_trigger 42 sample_purchase 0
           sample_db db' 2 [(9, "Ana Silva", false, 15000)]
           9 "Ana Silva" false 15000).
  - reflexivity.
  - now left.
Defined.

(** Bought, then checked in: ticket 9 gets the first free economy seat. *)
Example purchase_then_checkin :
  fst (checkin_ticket no_trigger 9 0
         (snd (purchase_tickets no_trigger 42 sample_purchase 0 sample_db)))
  = (200, CheckinSuccessful 9 "2B" "AIRB-001").
Proof. reflexivity. Qed.
